(** * platformstats: the PMBus power-rail reporter of [src/platformstats.c]

    A shallow embedding of the hwmon enumeration, the PMBus device/channel
    resolver and the rail reporter, together with the properties of the
    specification that concern them.

    Conventions of the embedding.
    - C [int] and [long] values are [Z].  A number read by [sscanf] or
      [fscanf] is brought into its type as the C library does: [%ld] keeps
      the nearest [long], [%d] the low 32 bits of that.  The integers the
      code computes itself (an index plus one, a count, a quotient) are
      assumed to fit their types.
    - C strings are [string]; the fixed-size buffers of the source
      ([char filename[255]] and friends) are assumed large enough.
    - The sysfs tree is a parameter: which files open and with what contents,
      which directories open and what [readdir] yields, in order.
    - Locals the source reads before writing them ([reg_label], the
      [malloc]'ed [device_name], the reporter's [filename] and
      [pmbus_value]) start with arbitrary contents, supplied as parameters.
    - Every function returns, besides its C results, the trace of what it
      printed and of the stdio/dirent calls it made, in program order. *)

From Stdlib Require Import ZArith List Bool Lia.
From Stdlib Require Import Strings.String Strings.Ascii Numbers.DecimalString.
Import ListNotations.

Open Scope string_scope.
Open Scope Z_scope.

(** ** C library functions used by the source *)

(** [isspace] in the C locale. *)
Definition isspace (c : ascii) : bool :=
  let n := nat_of_ascii c in
  (n =? 32)%nat || ((9 <=? n)%nat && (n <=? 13)%nat).

Fixpoint skip_space (s : string) : string :=
  match s with
  | String c s' => if isspace c then skip_space s' else s
  | EmptyString => EmptyString
  end.

Fixpoint take_word (s : string) : string :=
  match s with
  | String c s' => if isspace c then EmptyString else String c (take_word s')
  | EmptyString => EmptyString
  end.

(** The token a [%s] conversion reads from a stream holding [content]:
    leading white space is skipped, then characters are taken up to the next
    white space.  [None] when the stream ends before any character (the
    conversion fails and the destination buffer is left as it was). *)
Definition scan_token (content : string) : option string :=
  match take_word (skip_space content) with
  | EmptyString => None
  | w => Some w
  end.

(** [fscanf(fp, "%s", buf)]: the new contents of [buf]. *)
Definition fscanf_s (content buf : string) : string :=
  match scan_token content with
  | Some w => w
  | None => buf
  end.

Definition digit_of (c : ascii) : option Z :=
  let n := nat_of_ascii c in
  if ((48 <=? n)%nat && (n <=? 57)%nat)%bool
  then Some (Z.of_nat (n - 48)) else None.

Fixpoint scan_digits (acc : Z) (s : string) : Z :=
  match s with
  | String c s' =>
      match digit_of c with
      | Some d => scan_digits (10 * acc + d) s'
      | None => acc
      end
  | EmptyString => acc
  end.

Definition scan_unsigned (s : string) : option Z :=
  match s with
  | String c _ =>
      match digit_of c with
      | Some _ => Some (scan_digits 0 s)
      | None => None
      end
  | EmptyString => None
  end.

(** The number a [%d] or [%ld] conversion finds in its input: white space,
    an optional sign, then at least one decimal digit.  [None] is a matching
    failure, which leaves the destination variable as it was. *)
Definition scan_int (s : string) : option Z :=
  match skip_space s with
  | String "-"%char s' => option_map Z.opp (scan_unsigned s')
  | String "+"%char s' => scan_unsigned s'
  | s' => scan_unsigned s'
  end.

(** The range of [long], 64 bits wide. *)
Definition LONG_MAX : Z := 9223372036854775807.
Definition LONG_MIN : Z := -9223372036854775808.

(** What a conversion keeps of the number [v] written in its input: the C
    library converts with [strtol], which gives the nearest end of the range
    of [long] for a number outside it. *)
Definition strtol_range (v : Z) : Z := Z.max LONG_MIN (Z.min LONG_MAX v).

(** The [int] made of the low 32 bits of [v]: what storing a [long] through
    an [int *] keeps. *)
Definition int_of_long (v : Z) : Z :=
  (v + 2147483648) mod 4294967296 - 2147483648.

(** [fscanf(fp, "%ld", &x)] with [long x]: the new value of [x]. *)
Definition scanf_ld (s : string) (x : Z) : Z :=
  match scan_int s with
  | Some v => strtol_range v
  | None => x
  end.

(** [sscanf(s, "%d", &x)] with [int x]: the new value of [x]. *)
Definition scanf_d (s : string) (x : Z) : Z :=
  match scan_int s with
  | Some v => int_of_long (strtol_range v)
  | None => x
  end.

(** [sprintf(buf, "%d", n)]. *)
Definition sprintf_d (n : Z) : string :=
  NilZero.string_of_int (Z.to_int n).

(** [strstr(haystack, needle) != NULL]. *)
Fixpoint strstr (haystack needle : string) : bool :=
  String.prefix needle haystack ||
  match haystack with
  | String _ h' => strstr h' needle
  | EmptyString => false
  end.

(** [&s[n]]: the string that starts [n] characters into [s]; the empty string
    when [s] is shorter than that. *)
Fixpoint string_from (n : nat) (s : string) : string :=
  match n, s with
  | O, _ => s
  | S n', String _ s' => string_from n' s'
  | S _, EmptyString => EmptyString
  end.

Definition newline : string := String (ascii_of_nat 10) EmptyString.
Definition tab : string := String (ascii_of_nat 9) EmptyString.

(** [fgets(buf, size, fp)] on a stream holding [s], with [n = size - 1]: at
    most [n] characters, stopping after the first newline. *)
Fixpoint fgets_line (n : nat) (s : string) : string :=
  match n, s with
  | S n', String c s' =>
      if Ascii.eqb c (ascii_of_nat 10) then String c EmptyString
      else String c (fgets_line n' s')
  | _, _ => EmptyString
  end.

(** ** Data model *)

(** [struct pmbus_info], one row of a rail table.  The declaration is in
    [platformstats.h]; the fields and their order are those of the table
    initialisers and of the accesses in [platformstats.c]:
    device, address, name, label, alias, unit, division. *)
Record pmbus_info : Type := mk_pmbus_info {
  device : string;
  address : string;
  name : string;
  label : string;
  alias : string;
  unit : string;
  division : Z
}.

(** [pInfo->name = ...]. *)
Definition set_name (pInfo : pmbus_info) (n : string) : pmbus_info :=
  mk_pmbus_info (device pInfo) (address pInfo) n (label pInfo)
                (alias pInfo) (unit pInfo) (division pInfo).

(** The outcome of [fopen] or [opendir]: the object, or the error number
    left in [errno] (error numbers are positive). *)
Inductive opened (A : Type) : Type :=
| Ok (a : A)
| Err (e : positive).
Arguments Ok {A} a.
Arguments Err {A} e.

(** The file system the program runs on.  [sys_file path] is what
    [fopen(path, "r")] gives: the contents of the file when it opens.
    [sys_dir path] is what [opendir(path)] gives: the names that successive
    [readdir] calls return, in that order, "." and ".." included. *)
Record sysfs : Type := mk_sysfs {
  sys_file : string -> opened string;
  sys_dir : string -> opened (list string)
}.

(** What a run does that can be observed from outside, in program order.
    [Verbose] is a [printf] guarded by [if (verbose_flag)], [Printf] any
    other [printf]. *)
Inductive event : Type :=
| Printf (s : string)
| Verbose (s : string)
| Fopen (path : string)
| Fclose (path : string)
| Opendir (path : string)
| Closedir (path : string)
| Popen (command : string)
| Pclose (command : string).

Abbreviation trace := (list event).

(** [if (verbose_flag) printf(s);] *)
Definition diag (verbose_flag : bool) (s : string) : trace :=
  if verbose_flag then [Verbose s] else [].

(** ** Sysfs scalar reader *)

(** [read_sysfs_entry(filename, value)].  Takes the caller's [value] buffer
    and the current [errno]; gives the return value, the buffer, [errno] and
    the trace.  The source has no [fclose] on any path. *)
Definition read_sysfs_entry (fs : sysfs) (filename value : string) (errno : Z)
  : Z * string * Z * trace :=
  match sys_file fs filename with
  | Err e =>
      (Z.pos e, value, Z.pos e,
       [Fopen filename; Printf ("Unable to open " ++ filename ++ newline)])
  | Ok content =>
      (0, fscanf_s content value, errno, [Fopen filename])
  end.

(** The streams a trace leaves open: each [fopen] that succeeds on [fs]
    adds its path, each [fclose] removes one stream of that path. *)
Fixpoint remove_one (p : string) (l : list string) : list string :=
  match l with
  | [] => []
  | q :: l' => if String.eqb p q then l' else q :: remove_one p l'
  end.

Fixpoint open_streams (fs : sysfs) (t : trace) (acc : list string) : list string :=
  match t with
  | [] => acc
  | Fopen p :: t' =>
      match sys_file fs p with
      | Ok _ => open_streams fs t' (p :: acc)
      | Err _ => open_streams fs t' acc
      end
  | Fclose p :: t' => open_streams fs t' (remove_one p acc)
  | _ :: t' => open_streams fs t' acc
  end.

(** ** Hwmon enumerator *)

Definition hwmon_class : string := "/sys/class/hwmon".

(** [count_hwmon_reg_devices()]: return value, [errno], trace. *)
Definition count_hwmon_reg_devices (fs : sysfs) (errno : Z) : Z * Z * trace :=
  match sys_dir fs hwmon_class with
  | Err e =>
      (Z.pos e, Z.pos e,
       [Opendir hwmon_class;
        Printf ("Unable to open /sys/class/hwmon path" ++ newline)])
  | Ok entries =>
      (Z.of_nat (List.length (filter (fun d_name => strstr d_name "hwmon") entries)),
       errno,
       [Opendir hwmon_class; Closedir hwmon_class])
  end.

(** ** Device/channel resolver *)

(** The variables [get_pmbus_device_filename] reads and writes besides
    [hwmon_id] and [*pInfo]: the caller's [filename] buffer, the local
    buffers [device_name] and [reg_label], and [errno]. *)
Record store : Type := mk_store {
  st_filename : string;
  st_device_name : string;
  st_reg_label : string;
  st_errno : Z
}.

Definition set_filename (m : store) (f : string) : store :=
  mk_store f (st_device_name m) (st_reg_label m) (st_errno m).
Definition set_device_name (m : store) (d : string) : store :=
  mk_store (st_filename m) d (st_reg_label m) (st_errno m).
Definition set_reg_label (m : store) (l : string) : store :=
  mk_store (st_filename m) (st_device_name m) l (st_errno m).
Definition set_errno (m : store) (e : Z) : store :=
  mk_store (st_filename m) (st_device_name m) (st_reg_label m) e.

(** The three ways [get_pmbus_device_filename] returns: [return hwmon_id],
    [return(errno)] and [return(-1)]. *)
Inductive exit : Type :=
| Found (hwmon_id : Z)
| Errno (e : Z)
| NotFound.

(** The [int] the caller receives. *)
Definition exit_code (x : exit) : Z :=
  match x with
  | Found hwmon_id => hwmon_id
  | Errno e => e
  | NotFound => -1
  end.

Record resolution : Type := mk_resolution {
  res_exit : exit;
  res_info : pmbus_info;
  res_store : store;
  res_trace : trace
}.

Definition emit (t : trace) (r : option resolution) : option resolution :=
  match r with
  | Some r' =>
      Some (mk_resolution (res_exit r') (res_info r') (res_store r')
                          (t ++ res_trace r'))
  | None => None
  end.

(** The paths the resolver builds with [strcpy] and [strcat]. *)
Definition hwmon_dir (hwmon_id_str : string) : string :=
  "/sys/class/hwmon/hwmon" ++ hwmon_id_str.
Definition driver_name_file (hwmon_id_str addr : string) : string :=
  "/sys/class/hwmon/hwmon" ++ hwmon_id_str ++ "/device/driver/" ++ addr ++ "/name".
Definition driver_hwmon_dir (hwmon_id_str addr : string) : string :=
  "/sys/class/hwmon/hwmon" ++ hwmon_id_str ++ "/device/driver/" ++ addr ++ "/hwmon".
Definition attribute_file (hwmon_id_str attr : string) : string :=
  "/sys/class/hwmon/hwmon" ++ hwmon_id_str ++ "/" ++ attr.

(** [strcpy(reg_name, d_name); strcpy(&reg_name[strlen(d_name)-5], "input");] *)
Definition input_of_label (d_name : string) : string :=
  substring 0 (String.length d_name - 5) d_name ++ "input".

(** The label scan, lines 1859-1900: the [while ((dir = readdir(d)) != NULL)]
    loop over the entries that are left.  It either returns from the
    function with a match ([ScanHit]: the descriptor with its [name] set,
    the store with the attribute path in [filename]) or falls out of the
    loop ([ScanMiss]). *)
Inductive scan : Type :=
| ScanHit (pInfo : pmbus_info) (m : store) (t : trace)
| ScanMiss (m : store) (t : trace).

Definition scan_emit (t : trace) (s : scan) : scan :=
  match s with
  | ScanHit pInfo m t' => ScanHit pInfo m (t ++ t')
  | ScanMiss m t' => ScanMiss m (t ++ t')
  end.

Fixpoint label_scan (fs : sysfs) (verbose_flag : bool) (pInfo : pmbus_info)
    (hwmon_id_str : string) (entries : list string) (m : store) : scan :=
  match entries with
  | [] => ScanMiss m []
  | d_name :: rest =>
      if strstr d_name "label" then
        let path := attribute_file hwmon_id_str d_name in
        let m := set_filename m path in
        match sys_file fs path with
        | Err e =>
            scan_emit [Fopen path; Printf ("unable to open " ++ path ++ newline)]
              (label_scan fs verbose_flag pInfo hwmon_id_str rest
                 (set_errno m (Z.pos e)))
        | Ok content =>
            let m := set_reg_label m (fscanf_s content (st_reg_label m)) in
            if String.eqb (st_reg_label m) (label pInfo) then
              let reg_name := input_of_label d_name in
              let pInfo' := set_name pInfo reg_name in
              let m := set_filename m (attribute_file hwmon_id_str reg_name) in
              ScanHit pInfo' m
                ([Fopen path; Fclose path] ++
                 diag verbose_flag
                   (tab ++ device pInfo ++ "@" ++ address pInfo ++ "-" ++
                    label pInfo ++ " => " ++ st_filename m ++ newline))
            else
              scan_emit [Fopen path; Fclose path]
                (label_scan fs verbose_flag pInfo hwmon_id_str rest m)
        end
      else label_scan fs verbose_flag pInfo hwmon_id_str rest m
  end.

(** One pass through the body of the
    [for (hwmon_id = 0; hwmon_id < num_hwmon_devices; hwmon_id++)] loop,
    lines 1770-1904.  It ends at a [continue] or at the closing brace
    ([Continue], with the value [hwmon_id] has after the [hwmon_id++] of the
    loop header) or at a [return] ([Stop]). *)
Inductive step : Type :=
| Continue (hwmon_id : Z) (m : store) (t : trace)
| Stop (r : resolution).

Definition loop_body (fs : sysfs) (verbose_flag : bool) (pInfo : pmbus_info)
    (hwmon_id : Z) (m : store) : step :=
  let hwmon_id_str := sprintf_d hwmon_id in
  let path := driver_name_file hwmon_id_str (address pInfo) in
  let m := set_filename m path in
  match sys_file fs path with
  | Err e =>
      (* continue *)
      Continue (hwmon_id + 1) (set_errno m (Z.pos e)) [Fopen path]
  | Ok content =>
      let m := set_device_name m (fscanf_s content (st_device_name m)) in
      let t1 := ([Fopen path; Fclose path] ++
                 diag verbose_flag
                   (tab ++ path ++ " => " ++ st_device_name m ++ newline))%list in
      if negb (String.eqb (device pInfo) (st_device_name m)) then
        (* continue *)
        Continue (hwmon_id + 1) m t1
      else
        let dpath := driver_hwmon_dir hwmon_id_str (address pInfo) in
        let m := set_filename m dpath in
        match sys_dir fs dpath with
        | Err e =>
            Stop (mk_resolution (Errno (Z.pos e)) pInfo (set_errno m (Z.pos e))
                    (t1 ++ [Opendir dpath;
                            Printf ("Unable to open " ++ dpath ++ " path" ++ newline)]))
        | Ok entries =>
            (* dir = readdir(d), three times *)
            match nth_error entries 2 with
            | None =>
                Stop (mk_resolution (Errno (st_errno m)) pInfo m
                        (t1 ++ [Opendir dpath;
                                Printf ("Unable to read " ++ dpath ++ " directory" ++ newline)]))
            | Some d_name =>
                let t2 := (t1 ++ [Opendir dpath] ++
                           diag verbose_flag
                             (tab ++ dpath ++ " => " ++ d_name ++ newline))%list in
                let hwmon_id := scanf_d (string_from 5 d_name) hwmon_id in
                let hwmon_id_str := sprintf_d hwmon_id in
                if negb (String.eqb (name pInfo) "") then
                  let m := set_filename m (attribute_file hwmon_id_str (name pInfo)) in
                  Stop (mk_resolution (Found hwmon_id) pInfo m
                          (t2 ++
                           diag verbose_flag
                             (tab ++ device pInfo ++ "@" ++ address pInfo ++ "-" ++
                              label pInfo ++ " => " ++ st_filename m ++ newline)))
                else
                  let t3 := (t2 ++
                             diag verbose_flag
                               (tab ++ "Searching for name that matches label " ++
                                label pInfo ++ newline))%list in
                  let hpath := hwmon_dir hwmon_id_str in
                  let m := set_filename m hpath in
                  match sys_dir fs hpath with
                  | Err e =>
                      Stop (mk_resolution (Errno (Z.pos e)) pInfo
                              (set_errno m (Z.pos e))
                              (t3 ++ [Opendir hpath;
                                      Printf ("Unable to open " ++ hpath ++ " path" ++ newline)]))
                  | Ok labels =>
                      match label_scan fs verbose_flag pInfo hwmon_id_str labels m with
                      | ScanHit pInfo' m' t =>
                          Stop (mk_resolution (Found hwmon_id) pInfo' m'
                                  (t3 ++ [Opendir hpath] ++ t))
                      | ScanMiss m' t =>
                          Continue (hwmon_id + 1) m'
                            (t3 ++ [Opendir hpath] ++ t ++ [Closedir hpath])
                      end
                  end
            end
        end
  end.

(** The loop, from the test of its condition on, and the [return(-1)] that
    follows it.  The body assigns [hwmon_id] (the [sscanf] of line 1825), so
    the loop is not bounded by [num_hwmon_devices]: [fuel] bounds the number
    of times the condition is tested, and [None] means that it ran out. *)
Fixpoint resolve_from (fuel : nat) (fs : sysfs) (verbose_flag : bool)
    (pInfo : pmbus_info) (num_hwmon_devices hwmon_id : Z) (m : store)
  : option resolution :=
  match fuel with
  | O => None
  | S fuel' =>
      if hwmon_id <? num_hwmon_devices then
        match loop_body fs verbose_flag pInfo hwmon_id m with
        | Continue hwmon_id' m' t =>
            emit t (resolve_from fuel' fs verbose_flag pInfo num_hwmon_devices
                      hwmon_id' m')
        | Stop r => Some r
        end
      else
        Some (mk_resolution NotFound pInfo m [])
  end.

(** [get_pmbus_device_filename(verbose_flag, pInfo, filename)].  [m] holds
    the caller's [filename] buffer, [errno], and what the fresh locals
    [device_name] and [reg_label] happen to contain. *)
Definition get_pmbus_device_filename (fuel : nat) (fs : sysfs)
    (verbose_flag : bool) (pInfo : pmbus_info) (m : store) : option resolution :=
  let '(num_hwmon_devices, e, t) := count_hwmon_reg_devices fs (st_errno m) in
  emit t (resolve_from fuel fs verbose_flag pInfo num_hwmon_devices 0
            (set_errno m e)).

(** ** Rail reporter *)

(** Where the reporter leaves defined C behaviour: [fscanf] and [fclose] on
    the null stream (lines 1944-1945, after an [fopen] that failed), a
    division by a zero [division], and reading a table past its last row
    (a table without the closing row of empty [device]). *)
Inductive fault : Type :=
| NullStream
| DivisionByZero
| PastTheEnd.

Inductive status : Type :=
| Returned
| Faulted (f : fault).

(** What the locals of one resolver call contain when it starts. *)
Record garbage : Type := mk_garbage {
  g_device_name : string;
  g_reg_label : string
}.

Record report : Type := mk_report {
  rep_status : status;
  rep_list : list pmbus_info;   (* the table, as the run leaves it *)
  rep_filename : string;
  rep_value : Z;
  rep_errno : Z;
  rep_trace : trace
}.

Definition rep_emit (t : trace) (row : option pmbus_info) (r : option report)
  : option report :=
  match r with
  | Some r' =>
      Some (mk_report (rep_status r')
              (match row with Some x => x :: rep_list r' | None => rep_list r' end)
              (rep_filename r') (rep_value r') (rep_errno r')
              (t ++ rep_trace r'))
  | None => None
  end.

(** The result line of line 1946. *)
Definition result_line (row : pmbus_info) (value : Z) : string :=
  tab ++ device row ++ "@" ++ address row ++ "-" ++ label row ++
  " (" ++ alias row ++ ") = " ++ sprintf_d value ++ " " ++ unit row ++ newline.

(** The [while (strcmp(pmbus_list[i].device, ""))] loop of
    [print_pmbus_info], lines 1924-1949, on the rows from index [i] on.
    [stack i] is what the locals of the resolver call for row [i] contain
    when it starts. *)
Fixpoint report_from (fuel : nat) (fs : sysfs) (verbose_flag : bool)
    (stack : nat -> garbage) (i : nat) (rows : list pmbus_info)
    (filename : string) (pmbus_value : Z) (errno : Z) : option report :=
  match rows with
  | [] => Some (mk_report (Faulted PastTheEnd) [] filename pmbus_value errno [])
  | row :: rest =>
    if String.eqb (device row) "" then
      Some (mk_report Returned rows filename pmbus_value errno [])
    else
      let t0 := diag verbose_flag
                  ("[" ++ sprintf_d (Z.of_nat i) ++ "] " ++ device row ++ "," ++
                   address row ++ "," ++ label row ++ "," ++ name row ++ "," ++
                   unit row ++ newline) in
      match get_pmbus_device_filename fuel fs verbose_flag row
              (mk_store filename (g_device_name (stack i))
                        (g_reg_label (stack i)) errno) with
      | None => None
      | Some res =>
          let row' := res_info res in
          let filename := st_filename (res_store res) in
          let errno := st_errno (res_store res) in
          let t1 := (t0 ++ res_trace res ++
                     diag verbose_flag
                       (tab ++ device row' ++ "@" ++ address row' ++ "-" ++
                        label row' ++ " => " ++ filename ++ newline))%list in
          match sys_file fs filename with
          | Err e =>
              Some (mk_report (Faulted NullStream) (row' :: rest) filename
                      pmbus_value (Z.pos e)
                      (t1 ++ [Fopen filename;
                              Printf ("unable to open " ++ filename ++ newline)]))
          | Ok content =>
              let pmbus_value := scanf_ld content pmbus_value in
              if division row' =? 0 then
                Some (mk_report (Faulted DivisionByZero) (row' :: rest) filename
                        pmbus_value errno
                        (t1 ++ [Fopen filename; Fclose filename]))
              else
                rep_emit
                  (t1 ++ [Fopen filename; Fclose filename;
                          Printf (result_line row'
                                    (Z.quot pmbus_value (division row')))])
                  (Some row')
                  (report_from fuel fs verbose_flag stack (S i) rest
                     filename pmbus_value errno)
          end
      end
  end.

(** What the locals of one [print_pmbus_info] call contain when it starts,
    and what those of the resolver calls it makes will contain. *)
Record frame : Type := mk_frame {
  f_filename : string;
  f_pmbus_value : Z;
  f_stack : nat -> garbage
}.

(** [print_pmbus_info(verbose_flag, pmbus_list)]. *)
Definition print_pmbus_info (fuel : nat) (fs : sysfs) (verbose_flag : bool)
    (fr : frame) (pmbus_list : list pmbus_info) (errno : Z) : option report :=
  rep_emit [Printf (newline ++ "Power Utilization:" ++ newline)] None
    (report_from fuel fs verbose_flag (f_stack fr) 0 pmbus_list
       (f_filename fr) (f_pmbus_value fr) errno).

(** ** Rail tables *)

(** The closing row of each table, [{ "", "", "", "", "", 1 }]: five empty
    strings, then the initialiser 1 for the [unit] pointer; [division] has none
    and is 0.  Only [device] of this row is ever read; [unit] is the empty
    string here. *)
Definition pmbus_end : pmbus_info := mk_pmbus_info "" "" "" "" "" "" 0.

Definition pmbus_ultra96v2 : list pmbus_info :=
  [
    mk_pmbus_info "ir38060" "6-0045" "" "pout1" "         5V" "mW" 1000;
    mk_pmbus_info "ir38060" "6-0045" "" "iout1" "         5V" "mA" 1;
    mk_pmbus_info "ir38060" "6-0045" "" "iout1" "         5V" "mV" 1;
    mk_pmbus_info "ir38060" "6-0045" "temp1_input" "temp1" "Temperature" "C" 1000;
    mk_pmbus_info "irps5401" "6-0043" "" "pout1" "     VCCAUX" "mW" 1000;
    mk_pmbus_info "irps5401" "6-0043" "" "pout2" "  VCCO 1.2V" "mW" 1000;
    mk_pmbus_info "irps5401" "6-0043" "" "pout3" "  VCCO 1.1V" "mW" 1000;
    mk_pmbus_info "irps5401" "6-0043" "" "pout4" "     VCCINT" "mW" 1000;
    mk_pmbus_info "irps5401" "6-0043" "" "pout5" "    3.3V DP" "mW" 1000;
    mk_pmbus_info "irps5401" "6-0043" "temp1_input" "temp1" "Temperature" "C" 1000;
    mk_pmbus_info "irps5401" "6-0044" "" "pout1" "   VCCPSAUX" "mW" 1000;
    mk_pmbus_info "irps5401" "6-0044" "" "pout2" "   PSINT_LP" "mW" 1000;
    mk_pmbus_info "irps5401" "6-0044" "" "pout3" "  VCCO 3.3V" "mW" 1000;
    mk_pmbus_info "irps5401" "6-0044" "" "pout4" "   PSINT_FP" "mW" 1000;
    mk_pmbus_info "irps5401" "6-0044" "" "pout5" " PSPLL 1.2V" "mW" 1000;
    mk_pmbus_info "irps5401" "6-0044" "temp1_input" "temp1" "Temperature" "C" 1000;
    pmbus_end
  ].

Definition pmbus_uz7ev_evcc : list pmbus_info :=
  [
    mk_pmbus_info "ir38063" "6-004c" "" "pout1" "              Carrier 3V3" "mW" 1000;
    mk_pmbus_info "ir38063" "6-004b" "" "pout1" "              Carrier 1V8" "mW" 1000;
    mk_pmbus_info "irps5401" "6-004a" "" "pout1" "      Carrier 0V9 MGTAVCC" "mW" 1000;
    mk_pmbus_info "irps5401" "6-004a" "" "pout2" "      Carrier 1V2 MGTAVTT" "mW" 1000;
    mk_pmbus_info "irps5401" "6-004a" "" "pout3" "         Carrier 1V1 HDMI" "mW" 1000;
    mk_pmbus_info "irps5401" "6-004a" "" "pout5" "Carrier 1V8 MGTVCCAUX LDO" "mW" 1000;
    mk_pmbus_info "irps5401" "6-0049" "" "pout1" "    Carrier 0V85 MGTRAVCC" "mW" 1000;
    mk_pmbus_info "irps5401" "6-0049" "" "pout2" "         Carrier 1V8 VCCO" "mW" 1000;
    mk_pmbus_info "irps5401" "6-0049" "" "pout3" "         Carrier 3V3 VCCO" "mW" 1000;
    mk_pmbus_info "irps5401" "6-0049" "" "pout4" "          Carrier 5V MAIN" "mW" 1000;
    mk_pmbus_info "irps5401" "6-0049" "" "pout5" " Carrier 1V8 MGTRAVTT LDO" "mW" 1000;
    mk_pmbus_info "irps5401" "6-0049" "temp1_input" "temp1" "              Temperature" "C" 1000;
    mk_pmbus_info "ir38063" "6-0048" "" "pout1" "          SOM 0V85 VCCINT" "mW" 1000;
    mk_pmbus_info "irps5401" "6-0047" "" "pout1" "           SOM 1V8 VCCAUX" "mW" 1000;
    mk_pmbus_info "irps5401" "6-0047" "" "pout2" "                  SOM 3V3" "mW" 1000;
    mk_pmbus_info "irps5401" "6-0047" "" "pout3" "           SOM 0V9 VCUINT" "mW" 1000;
    mk_pmbus_info "irps5401" "6-0047" "" "pout4" "       SOM 1V2 VCCO_HP_66" "mW" 1000;
    mk_pmbus_info "irps5401" "6-0047" "" "pout5" "    SOM 1V8 PSDDR_PLL LDO" "mW" 1000;
    mk_pmbus_info "irps5401" "6-0047" "temp1_input" "temp1" "              Temperature" "C" 1000;
    mk_pmbus_info "irps5401" "6-0046" "" "pout1" "        SOM 1V2 VCCO_PSIO" "mW" 1000;
    mk_pmbus_info "irps5401" "6-0046" "" "pout2" "     SOM 0V85 VCC_PSINTLP" "mW" 1000;
    mk_pmbus_info "irps5401" "6-0046" "" "pout3" "  SOM 1V2 VCCO_PSDDR4_504" "mW" 1000;
    mk_pmbus_info "irps5401" "6-0046" "" "pout4" "     SOM 0V85 VCC_PSINTFP" "mW" 1000;
    mk_pmbus_info "irps5401" "6-0046" "" "pout5" "    SOM 1V2 VCC_PSPLL LDO" "mW" 1000;
    mk_pmbus_info "irps5401" "6-0046" "temp1_input" "temp1" "              Temperature" "C" 1000;
    pmbus_end
  ].

Definition pmbus_uz3eg_xxx : list pmbus_info :=
  [
    mk_pmbus_info "irps5401" "6-0043" "" "pout1" "       PSIO" "mW" 1000;
    mk_pmbus_info "irps5401" "6-0043" "" "pout2" "     VCCAUX" "mW" 1000;
    mk_pmbus_info "irps5401" "6-0043" "" "pout3" "    PSINTLP" "mW" 1000;
    mk_pmbus_info "irps5401" "6-0043" "" "pout4" "    PSINTFP" "mW" 1000;
    mk_pmbus_info "irps5401" "6-0043" "" "pout5" "      PSPLL" "mW" 1000;
    mk_pmbus_info "irps5401" "6-0043" "temp1_input" "temp1" "Temperature" "C" 1000;
    mk_pmbus_info "irps5401" "6-0044" "" "pout1" "     PSDDR4" "mW" 1000;
    mk_pmbus_info "irps5401" "6-0044" "" "pout2" "     INT_IO" "mW" 1000;
    mk_pmbus_info "irps5401" "6-0044" "" "pout3" "       3.3V" "mW" 1000;
    mk_pmbus_info "irps5401" "6-0044" "" "pout4" "        INT" "mW" 1000;
    mk_pmbus_info "irps5401" "6-0044" "" "pout5" "   PSDDRPLL" "mW" 1000;
    mk_pmbus_info "irps5401" "6-0044" "temp1_input" "temp1" "Temperature" "C" 1000;
    mk_pmbus_info "irps5401" "6-0045" "" "pout1" "    MGTAVCC" "mW" 1000;
    mk_pmbus_info "irps5401" "6-0045" "" "pout2" "         5V" "mW" 1000;
    mk_pmbus_info "irps5401" "6-0045" "" "pout3" "       3.3V" "mW" 1000;
    mk_pmbus_info "irps5401" "6-0045" "" "pout4" "  VCCO 1.8V" "mW" 1000;
    mk_pmbus_info "irps5401" "6-0045" "" "pout5" "    MGTAVTT" "mW" 1000;
    mk_pmbus_info "irps5401" "6-0045" "temp1_input" "temp1" "Temperature" "C" 1000;
    pmbus_end
  ].

(** ** Power report *)

(** The three rail tables are globals that [get_pmbus_device_filename]
    writes to (the [name] of a row); a run starts from the initialisers. *)
Record tables : Type := mk_tables {
  tb_ultra96v2 : list pmbus_info;
  tb_uz7ev_evcc : list pmbus_info;
  tb_uz3eg_xxx : list pmbus_info
}.

Definition initial_tables : tables :=
  mk_tables pmbus_ultra96v2 pmbus_uz7ev_evcc pmbus_uz3eg_xxx.

(** How [print_power_utilization] ends: [return(0)], or inside one of its
    [print_pmbus_info] calls. *)
Inductive result : Type :=
| Return (code : Z)
| Abort (f : fault).

Record power : Type := mk_power {
  pw_result : result;
  pw_tables : tables;
  pw_errno : Z;
  pw_trace : trace
}.

(** One [if (strstr(hostname, fragment)) { ... print_pmbus_info(...); }]
    block of lines 1982-2006: how the call ended, the table, [errno] and
    the trace. *)
Definition board_block (fuel : nat) (fs : sysfs) (verbose_flag : bool)
    (fr : frame) (hostname fragment banner : string)
    (pmbus_list : list pmbus_info) (errno : Z)
  : option (status * list pmbus_info * Z * trace) :=
  if strstr hostname fragment then
    match print_pmbus_info fuel fs verbose_flag fr pmbus_list errno with
    | Some r =>
        Some (rep_status r, rep_list r, rep_errno r,
              diag verbose_flag (banner ++ newline) ++ rep_trace r)%list
    | None => None
    end
  else Some (Returned, pmbus_list, errno, []).

(** Lines 1966-1977: the first line of the output of the [hostname]
    command, through [popen] and [fgets] into [char hostname[128] = ""].
    [command_output] is [None] when [popen] fails, else what the command
    writes. *)
Definition read_hostname (verbose_flag : bool) (command_output : option string)
  : string * trace :=
  match command_output with
  | None => ("", [Popen "hostname"])
  | Some s =>
      match fgets_line 127 s with
      | EmptyString => ("", [Popen "hostname"; Pclose "hostname"])
      | line =>
          (line,
           [Popen "hostname"] ++
           diag verbose_flag ("hostname=" ++ line ++ newline) ++
           [Pclose "hostname"])%list
      end
  end.

(** [print_power_utilization(verbose_flag)].  [frames k] describes the
    locals of the [k]-th [print_pmbus_info] call site. *)
Definition print_power_utilization (fuel : nat) (fs : sysfs)
    (verbose_flag : bool) (command_output : option string)
    (frames : nat -> frame) (tbs : tables) (errno : Z) : option power :=
  let '(hostname, t0) := read_hostname verbose_flag command_output in
  match board_block fuel fs verbose_flag (frames 0%nat) hostname "u96v2"
          "Ultra96-V2" (tb_ultra96v2 tbs) errno with
  | None => None
  | Some (Faulted f, l1, e1, t1) =>
      Some (mk_power (Abort f) (mk_tables l1 (tb_uz7ev_evcc tbs) (tb_uz3eg_xxx tbs))
              e1 (t0 ++ t1))
  | Some (Returned, l1, e1, t1) =>
    match board_block fuel fs verbose_flag (frames 1%nat) hostname "uz7ev"
            "UltraZed-7EV-EVCC" (tb_uz7ev_evcc tbs) e1 with
    | None => None
    | Some (Faulted f, l2, e2, t2) =>
        Some (mk_power (Abort f) (mk_tables l1 l2 (tb_uz3eg_xxx tbs))
                e2 (t0 ++ t1 ++ t2))
    | Some (Returned, l2, e2, t2) =>
      match board_block fuel fs verbose_flag (frames 2%nat) hostname "uz3eg"
              "UltraZed-3EG" (tb_uz3eg_xxx tbs) e2 with
      | None => None
      | Some (Faulted f, l3, e3, t3) =>
          Some (mk_power (Abort f) (mk_tables l1 l2 l3) e3 (t0 ++ t1 ++ t2 ++ t3))
      | Some (Returned, l3, e3, t3) =>
          Some (mk_power (Return 0) (mk_tables l1 l2 l3) e3 (t0 ++ t1 ++ t2 ++ t3))
      end
    end
  end.

(** ** Test fixtures *)

(** A file system given by its list of files and of directories; every other
    path fails to open with [ENOENT]. *)
Definition ENOENT : positive := 2%positive.

Fixpoint lookup {A : Type} (l : list (string * A)) (path : string) : opened A :=
  match l with
  | [] => Err ENOENT
  | (p, a) :: l' => if String.eqb path p then Ok a else lookup l' path
  end.

Definition sysfs_of (files : list (string * string))
    (dirs : list (string * list string)) : sysfs :=
  mk_sysfs (lookup files) (lookup dirs).

Definition no_garbage : garbage := mk_garbage "" "".
Definition empty_frame : frame := mk_frame "" 0 (fun _ => no_garbage).
Definition empty_store : store := mk_store "" "" "" 0.

(** Scenario A of the specification: hwmon3 is the [irps5401] at 6-0043. *)
Definition scenario_A : sysfs :=
  sysfs_of
    [ ("/sys/class/hwmon/hwmon3/device/driver/6-0043/name", "irps5401" ++ newline);
      ("/sys/class/hwmon/hwmon3/temp1_label", "temp1" ++ newline);
      ("/sys/class/hwmon/hwmon3/temp1_input", "45000" ++ newline) ]
    [ ("/sys/class/hwmon", ["."; ".."; "hwmon0"; "hwmon1"; "hwmon2"; "hwmon3"]);
      ("/sys/class/hwmon/hwmon3/device/driver/6-0043/hwmon", ["."; ".."; "hwmon3"]);
      ("/sys/class/hwmon/hwmon3",
       ["."; ".."; "name"; "device"; "temp1_input"; "temp1_label"]) ].

Definition rail_A : pmbus_info :=
  mk_pmbus_info "irps5401" "6-0043" "" "temp1" "Temperature" "C" 1000.

(** ** Reading traces *)

(** What the run writes to standard output without [verbose_flag] asking
    for it: the report lines and the error messages. *)
Fixpoint printed (t : trace) : list string :=
  match t with
  | [] => []
  | Printf s :: t' => s :: printed t'
  | _ :: t' => printed t'
  end.

(** Everything the run writes to standard output. *)
Fixpoint stdout (t : trace) : string :=
  match t with
  | [] => ""
  | Printf s :: t' => s ++ stdout t'
  | Verbose s :: t' => s ++ stdout t'
  | _ :: t' => stdout t'
  end.

(** The file-system calls of a trace. *)
Definition is_access (e : event) : bool :=
  match e with
  | Fopen _ | Fclose _ | Opendir _ | Closedir _ => true
  | _ => false
  end.

(** A trace without its [Verbose] events. *)
Definition is_quiet (e : event) : bool :=
  match e with
  | Verbose _ => false
  | _ => true
  end.

Definition quiet (t : trace) : trace := filter is_quiet t.

(** The results of a run, with the [Verbose] events taken out of the trace. *)
Definition quiet_scan (s : scan) : scan :=
  match s with
  | ScanHit pInfo m t => ScanHit pInfo m (quiet t)
  | ScanMiss m t => ScanMiss m (quiet t)
  end.

Definition quiet_resolution (r : option resolution) : option resolution :=
  match r with
  | Some r' =>
      Some (mk_resolution (res_exit r') (res_info r') (res_store r')
              (quiet (res_trace r')))
  | None => None
  end.

Definition quiet_report (r : option report) : option report :=
  match r with
  | Some r' =>
      Some (mk_report (rep_status r') (rep_list r') (rep_filename r')
              (rep_value r') (rep_errno r') (quiet (rep_trace r')))
  | None => None
  end.

Definition quiet_step (s : step) : step :=
  match s with
  | Continue hwmon_id m t => Continue hwmon_id m (quiet t)
  | Stop r =>
      Stop (mk_resolution (res_exit r) (res_info r) (res_store r)
              (quiet (res_trace r)))
  end.

(** The lines of a text: its pieces between newline characters. *)
Fixpoint lines (s : string) : list string :=
  match s with
  | EmptyString => [""]
  | String c s' =>
      if Ascii.eqb c (ascii_of_nat 10) then "" :: lines s'
      else match lines s' with
           | l :: ls => String c l :: ls
           | [] => [String c ""]
           end
  end.

(** Scenario B of the specification: no hwmon instance is bound to 6-0043.
    The only instance, hwmon0, is the [irps5401] at 6-0044. *)
Definition scenario_B : sysfs :=
  sysfs_of
    [ ("/sys/class/hwmon/hwmon0/device/driver/6-0044/name", "irps5401" ++ newline);
      ("/sys/class/hwmon/hwmon0/temp1_label", "temp1" ++ newline);
      ("/sys/class/hwmon/hwmon0/temp1_input", "38000" ++ newline) ]
    [ ("/sys/class/hwmon", ["."; ".."; "hwmon0"]);
      ("/sys/class/hwmon/hwmon0/device/driver/6-0044/hwmon", ["."; ".."; "hwmon0"]);
      ("/sys/class/hwmon/hwmon0",
       ["."; ".."; "name"; "device"; "temp1_input"; "temp1_label"]) ].

Definition rail_B : pmbus_info :=
  mk_pmbus_info "irps5401" "6-0044" "temp1_input" "temp1" "Temperature" "C" 1000.

(** A table whose first rail is absent on [scenario_B] and whose second
    rail is present. *)
Definition table_B : list pmbus_info := [rail_A; rail_B; pmbus_end].

(** [ends_with s suffix]: some tail of [s] is [suffix]. *)
Fixpoint ends_with (s suffix : string) : bool :=
  String.eqb s suffix ||
  match s with
  | String _ s' => ends_with s' suffix
  | EmptyString => false
  end.

(** [has_char c s]: the character [c] occurs in [s]. *)
Fixpoint has_char (c : ascii) (s : string) : bool :=
  match s with
  | String c' s' => Ascii.eqb c c' || has_char c s'
  | EmptyString => false
  end.

(** The events of the first step of a resolution, the search for the hwmon
    instance bound to [addr]: counting the instances, reading a [name]
    under the driver of instance [N], listing the [hwmon] directory next
    to it. *)
Definition probe_event (addr : string) (e : event) : Prop :=
  match e with
  | Printf _ | Verbose _ => True
  | Fopen p | Fclose p => exists N : Z, p = driver_name_file (sprintf_d N) addr
  | Opendir p =>
      p = hwmon_class \/ exists N : Z, p = driver_hwmon_dir (sprintf_d N) addr
  | Closedir p => p = hwmon_class
  | Popen _ | Pclose _ => False
  end.

(** Two [irps5401] regulators, hwmon0 at 6-0043 and hwmon1 at 6-0044, as
    on the Ultra96-V2 and the UltraZed-3EG.  Both are bound to one driver,
    so the driver directory reached from either instance lists both
    addresses. *)
Definition scenario_twin : sysfs :=
  sysfs_of
    [ ("/sys/class/hwmon/hwmon0/device/driver/6-0043/name", "irps5401" ++ newline);
      ("/sys/class/hwmon/hwmon0/device/driver/6-0044/name", "irps5401" ++ newline);
      ("/sys/class/hwmon/hwmon1/device/driver/6-0043/name", "irps5401" ++ newline);
      ("/sys/class/hwmon/hwmon1/device/driver/6-0044/name", "irps5401" ++ newline);
      ("/sys/class/hwmon/hwmon0/pout1_label", "pout1" ++ newline);
      ("/sys/class/hwmon/hwmon0/pout1_input", "1250000" ++ newline);
      ("/sys/class/hwmon/hwmon0/pout2_label", "pout2" ++ newline);
      ("/sys/class/hwmon/hwmon0/pout2_input", "480000" ++ newline);
      ("/sys/class/hwmon/hwmon1/pout1_label", "pout1" ++ newline);
      ("/sys/class/hwmon/hwmon1/pout1_input", "730000" ++ newline);
      ("/sys/class/hwmon/hwmon1/pout2_label", "pout2" ++ newline);
      ("/sys/class/hwmon/hwmon1/pout2_input", "910000" ++ newline) ]
    [ ("/sys/class/hwmon", ["."; ".."; "hwmon0"; "hwmon1"]);
      ("/sys/class/hwmon/hwmon0/device/driver/6-0043/hwmon", ["."; ".."; "hwmon0"]);
      ("/sys/class/hwmon/hwmon1/device/driver/6-0043/hwmon", ["."; ".."; "hwmon0"]);
      ("/sys/class/hwmon/hwmon0/device/driver/6-0044/hwmon", ["."; ".."; "hwmon1"]);
      ("/sys/class/hwmon/hwmon1/device/driver/6-0044/hwmon", ["."; ".."; "hwmon1"]);
      ("/sys/class/hwmon/hwmon0",
       ["."; ".."; "name"; "pout1_input"; "pout1_label"; "pout2_input"; "pout2_label"]);
      ("/sys/class/hwmon/hwmon1",
       ["."; ".."; "name"; "pout1_input"; "pout1_label"; "pout2_input"; "pout2_label"]) ].

(** A rail of the first regulator whose label no channel carries, and one
    that exists. *)
Definition rail_pout5 : pmbus_info :=
  mk_pmbus_info "irps5401" "6-0043" "" "pout5" "    3.3V DP" "mW" 1000.
Definition rail_pout2 : pmbus_info :=
  mk_pmbus_info "irps5401" "6-0043" "" "pout2" "  VCCO 1.2V" "mW" 1000.

(** ** The resolver as a search

    What the resolver computes on a file system whose attribute files all
    hold a token, stated without the buffers and the trace. *)

(** Every file that opens holds at least one token, as the attribute files
    of sysfs do; then no [%s] conversion fails and no buffer is compared
    with what it contained before. *)
Definition files_hold_token (fs : sysfs) : Prop :=
  forall path content, sys_file fs path = Ok content -> scan_token content <> None.

(** Step 1 for instance [N]: is a device of the wanted model bound at the
    address under the driver of [N], and which hwmon index does its [hwmon]
    directory give. *)
Inductive binding : Type :=
| Unbound
| Broken
| BoundTo (hwmon_id : Z).

Definition probe (fs : sysfs) (pInfo : pmbus_info) (N : Z) : binding :=
  match sys_file fs (driver_name_file (sprintf_d N) (address pInfo)) with
  | Err _ => Unbound
  | Ok content =>
      if String.eqb (device pInfo) (fscanf_s content "") then
        match sys_dir fs (driver_hwmon_dir (sprintf_d N) (address pInfo)) with
        | Err _ => Broken
        | Ok entries =>
            match nth_error entries 2 with
            | None => Broken
            | Some d_name => BoundTo (scanf_d (string_from 5 d_name) N)
            end
        end
      else Unbound
  end.

(** The address leads to one hwmon index, whichever instance the search
    starts from: [hwmon<N>/device/driver/<address>] is the same device for
    every [N] that has it. *)
Definition consistent_bindings (fs : sysfs) (pInfo : pmbus_info) : Prop :=
  forall N N' M M',
    probe fs pInfo N = BoundTo M -> probe fs pInfo N' = BoundTo M' -> M = M'.

(** Step 2 without an explicit attribute: the first entry, in [readdir]
    order, whose name contains "label", that opens and whose token is the
    wanted label. *)
Fixpoint find_label (fs : sysfs) (hwmon_id_str lbl : string)
    (entries : list string) : option string :=
  match entries with
  | [] => None
  | d_name :: rest =>
      if strstr d_name "label" then
        match sys_file fs (attribute_file hwmon_id_str d_name) with
        | Ok content =>
            if String.eqb (fscanf_s content "") lbl then Some d_name
            else find_label fs hwmon_id_str lbl rest
        | Err _ => find_label fs hwmon_id_str lbl rest
        end
      else find_label fs hwmon_id_str lbl rest
  end.

(** What one pass through the loop body for instance [N] comes to. *)
Inductive outcome : Type :=
| GoOn (hwmon_id : Z)
| Fail
| Hit (hwmon_id : Z) (attr : string).

Definition expected (fs : sysfs) (pInfo : pmbus_info) (N : Z) : outcome :=
  match probe fs pInfo N with
  | Unbound => GoOn (N + 1)
  | Broken => Fail
  | BoundTo M =>
      if negb (String.eqb (name pInfo) "") then Hit M (name pInfo)
      else
        match sys_dir fs (hwmon_dir (sprintf_d M)) with
        | Err _ => Fail
        | Ok labels =>
            match find_label fs (sprintf_d M) (label pInfo) labels with
            | Some d_name => Hit M (input_of_label d_name)
            | None => GoOn (M + 1)
            end
        end
  end.

Definition realizes (pInfo : pmbus_info) (s : step) (o : outcome) : Prop :=
  match s, o with
  | Continue hwmon_id _ _, GoOn hwmon_id' => hwmon_id = hwmon_id'
  | Stop r, Fail => exists e, res_exit r = Errno e
  | Stop r, Hit M attr =>
      res_exit r = Found M /\
      res_info r = set_name pInfo attr /\
      st_filename (res_store r) = attribute_file (sprintf_d M) attr
  | _, _ => False
  end.

Definition no_hit (o : outcome) : Prop :=
  match o with
  | Hit _ _ => False
  | _ => True
  end.

(** ** Forgetting [errno]

    The results of a run with the error number taken out: [errno] itself,
    and the value of a [return(errno)]. *)
Definition forget_store (m : store) : store := set_errno m 0.

Definition forget_exit (x : exit) : exit :=
  match x with
  | Errno _ => Errno 0
  | _ => x
  end.

Definition forget_scan (s : scan) : scan :=
  match s with
  | ScanHit pInfo m t => ScanHit pInfo (forget_store m) t
  | ScanMiss m t => ScanMiss (forget_store m) t
  end.

Definition forget_resolution (r : resolution) : resolution :=
  mk_resolution (forget_exit (res_exit r)) (res_info r)
                (forget_store (res_store r)) (res_trace r).

Definition forget_step (s : step) : step :=
  match s with
  | Continue hwmon_id m t => Continue hwmon_id (forget_store m) t
  | Stop r => Stop (forget_resolution r)
  end.

Definition forget_report (r : option report) : option report :=
  match r with
  | Some r' =>
      Some (mk_report (rep_status r') (rep_list r') (rep_filename r')
              (rep_value r') 0 (rep_trace r'))
  | None => None
  end.

(** [when b t]: the trace of a block that runs only if [b]. *)
Definition when (b : bool) (t : trace) : trace := if b then t else [].

(** ** A board with several regulators *)

Fixpoint number {A : Type} (i : Z) (l : list A) : list (Z * A) :=
  match l with
  | [] => []
  | x :: l' => (i, x) :: number (i + 1) l'
  end.

Definition channels : list string :=
  ["pout1"; "pout2"; "pout3"; "pout4"; "pout5"; "iout1"].

Definition hwmon_listing : list string :=
  (["."; ".."; "name"; "temp1_input"] ++
   flat_map (fun c : string => [(c ++ "_input")%string; (c ++ "_label")%string])
            channels)%list.

Definition same_model (model : string) (c : Z * (string * string)) : bool :=
  String.eqb model (fst (snd c)).

(** The sysfs tree of a board whose hwmon instances are the regulators
    [chips] (model and address), numbered from 0.  Instance [i] has the
    channels of [channels], each with its label and a reading, and
    [temp1_input].  The regulators of one model share a driver, so each is
    reachable, by its address, from every instance of its model. *)
Definition board_sysfs (chips : list (string * string)) : sysfs :=
  let numbered := number 0 chips in
  sysfs_of
    (flat_map
       (fun c : Z * (string * string) =>
          let '(i, (model, addr)) := c in
          (map (fun c' : Z * (string * string) =>
                  (driver_name_file (sprintf_d (fst c')) addr,
                   (model ++ newline)%string))
               (filter (same_model model) numbered) ++
           (attribute_file (sprintf_d i) "temp1_input", ("45000" ++ newline)%string) ::
           flat_map
             (fun ch : string =>
                [(attribute_file (sprintf_d i) (ch ++ "_label"), (ch ++ newline)%string);
                 (attribute_file (sprintf_d i) (ch ++ "_input"),
                  ("1500000" ++ newline)%string)])
             channels)%list)
       numbered)
    ((hwmon_class,
      "." :: ".." :: map (fun c : Z * (string * string) => "hwmon" ++ sprintf_d (fst c))
                         numbered) ::
     flat_map
       (fun c : Z * (string * string) =>
          let '(i, (model, addr)) := c in
          (hwmon_dir (sprintf_d i), hwmon_listing) ::
          map (fun c' : Z * (string * string) =>
                 (driver_hwmon_dir (sprintf_d (fst c')) addr,
                  ["."; ".."; "hwmon" ++ sprintf_d i]))
              (filter (same_model model) numbered))
       numbered).

(** The regulators of the Ultra96-V2 and of the UltraZed-7EV carrier on one
    board. *)
Definition both_boards : sysfs :=
  board_sysfs
    [ ("ir38060", "6-0045"); ("irps5401", "6-0043"); ("irps5401", "6-0044");
      ("ir38063", "6-004c"); ("ir38063", "6-004b"); ("irps5401", "6-004a");
      ("irps5401", "6-0049"); ("ir38063", "6-0048"); ("irps5401", "6-0047");
      ("irps5401", "6-0046") ].

(** ** Reading traces, continued *)

(** The integers from [lo] up to, not including, [hi]. *)
Definition indices (lo hi : Z) : list Z :=
  map (fun k => lo + Z.of_nat k) (seq 0 (Z.to_nat (hi - lo))).

(** The directory streams a trace leaves open, as [open_streams] does for
    files: each [opendir] that succeeds on [fs] adds its path, each
    [closedir] removes one stream of that path. *)
Fixpoint open_dirs (fs : sysfs) (t : trace) (acc : list string) : list string :=
  match t with
  | [] => acc
  | Opendir p :: t' =>
      match sys_dir fs p with
      | Ok _ => open_dirs fs t' (p :: acc)
      | Err _ => open_dirs fs t' acc
      end
  | Closedir p :: t' => open_dirs fs t' (remove_one p acc)
  | _ :: t' => open_dirs fs t' acc
  end.

(** A trace that closes every file stream it opens. *)
Definition balanced (fs : sysfs) (t : trace) : Prop :=
  forall acc, open_streams fs t acc = acc.

(** A trace without [opendir] and [closedir]. *)
Definition no_dir_event (e : event) : Prop :=
  match e with
  | Opendir _ | Closedir _ => False
  | _ => True
  end.

(** The report of a table that has further rows [tail] behind the rows the
    run looked at. *)
Definition with_tail (tail : list pmbus_info) (r : option report) : option report :=
  match r with
  | Some r' =>
      Some (mk_report (rep_status r') (rep_list r' ++ tail) (rep_filename r')
              (rep_value r') (rep_errno r') (rep_trace r'))
  | None => None
  end.

(** A tree where the attribute file of [rail_B] holds no number. *)
Definition scenario_malformed : sysfs :=
  sysfs_of
    [ ("/sys/class/hwmon/hwmon0/device/driver/6-0044/name", "irps5401" ++ newline);
      ("/sys/class/hwmon/hwmon0/temp1_input", "n/a" ++ newline) ]
    [ ("/sys/class/hwmon", ["."; ".."; "hwmon0"]);
      ("/sys/class/hwmon/hwmon0/device/driver/6-0044/hwmon", ["."; ".."; "hwmon0"]);
      ("/sys/class/hwmon/hwmon0", ["."; ".."; "name"; "device"; "temp1_input"]) ].

(** The index read back from the driver's [hwmon] directory is never below
    the index of the instance the search is at (below [num]). *)
Definition forward_bindings (fs : sysfs) (addr : string) (num : Z) : Prop :=
  forall N entries d_name,
    0 <= N < num ->
    sys_dir fs (driver_hwmon_dir (sprintf_d N) addr) = Ok entries ->
    nth_error entries 2 = Some d_name ->
    N <= scanf_d (string_from 5 d_name) N.

(** An entry of the hwmon directory that the label scan would accept: its
    name contains "label", its file opens, and the token in it is [lbl]. *)
Definition label_matches (fs : sysfs) (hwmon_id_str lbl d_name : string) : Prop :=
  strstr d_name "label" = true /\
  exists content,
    sys_file fs (attribute_file hwmon_id_str d_name) = Ok content /\
    scan_token content = Some lbl.

Definition quiet_power (p : option power) : option power :=
  match p with
  | Some p' =>
      Some (mk_power (pw_result p') (pw_tables p') (pw_errno p')
              (quiet (pw_trace p')))
  | None => None
  end.

(** ** Lookup by device name *)

Definition hwmon_name_file (hwmon_id : Z) : string :=
  "/sys/class/hwmon/hwmon" ++ sprintf_d hwmon_id ++ "/name".

(** The [for (hwmon_id = 0; hwmon_id < num_hwmon_devices; hwmon_id++)] loop
    of [get_device_hwmon_id], lines 1231-1250, with [steps] passes left
    before the condition fails, and the [return(-1)] after it.  Gives the
    return value, the [device_name] buffer, [errno] and the trace. *)
Fixpoint hwmon_id_from (steps : nat) (fs : sysfs) (verbose_flag : bool)
    (name : string) (hwmon_id : Z) (device_name : string) (errno : Z)
  : Z * string * Z * trace :=
  match steps with
  | O => (-1, device_name, errno, [])
  | S steps' =>
      let filename := hwmon_name_file hwmon_id in
      let '(_, device_name, errno, t) :=
        read_sysfs_entry fs filename device_name errno in
      if String.eqb name device_name then (hwmon_id, device_name, errno, t)
      else
        let '(ret, device_name', errno', t') :=
          hwmon_id_from steps' fs verbose_flag name (hwmon_id + 1) device_name errno in
        (ret, device_name', errno',
         t ++ diag verbose_flag ("filename " ++ filename ++ newline) ++
         diag verbose_flag ("device_name = " ++ device_name ++ newline) ++ t')%list
  end.

(** [get_device_hwmon_id(verbose_flag, name)].  [device_name] is what the
    [malloc]'ed buffer of that name contains.  Gives the return value,
    [errno] and the trace. *)
Definition get_device_hwmon_id (fs : sysfs) (verbose_flag : bool) (name : string)
    (device_name : string) (errno : Z) : Z * Z * trace :=
  let '(num_hwmon_devices, errno, t) := count_hwmon_reg_devices fs errno in
  let '(ret, _, errno, t') :=
    hwmon_id_from (Z.to_nat num_hwmon_devices) fs verbose_flag name 0
      device_name errno in
  (ret, errno, (t ++ t')%list).

(** A tree where hwmon1 is an [ir38060] with its readings, behind an hwmon0
    of another kind. *)
Definition scenario_sbc : sysfs :=
  sysfs_of
    [ ("/sys/class/hwmon/hwmon0/name", "ams" ++ newline);
      ("/sys/class/hwmon/hwmon1/name", "ir38060" ++ newline);
      ("/sys/class/hwmon/hwmon1/power1_input", "4250000" ++ newline);
      ("/sys/class/hwmon/hwmon1/curr1_input", "850" ++ newline);
      ("/sys/class/hwmon/hwmon1/in2_input", "5000" ++ newline);
      ("/sys/class/hwmon/hwmon1/temp1_input", "41000" ++ newline) ]
    [ ("/sys/class/hwmon", ["."; ".."; "hwmon0"; "hwmon1"]) ].

(** Instance [j] carries the device name [name]: its [name] file opens and
    the token in it is [name]. *)
Definition named (fs : sysfs) (name : string) (j : Z) : Prop :=
  exists content,
    sys_file fs (hwmon_name_file j) = Ok content /\ scan_token content = Some name.

(** An event other than [fclose]. *)
Definition no_fclose (e : event) : Prop :=
  match e with
  | Fclose _ => False
  | _ => True
  end.

(** Instance [j] is passed over by the search for the device of [pInfo]:
    the [name] file under its driver for the address does not open, or it
    names another device. *)
Definition passed_over (fs : sysfs) (pInfo : pmbus_info) (j : Z) : Prop :=
  match sys_file fs (driver_name_file (sprintf_d j) (address pInfo)) with
  | Err _ => True
  | Ok content => exists w, scan_token content = Some w /\ w <> device pInfo
  end.

(** Instance [N] has the device of [pInfo] at the address under its driver,
    and the third entry that [readdir] gives in the [hwmon] directory next
    to it is [d_name]. *)
Definition bound_at (fs : sysfs) (pInfo : pmbus_info) (N : Z) (d_name : string)
  : Prop :=
  (exists content,
     sys_file fs (driver_name_file (sprintf_d N) (address pInfo)) = Ok content /\
     scan_token content = Some (device pInfo)) /\
  exists entries,
    sys_dir fs (driver_hwmon_dir (sprintf_d N) (address pInfo)) = Ok entries /\
    nth_error entries 2 = Some d_name.

(** The temperature rail of [scenario_A], with its attribute given. *)
Definition rail_A_temp : pmbus_info :=
  mk_pmbus_info "irps5401" "6-0043" "temp1_input" "temp1" "Temperature" "C" 1000.

(** The sysfs tree of an Ultra96-V2 alone: its three regulators and no
    other. *)
Definition ultra96v2_board : sysfs :=
  board_sysfs [ ("ir38060", "6-0045"); ("irps5401", "6-0043"); ("irps5401", "6-0044") ].

(** * Properties *)

Arguments nth_error : simpl never.
Arguments string_from : simpl never.
Arguments strstr : simpl never.
Arguments sprintf_d : simpl never.
Arguments scanf_d : simpl never.
Arguments scanf_ld : simpl never.
Arguments fscanf_s : simpl never.
Arguments String.eqb : simpl never.
Arguments Z.eqb : simpl never.
Arguments Z.ltb : simpl never.

(** ** The scalar reader and the enumerator *)

Lemma read_sysfs_entry_opened (fs : sysfs) (filename value content : string) (errno : Z) :
  sys_file fs filename = Ok content ->
  read_sysfs_entry fs filename value errno
  = (0, fscanf_s content value, errno, [Fopen filename]).
Proof.
  intros H. unfold read_sysfs_entry. rewrite H. reflexivity.
Qed.

(** C2 (fails on the code).  Whenever the file opens, [read_sysfs_entry]
    returns 0 with the stream it opened still open: its trace is the single
    [fopen], and the set of open streams has grown by that path.  Only the
    path on which [fopen] fails leaves no stream behind. *)
Theorem read_sysfs_entry_leaks_stream (fs : sysfs) (filename value content : string) (errno : Z) :
  sys_file fs filename = Ok content ->
  let '(ret, _, _, t) := read_sysfs_entry fs filename value errno in
  ret = 0 /\ t = [Fopen filename] /\ open_streams fs t [] = [filename].
Proof.
  intros H. rewrite (read_sysfs_entry_opened _ _ _ _ _ H).
  simpl. rewrite H. auto.
Qed.

Lemma read_sysfs_entry_leaks_stream_witness :
  sys_file scenario_A "/sys/class/hwmon/hwmon3/temp1_input" = Ok ("45000" ++ newline) /\
  let '(ret, _, _, t) :=
    read_sysfs_entry scenario_A "/sys/class/hwmon/hwmon3/temp1_input" "" 0 in
  ret = 0 /\ t = [Fopen "/sys/class/hwmon/hwmon3/temp1_input"] /\
  open_streams scenario_A t [] = ["/sys/class/hwmon/hwmon3/temp1_input"].
Proof.
  split; [reflexivity|].
  apply (read_sysfs_entry_leaks_stream scenario_A _ "" ("45000" ++ newline) 0).
  reflexivity.
Defined.

Lemma filter_none {A : Type} (f : A -> bool) (l : list A) :
  (forall x, In x l -> f x = false) -> filter f l = [].
Proof.
  induction l as [|x l IH]; simpl; intros H.
  - reflexivity.
  - rewrite (H x (or_introl eq_refl)). apply IH.
    intros y Hy. apply H. right. exact Hy.
Qed.

Lemma count_of_empty_listing (fs : sysfs) (entries : list string) (errno : Z) :
  sys_dir fs hwmon_class = Ok entries ->
  (forall d_name, In d_name entries -> strstr d_name "hwmon" = false) ->
  fst (fst (count_hwmon_reg_devices fs errno)) = 0.
Proof.
  intros Hdir Hnone. unfold count_hwmon_reg_devices. rewrite Hdir. simpl.
  rewrite (filter_none _ _ Hnone). reflexivity.
Qed.

(** C7.  When the class directory cannot be opened,
    [count_hwmon_reg_devices] returns the error number, which is not 0;
    when it opens and no entry contains "hwmon", it returns 0.  So the two
    results differ. *)
Theorem count_failure_is_not_zero (fs fs0 : sysfs) (e : positive)
    (entries : list string) (errno errno0 : Z) :
  sys_dir fs hwmon_class = Err e ->
  sys_dir fs0 hwmon_class = Ok entries ->
  (forall d_name, In d_name entries -> strstr d_name "hwmon" = false) ->
  fst (fst (count_hwmon_reg_devices fs errno)) = Z.pos e /\
  fst (fst (count_hwmon_reg_devices fs0 errno0)) = 0 /\
  fst (fst (count_hwmon_reg_devices fs errno))
  <> fst (fst (count_hwmon_reg_devices fs0 errno0)).
Proof.
  intros Hfail Hdir Hnone.
  assert (H1 : fst (fst (count_hwmon_reg_devices fs errno)) = Z.pos e).
  { unfold count_hwmon_reg_devices. rewrite Hfail. reflexivity. }
  pose proof (count_of_empty_listing fs0 entries errno0 Hdir Hnone) as H0.
  rewrite H1, H0. repeat split. discriminate.
Qed.

Lemma count_failure_is_not_zero_witness :
  fst (fst (count_hwmon_reg_devices (sysfs_of [] []) 0)) = 2 /\
  fst (fst (count_hwmon_reg_devices (sysfs_of [] [(hwmon_class, ["."; ".."])]) 0)) = 0 /\
  fst (fst (count_hwmon_reg_devices (sysfs_of [] []) 0))
  <> fst (fst (count_hwmon_reg_devices (sysfs_of [] [(hwmon_class, ["."; ".."])]) 0)).
Proof.
  apply (count_failure_is_not_zero (sysfs_of [] [])
           (sysfs_of [] [(hwmon_class, ["."; ".."])]) ENOENT ["."; ".."] 0 0).
  - reflexivity.
  - reflexivity.
  - intros d [H|[H|[]]]; subst d; reflexivity.
Defined.

(** ** Unsupported boards *)

(** C8.  When the host name contains none of "u96v2", "uz7ev" and "uz3eg",
    [print_power_utilization] returns 0 for every file system; it calls no
    [print_pmbus_info], so it touches no file, leaves the tables as they
    were and prints no report line: the only thing it can print is the
    [hostname=] line that [verbose_flag] asks for. *)
Theorem unknown_board_empty_report (fuel : nat) (fs : sysfs) (verbose_flag : bool)
    (command_output : option string) (frames : nat -> frame) (tbs : tables)
    (errno : Z) (hostname : string) (t0 : trace) :
  read_hostname verbose_flag command_output = (hostname, t0) ->
  strstr hostname "u96v2" = false ->
  strstr hostname "uz7ev" = false ->
  strstr hostname "uz3eg" = false ->
  exists p,
    print_power_utilization fuel fs verbose_flag command_output frames tbs errno
    = Some p /\
    pw_result p = Return 0 /\
    pw_tables p = tbs /\
    pw_errno p = errno /\
    printed (pw_trace p) = [] /\
    filter is_access (pw_trace p) = [] /\
    (verbose_flag = false -> stdout (pw_trace p) = "").
Proof.
  intros Hhost H1 H2 H3.
  unfold print_power_utilization, board_block. rewrite Hhost, H1, H2, H3.
  eexists. split; [reflexivity|]. simpl.
  rewrite !app_nil_r.
  destruct tbs as [l1 l2 l3]. simpl.
  unfold read_hostname in Hhost.
  destruct command_output as [s|].
  - destruct (fgets_line 127 s) eqn:Hline.
    + inversion Hhost; subst. simpl. auto 10.
    + inversion Hhost; subst. destruct verbose_flag; simpl; repeat split; auto.
      discriminate.
  - inversion Hhost; subst. simpl. auto 10.
Qed.

Lemma unknown_board_empty_report_witness :
  exists p,
    print_power_utilization 0 scenario_A true (Some ("zcu104" ++ newline))
      (fun _ => empty_frame) initial_tables 0 = Some p /\
    pw_result p = Return 0 /\
    pw_tables p = initial_tables /\
    pw_errno p = 0 /\
    printed (pw_trace p) = [] /\
    filter is_access (pw_trace p) = [] /\
    (true = false -> stdout (pw_trace p) = "").
Proof.
  apply (unknown_board_empty_report 0 scenario_A true (Some ("zcu104" ++ newline))
           (fun _ => empty_frame) initial_tables 0 ("zcu104" ++ newline)
           [Popen "hostname"; Verbose ("hostname=" ++ "zcu104" ++ newline ++ newline);
            Pclose "hostname"]); reflexivity.
Defined.

(** ** Verbosity *)

Lemma quiet_app (t1 t2 : trace) : quiet (t1 ++ t2) = (quiet t1 ++ quiet t2)%list.
Proof. apply filter_app. Qed.

Lemma quiet_diag (v : bool) (s : string) : quiet (diag v s) = [].
Proof. destruct v; reflexivity. Qed.

Lemma quiet_scan_emit (t : trace) (s : scan) :
  quiet_scan (scan_emit t s) = scan_emit (quiet t) (quiet_scan s).
Proof. destruct s; simpl; rewrite quiet_app; reflexivity. Qed.

Lemma quiet_emit (t : trace) (r : option resolution) :
  quiet_resolution (emit t r) = emit (quiet t) (quiet_resolution r).
Proof. destruct r as [r|]; simpl; [rewrite quiet_app|]; reflexivity. Qed.

Lemma quiet_rep_emit (t : trace) (row : option pmbus_info) (r : option report) :
  quiet_report (rep_emit t row r) = rep_emit (quiet t) row (quiet_report r).
Proof. destruct r as [r|]; simpl; [rewrite quiet_app|]; reflexivity. Qed.

Ltac quiet_simpl :=
  repeat (rewrite ?quiet_app, ?quiet_diag, ?quiet_emit, ?quiet_scan_emit,
            ?quiet_rep_emit, ?app_nil_r; simpl).

Lemma label_scan_quiet (fs : sysfs) (pInfo : pmbus_info) (hwmon_id_str : string)
    (entries : list string) (m : store) :
  label_scan fs false pInfo hwmon_id_str entries m
  = quiet_scan (label_scan fs true pInfo hwmon_id_str entries m).
Proof.
  revert m. induction entries as [|d_name rest IH]; intros m; simpl.
  - reflexivity.
  - destruct (strstr d_name "label"); [|apply IH].
    destruct (sys_file fs (attribute_file hwmon_id_str d_name)) as [content|e].
    + destruct (String.eqb _ (label pInfo)).
      * reflexivity.
      * rewrite IH. quiet_simpl. reflexivity.
    + rewrite IH. quiet_simpl. reflexivity.
Qed.

Lemma loop_body_quiet (fs : sysfs) (pInfo : pmbus_info) (hwmon_id : Z) (m : store) :
  loop_body fs false pInfo hwmon_id m
  = quiet_step (loop_body fs true pInfo hwmon_id m).
Proof.
  unfold loop_body.
  destruct (sys_file fs _) as [content|e]; [|reflexivity].
  destruct (negb (String.eqb (device pInfo) _)); [reflexivity|].
  destruct (sys_dir fs (driver_hwmon_dir _ _)) as [entries|e]; [|reflexivity].
  destruct (nth_error entries 2) as [d_name|]; [|reflexivity].
  destruct (negb (String.eqb (name pInfo) "")); [reflexivity|].
  destruct (sys_dir fs (hwmon_dir _)) as [labels|e]; [|reflexivity].
  rewrite label_scan_quiet.
  destruct (label_scan fs true _ _ _ _) as [pInfo' m' t|m' t]; simpl;
    quiet_simpl; reflexivity.
Qed.

Lemma resolve_from_quiet (fuel : nat) (fs : sysfs) (pInfo : pmbus_info)
    (num hwmon_id : Z) (m : store) :
  resolve_from fuel fs false pInfo num hwmon_id m
  = quiet_resolution (resolve_from fuel fs true pInfo num hwmon_id m).
Proof.
  revert hwmon_id m. induction fuel as [|fuel IH]; intros hwmon_id m; simpl.
  - reflexivity.
  - destruct (hwmon_id <? num); [|reflexivity].
    rewrite loop_body_quiet.
    destruct (loop_body fs true pInfo hwmon_id m) as [id' m' t|r]; simpl.
    + rewrite IH, quiet_emit. reflexivity.
    + reflexivity.
Qed.

Lemma get_pmbus_device_filename_quiet (fuel : nat) (fs : sysfs)
    (pInfo : pmbus_info) (m : store) :
  get_pmbus_device_filename fuel fs false pInfo m
  = quiet_resolution (get_pmbus_device_filename fuel fs true pInfo m).
Proof.
  unfold get_pmbus_device_filename.
  destruct (count_hwmon_reg_devices fs (st_errno m)) as [[num e] t] eqn:Hc.
  rewrite resolve_from_quiet, quiet_emit. f_equal.
  unfold count_hwmon_reg_devices in Hc.
  destruct (sys_dir fs hwmon_class); inversion Hc; reflexivity.
Qed.

Lemma report_from_quiet (fuel : nat) (fs : sysfs) (stack : nat -> garbage)
    (rows : list pmbus_info) (i : nat) (filename : string) (value errno : Z) :
  report_from fuel fs false stack i rows filename value errno
  = quiet_report (report_from fuel fs true stack i rows filename value errno).
Proof.
  revert i filename value errno.
  induction rows as [|row rest IH]; intros i filename value errno; simpl.
  - reflexivity.
  - destruct (String.eqb (device row) ""); [reflexivity|].
    rewrite get_pmbus_device_filename_quiet.
    destruct (get_pmbus_device_filename fuel fs true row _) as [res|]; simpl;
      [|reflexivity].
    destruct (sys_file fs _) as [content|e].
    + destruct (division (res_info res) =? 0).
      * simpl. quiet_simpl. reflexivity.
      * rewrite IH. quiet_simpl. reflexivity.
    + simpl. quiet_simpl. reflexivity.
Qed.

(** C9.  [verbose_flag] only adds [Verbose] events.  The resolver run
    without it returns the same way, with the same attribute path in
    [filename] and the same [name] written to the descriptor, and the
    reporter ends the same way with the same table; in both, the trace of
    the quiet run is the trace of the verbose run without its [Verbose]
    events, so the files opened and the lines printed are the same, in the
    same order. *)
Theorem verbose_adds_diagnostics_only (fuel : nat) (fs : sysfs) (fr : frame)
    (pmbus_list : list pmbus_info) (errno : Z) (pInfo : pmbus_info) (m : store) :
  get_pmbus_device_filename fuel fs false pInfo m
  = quiet_resolution (get_pmbus_device_filename fuel fs true pInfo m) /\
  print_pmbus_info fuel fs false fr pmbus_list errno
  = quiet_report (print_pmbus_info fuel fs true fr pmbus_list errno).
Proof.
  split.
  - apply get_pmbus_device_filename_quiet.
  - unfold print_pmbus_info. rewrite report_from_quiet, quiet_rep_emit.
    reflexivity.
Qed.

(** ** A rail whose address is not bound *)

(** C1 (fails on the code).  On [scenario_B] the resolver does return -1
    for the rail at 6-0043, but [print_pmbus_info] does not look at that
    result: it opens the path the resolver left in [filename], prints
    "unable to open" when that fails, and goes on to [fscanf] and [fclose]
    on the null stream.  The run ends there; the second rail of the table,
    which is present, is never reported. *)
Theorem unbound_rail_faults_reporter :
  (exists r,
     get_pmbus_device_filename 8 scenario_B false rail_A empty_store = Some r /\
     res_exit r = NotFound /\ exit_code (res_exit r) = -1 /\
     st_filename (res_store r)
     = "/sys/class/hwmon/hwmon0/device/driver/6-0043/name") /\
  (exists rep,
     print_pmbus_info 8 scenario_B false empty_frame table_B 0 = Some rep /\
     rep_status rep = Faulted NullStream /\
     printed (rep_trace rep)
     = [newline ++ "Power Utilization:" ++ newline;
        "unable to open /sys/class/hwmon/hwmon0/device/driver/6-0043/name" ++ newline]) /\
  (exists rep,
     print_pmbus_info 8 scenario_B false empty_frame [rail_B; pmbus_end] 0 = Some rep /\
     rep_status rep = Returned /\
     printed (rep_trace rep)
     = [newline ++ "Power Utilization:" ++ newline;
        tab ++ "irps5401@6-0044-temp1 (Temperature) = 38 C" ++ newline]).
Proof.
  split; [|split]; eexists; (split; [vm_compute; reflexivity|]);
    repeat split.
Qed.

(** ** What the resolver does to the descriptor *)

Lemma set_name_id (pInfo : pmbus_info) : set_name pInfo (name pInfo) = pInfo.
Proof. destruct pInfo; reflexivity. Qed.

Lemma label_scan_info (fs : sysfs) (v : bool) (pInfo : pmbus_info)
    (hwmon_id_str : string) (entries : list string) (m : store)
    (pInfo' : pmbus_info) (m' : store) (t : trace) :
  label_scan fs v pInfo hwmon_id_str entries m = ScanHit pInfo' m' t ->
  exists d_name,
    In d_name entries /\ strstr d_name "label" = true /\
    pInfo' = set_name pInfo (input_of_label d_name) /\
    st_filename m' = attribute_file hwmon_id_str (input_of_label d_name).
Proof.
  revert m t. induction entries as [|d rest IH]; intros m t; simpl.
  - discriminate.
  - destruct (strstr d "label") eqn:Hd.
    + destruct (sys_file fs (attribute_file hwmon_id_str d)) as [content|e].
      * destruct (String.eqb _ (label pInfo)).
        -- intros H. inversion H; subst. exists d. auto.
        -- destruct (label_scan fs v pInfo hwmon_id_str rest _) eqn:Hs; simpl;
             [|discriminate].
           intros H. inversion H; subst.
           destruct (IH _ _ Hs) as [d' [Hin Hd']]. exists d'. split; auto.
      * destruct (label_scan fs v pInfo hwmon_id_str rest _) eqn:Hs; simpl;
          [|discriminate].
        intros H. inversion H; subst.
        destruct (IH _ _ Hs) as [d' [Hin Hd']]. exists d'. split; auto.
    + intros H. destruct (IH _ _ H) as [d' [Hin Hd']]. exists d'. split; auto.
Qed.

Lemma loop_body_info (fs : sysfs) (v : bool) (pInfo : pmbus_info) (hwmon_id : Z)
    (m : store) (r : resolution) :
  loop_body fs v pInfo hwmon_id m = Stop r ->
  res_info r = set_name pInfo (name (res_info r)).
Proof.
  unfold loop_body.
  destruct (sys_file fs _) as [content|e]; [|discriminate].
  destruct (negb (String.eqb (device pInfo) _)); [discriminate|].
  destruct (sys_dir fs (driver_hwmon_dir _ _)) as [entries|e].
  2:{ intros H; inversion H; simpl. symmetry. apply set_name_id. }
  destruct (nth_error entries 2) as [d_name|].
  2:{ intros H; inversion H; simpl. symmetry. apply set_name_id. }
  destruct (negb (String.eqb (name pInfo) "")).
  { intros H; inversion H; simpl. symmetry. apply set_name_id. }
  destruct (sys_dir fs (hwmon_dir _)) as [labels|e].
  2:{ intros H; inversion H; simpl. symmetry. apply set_name_id. }
  destruct (label_scan fs v _ _ _ _) as [pInfo' m' t|m' t] eqn:Hs; [|discriminate].
  intros H; inversion H; simpl.
  destruct (label_scan_info _ _ _ _ _ _ _ _ _ Hs) as [d [_ [_ [Hp _]]]].
  subst pInfo'. reflexivity.
Qed.

Lemma emit_some (t : trace) (r : option resolution) (r' : resolution) :
  emit t r = Some r' ->
  exists r0, r = Some r0 /\ res_exit r' = res_exit r0 /\
             res_info r' = res_info r0 /\ res_store r' = res_store r0 /\
             res_trace r' = (t ++ res_trace r0)%list.
Proof.
  destruct r as [r0|]; simpl; [|discriminate].
  intros H; inversion H; subst; simpl. exists r0. auto.
Qed.

Lemma resolve_from_info (fuel : nat) (fs : sysfs) (v : bool) (pInfo : pmbus_info)
    (num hwmon_id : Z) (m : store) (r : resolution) :
  resolve_from fuel fs v pInfo num hwmon_id m = Some r ->
  res_info r = set_name pInfo (name (res_info r)).
Proof.
  revert hwmon_id m r. induction fuel as [|fuel IH]; intros hwmon_id m r; simpl.
  - discriminate.
  - destruct (hwmon_id <? num).
    + destruct (loop_body fs v pInfo hwmon_id m) as [id' m' t|r0] eqn:Hb.
      * intros H. apply emit_some in H. destruct H as [r0 [H0 [_ [Hi _]]]].
        rewrite Hi. apply (IH _ _ _ H0).
      * intros H; inversion H; subst. apply (loop_body_info _ _ _ _ _ _ Hb).
    + intros H; inversion H; simpl. symmetry. apply set_name_id.
Qed.

Lemma get_pmbus_device_filename_info (fuel : nat) (fs : sysfs) (v : bool)
    (pInfo : pmbus_info) (m : store) (r : resolution) :
  get_pmbus_device_filename fuel fs v pInfo m = Some r ->
  res_info r = set_name pInfo (name (res_info r)).
Proof.
  unfold get_pmbus_device_filename.
  destruct (count_hwmon_reg_devices fs (st_errno m)) as [[num e] t].
  intros H. apply emit_some in H. destruct H as [r0 [H0 [_ [Hi _]]]].
  rewrite Hi. apply (resolve_from_info _ _ _ _ _ _ _ _ H0).
Qed.

(** ** The result line *)

(** Numbers outside the type they are read into: [%ld] keeps the nearest
    [long], so a reading of twenty nines is reported as [LONG_MAX] divided
    by the row's [division]; [%d] keeps the low 32 bits. *)
Example conversions_out_of_range :
  scanf_ld "99999999999999999999" 0 = LONG_MAX /\
  Z.quot (scanf_ld "99999999999999999999" 0) 1000 = 9223372036854775 /\
  scanf_d (string_from 5 "hwmon4294967299") 0 = 3 /\
  scanf_d (string_from 5 "hwmon3") 0 = 3.
Proof. repeat split. Qed.

Lemma scanf_ld_in_range (content : string) (x raw : Z) :
  scan_int content = Some raw ->
  LONG_MIN <= raw <= LONG_MAX ->
  scanf_ld content x = raw.
Proof.
  intros Hraw Hrange. unfold scanf_ld, strtol_range. rewrite Hraw. lia.
Qed.

(** C6 (as stated: fails).  In scenario A the reporter writes three lines:
    an empty one, "Power Utilization:" and the result line, which starts
    with a tab.  The line of the claim, without the tab, is not among them. *)
Lemma result_line_is_not_bare :
  exists rep,
    print_pmbus_info 8 scenario_A false empty_frame [rail_A; pmbus_end] 0 = Some rep /\
    ~ In "irps5401@6-0043-temp1 (Temperature) = 45 C" (lines (stdout (rep_trace rep))).
Proof.
  eexists. split; [vm_compute; reflexivity|].
  vm_compute. intros [H|[H|[H|[H|[]]]]]; discriminate H.
Qed.

(** C6 (amended).  When the resolver returns a hwmon index for the row, the
    file it names opens and starts with an integer [raw] in the range of
    [long], and the row's [division] is not 0 (nor -1 with [raw] the least
    [long], where the quotient does not fit), the reporter closes the file
    and prints, after whatever the resolver and [verbose_flag] printed, the
    line tab, device "@" address "-" label " (" alias ") = " value " " unit,
    newline, where value is [raw] divided by [division], rounded towards 0;
    then it goes on with the next row.  In scenario A that line is
    tab, "irps5401@6-0043-temp1 (Temperature) = 45 C". *)
Theorem result_line_of_resolved_rail (fuel : nat) (fs : sysfs) (verbose_flag : bool)
    (stack : nat -> garbage) (i : nat) (row : pmbus_info) (rest : list pmbus_info)
    (filename : string) (pmbus_value errno : Z)
    (res : resolution) (hwmon_id : Z) (content : string) (raw : Z) :
  device row <> "" ->
  get_pmbus_device_filename fuel fs verbose_flag row
    (mk_store filename (g_device_name (stack i)) (g_reg_label (stack i)) errno)
  = Some res ->
  res_exit res = Found hwmon_id ->
  sys_file fs (st_filename (res_store res)) = Ok content ->
  scan_int content = Some raw ->
  LONG_MIN <= raw <= LONG_MAX ->
  division row <> 0 ->
  ~ (raw = LONG_MIN /\ division row = -1) ->
  (exists t,
     quiet t = quiet (res_trace res) /\
     report_from fuel fs verbose_flag stack i (row :: rest) filename pmbus_value errno
     = rep_emit
         (t ++ [Fopen (st_filename (res_store res));
                Fclose (st_filename (res_store res));
                Printf (tab ++ device row ++ "@" ++ address row ++ "-" ++
                        label row ++ " (" ++ alias row ++ ") = " ++
                        sprintf_d (Z.quot raw (division row)) ++ " " ++
                        unit row ++ newline)])
         (Some (res_info res))
         (report_from fuel fs verbose_flag stack (S i) rest
            (st_filename (res_store res)) raw (st_errno (res_store res)))) /\
  (exists rep,
     print_pmbus_info 8 scenario_A false empty_frame [rail_A; pmbus_end] 0 = Some rep /\
     rep_status rep = Returned /\
     lines (stdout (rep_trace rep))
     = [""; "Power Utilization:";
        tab ++ "irps5401@6-0043-temp1 (Temperature) = 45 C"; ""]).
Proof.
  intros Hdev Hres Hexit Hfile Hraw Hrange Hdiv Hquot. split.
  - pose proof (get_pmbus_device_filename_info _ _ _ _ _ _ Hres) as Hinfo.
    assert (Hdv : device (res_info res) = device row) by (rewrite Hinfo; reflexivity).
    assert (Had : address (res_info res) = address row) by (rewrite Hinfo; reflexivity).
    assert (Hlb : label (res_info res) = label row) by (rewrite Hinfo; reflexivity).
    assert (Hal : alias (res_info res) = alias row) by (rewrite Hinfo; reflexivity).
    assert (Hun : unit (res_info res) = unit row) by (rewrite Hinfo; reflexivity).
    assert (Hd : division (res_info res) = division row) by (rewrite Hinfo; reflexivity).
    exists (diag verbose_flag
              ("[" ++ sprintf_d (Z.of_nat i) ++ "] " ++ device row ++ "," ++
               address row ++ "," ++ label row ++ "," ++ name row ++ "," ++
               unit row ++ newline) ++
            res_trace res ++
            diag verbose_flag
              (tab ++ device row ++ "@" ++ address row ++ "-" ++
               label row ++ " => " ++ st_filename (res_store res) ++ newline))%list.
    split.
    + rewrite !quiet_app, !quiet_diag, app_nil_r. reflexivity.
    + simpl report_from. apply String.eqb_neq in Hdev. rewrite Hdev, Hres, Hfile.
      rewrite (scanf_ld_in_range _ _ _ Hraw Hrange).
      rewrite Hd. apply Z.eqb_neq in Hdiv. rewrite Hdiv.
      unfold result_line. rewrite Hdv, Had, Hlb, Hal, Hun. reflexivity.
  - eexists. split; [vm_compute; reflexivity|]. split; reflexivity.
Qed.

Lemma result_line_of_resolved_rail_witness :
  exists res,
    get_pmbus_device_filename 8 scenario_A false rail_A empty_store = Some res /\
    exists t,
      quiet t = quiet (res_trace res) /\
      report_from 8 scenario_A false (fun _ => no_garbage) 0 [rail_A; pmbus_end] "" 0 0
      = rep_emit
          (t ++ [Fopen "/sys/class/hwmon/hwmon3/temp1_input";
                 Fclose "/sys/class/hwmon/hwmon3/temp1_input";
                 Printf (tab ++ "irps5401@6-0043-temp1 (Temperature) = 45 C" ++ newline)])
          (Some (res_info res))
          (report_from 8 scenario_A false (fun _ => no_garbage) 1 [pmbus_end]
             "/sys/class/hwmon/hwmon3/temp1_input" 45000 2).
Proof.
  eexists. split; [vm_compute; reflexivity|].
  refine (proj1 (result_line_of_resolved_rail 8 scenario_A false
                   (fun _ => no_garbage) 0 rail_A [pmbus_end] "" 0 0
                   _ 3 ("45000" ++ newline) 45000 _ _ _ _ _ _ _ _)).
  - discriminate.
  - vm_compute. reflexivity.
  - reflexivity.
  - reflexivity.
  - reflexivity.
  - unfold LONG_MIN, LONG_MAX. lia.
  - discriminate.
  - intros [H _]. discriminate H.
Defined.

(** ** Facts about the paths *)

Lemma append_assoc (a b c : string) : (a ++ b) ++ c = a ++ (b ++ c).
Proof. induction a as [|x a IH]; simpl; [|rewrite IH]; reflexivity. Qed.

Lemma length_append (a b : string) :
  String.length (a ++ b) = (String.length a + String.length b)%nat.
Proof. induction a as [|x a IH]; simpl; [|rewrite IH]; reflexivity. Qed.

Lemma append_nil_r (a : string) : a ++ "" = a.
Proof. induction a as [|x a IH]; simpl; [|rewrite IH]; reflexivity. Qed.

Lemma has_char_append (c : ascii) (a b : string) :
  has_char c (a ++ b) = has_char c a || has_char c b.
Proof.
  induction a as [|x a IH]; simpl; [reflexivity|].
  rewrite IH, orb_assoc. reflexivity.
Qed.

Lemma string_of_uint_no_slash (d : Decimal.uint) :
  has_char "/" (NilEmpty.string_of_uint d) = false.
Proof. induction d; simpl; auto. Qed.

Lemma sprintf_d_no_slash (n : Z) : has_char "/" (sprintf_d n) = false.
Proof.
  unfold sprintf_d, NilZero.string_of_int, NilZero.string_of_uint.
  destruct (Z.to_int n) as [d|d]; destruct d; simpl;
    try reflexivity; apply string_of_uint_no_slash.
Qed.

Lemma ends_with_name_not_label (a : string) :
  ends_with (a ++ "/name") "_label" = false.
Proof.
  induction a as [|c a IH].
  - reflexivity.
  - simpl. rewrite IH, orb_false_r.
    apply String.eqb_neq. intros H. injection H as _ Ha.
    destruct a as [|c' a].
    + discriminate Ha.
    + apply (f_equal String.length) in Ha. simpl in Ha.
      rewrite length_append in Ha. simpl in Ha. lia.
Qed.

Lemma driver_name_file_not_label (hwmon_id_str addr : string) :
  ends_with (driver_name_file hwmon_id_str addr) "_label" = false.
Proof.
  unfold driver_name_file.
  rewrite <- !append_assoc. apply ends_with_name_not_label.
Qed.

Lemma hwmon_dir_not_class (x : string) : hwmon_dir x <> hwmon_class.
Proof. unfold hwmon_dir, hwmon_class. simpl. discriminate. Qed.

Lemma hwmon_dir_not_driver_dir (n N : Z) (addr : string) :
  hwmon_dir (sprintf_d n) <> driver_hwmon_dir (sprintf_d N) addr.
Proof.
  unfold hwmon_dir, driver_hwmon_dir. intros H.
  simpl in H. injection H as H.
  apply (f_equal (has_char "/")) in H.
  rewrite has_char_append, !sprintf_d_no_slash in H. simpl in H. discriminate.
Qed.

(** ** Resolution with an explicit attribute *)

Lemma Forall_diag (P : event -> Prop) (v : bool) (s : string) :
  P (Verbose s) -> Forall P (diag v s).
Proof. destruct v; simpl; auto. Qed.

Lemma probe_event_diag (addr : string) (v : bool) (s : string) :
  Forall (probe_event addr) (diag v s).
Proof. apply Forall_diag. exact I. Qed.

(** How a pass through the loop body ends when [pInfo->name] is not empty:
    at a [continue] with the next index, or at a [return] that leaves the
    descriptor as it was; all it did until then belongs to the search for
    the bound instance. *)
Lemma loop_body_explicit (fs : sysfs) (v : bool) (pInfo : pmbus_info)
    (hwmon_id : Z) (m : store) :
  name pInfo <> "" ->
  match loop_body fs v pInfo hwmon_id m with
  | Continue hwmon_id' _ t =>
      hwmon_id' = hwmon_id + 1 /\ Forall (probe_event (address pInfo)) t
  | Stop r =>
      res_info r = pInfo /\
      Forall (probe_event (address pInfo)) (res_trace r) /\
      forall id, res_exit r = Found id ->
        st_filename (res_store r) = attribute_file (sprintf_d id) (name pInfo) /\
        exists entries d_name,
          sys_dir fs (driver_hwmon_dir (sprintf_d hwmon_id) (address pInfo)) = Ok entries /\
          nth_error entries 2 = Some d_name /\
          id = scanf_d (string_from 5 d_name) hwmon_id
  end.
Proof.
  intros Hname. apply String.eqb_neq in Hname.
  unfold loop_body. rewrite Hname. simpl negb. cbv iota.
  destruct (sys_file fs _) as [content|e].
  2:{ split; [reflexivity|]. repeat constructor. exists hwmon_id. reflexivity. }
  assert (H1 : forall s, Forall (probe_event (address pInfo))
            ([Fopen (driver_name_file (sprintf_d hwmon_id) (address pInfo));
              Fclose (driver_name_file (sprintf_d hwmon_id) (address pInfo))] ++
             diag v s)).
  { intros s0. apply Forall_app. split; [|apply probe_event_diag].
    repeat constructor; exists hwmon_id; reflexivity. }
  destruct (negb (String.eqb (device pInfo) _)).
  { split; [reflexivity|]. apply H1. }
  assert (H2 : probe_event (address pInfo)
                 (Opendir (driver_hwmon_dir (sprintf_d hwmon_id) (address pInfo)))).
  { right. exists hwmon_id. reflexivity. }
  destruct (sys_dir fs (driver_hwmon_dir _ _)) as [entries|e] eqn:Hdir.
  2:{ cbn [res_info res_trace res_exit res_store].
      split; [reflexivity|]. split; [|discriminate].
      apply Forall_app. split; [apply H1|].
      constructor; [exact H2|]. constructor; [exact I|constructor]. }
  destruct (nth_error entries 2) as [d_name|] eqn:Hnth.
  2:{ cbn [res_info res_trace res_exit res_store].
      split; [reflexivity|]. split; [|discriminate].
      apply Forall_app. split; [apply H1|].
      constructor; [exact H2|]. constructor; [exact I|constructor]. }
  cbn [res_info res_trace res_exit res_store].
  split; [reflexivity|]. split.
  - apply Forall_app; split; [|apply probe_event_diag].
    apply Forall_app; split; [apply H1|].
    apply Forall_app; split; [|apply probe_event_diag].
    constructor; [exact H2|constructor].
  - intros id Hid. inversion Hid; subst. split; [reflexivity|].
    exists entries, d_name. auto.
Qed.

Lemma resolve_from_explicit (fs : sysfs) (v : bool) (pInfo : pmbus_info) (num : Z) :
  name pInfo <> "" ->
  forall (fuel : nat) (hwmon_id : Z) (m : store),
  (Z.to_nat (num - hwmon_id) < fuel)%nat ->
  exists r,
    resolve_from fuel fs v pInfo num hwmon_id m = Some r /\
    res_info r = pInfo /\
    Forall (probe_event (address pInfo)) (res_trace r) /\
    forall id, res_exit r = Found id ->
      st_filename (res_store r) = attribute_file (sprintf_d id) (name pInfo) /\
      exists N entries d_name,
        hwmon_id <= N < num /\
        sys_dir fs (driver_hwmon_dir (sprintf_d N) (address pInfo)) = Ok entries /\
        nth_error entries 2 = Some d_name /\
        id = scanf_d (string_from 5 d_name) N.
Proof.
  intros Hname. induction fuel as [|fuel IH]; intros hwmon_id m Hfuel.
  - lia.
  - simpl. destruct (hwmon_id <? num) eqn:Hlt.
    + apply Z.ltb_lt in Hlt.
      pose proof (loop_body_explicit fs v pInfo hwmon_id m Hname) as Hbody.
      destruct (loop_body fs v pInfo hwmon_id m) as [id' m' t|r].
      * destruct Hbody as [Hid Ht]. subst id'.
        destruct (IH (hwmon_id + 1) m') as [r [Hr [Hi [Htr Hfound]]]]; [lia|].
        rewrite Hr. simpl. eexists. split; [reflexivity|]. simpl.
        split; [exact Hi|]. split; [apply Forall_app; auto|].
        intros id Hid. destruct (Hfound id Hid) as [Hf [N [es [d [HN Hrest]]]]].
        split; [exact Hf|]. exists N, es, d. split; [lia|exact Hrest].
      * destruct Hbody as [Hi [Htr Hfound]].
        exists r. split; [reflexivity|]. split; [exact Hi|]. split; [exact Htr|].
        intros id Hid. destruct (Hfound id Hid) as [Hf [es [d Hrest]]].
        split; [exact Hf|]. exists hwmon_id, es, d. split; [lia|exact Hrest].
    + eexists. split; [reflexivity|]. simpl. split; [reflexivity|].
      split; [constructor|]. discriminate.
Qed.

Lemma count_hwmon_reg_devices_probe (fs : sysfs) (errno : Z) (addr : string) :
  Forall (probe_event addr) (snd (count_hwmon_reg_devices fs errno)).
Proof.
  unfold count_hwmon_reg_devices.
  destruct (sys_dir fs hwmon_class); simpl; repeat constructor.
Qed.

Lemma count_hwmon_reg_devices_nonneg (fs : sysfs) (errno : Z) :
  0 <= fst (fst (count_hwmon_reg_devices fs errno)).
Proof.
  unfold count_hwmon_reg_devices.
  destruct (sys_dir fs hwmon_class); simpl; lia.
Qed.

Lemma loop_body_passed_over (fs : sysfs) (v : bool) (pInfo : pmbus_info)
    (j : Z) (m : store) :
  passed_over fs pInfo j ->
  exists m' t, loop_body fs v pInfo j m = Continue (j + 1) m' t.
Proof.
  unfold passed_over, loop_body.
  destruct (sys_file fs (driver_name_file (sprintf_d j) (address pInfo)))
    as [content|e].
  - intros [w [Hw Hne]].
    cbn [st_device_name set_device_name set_filename].
    unfold fscanf_s. rewrite Hw.
    assert (Heq : String.eqb (device pInfo) w = false)
      by (apply String.eqb_neq; congruence).
    rewrite Heq. cbn [negb]. eexists. eexists. reflexivity.
  - intros _. eexists. eexists. reflexivity.
Qed.

Lemma loop_body_bound_at (fs : sysfs) (v : bool) (pInfo : pmbus_info)
    (N : Z) (d_name : string) (m : store) :
  name pInfo <> "" ->
  bound_at fs pInfo N d_name ->
  exists r,
    loop_body fs v pInfo N m = Stop r /\
    res_exit r = Found (scanf_d (string_from 5 d_name) N) /\
    st_filename (res_store r)
    = attribute_file (sprintf_d (scanf_d (string_from 5 d_name) N)) (name pInfo).
Proof.
  intros Hname [[content [Hf Hw]] [entries [Hd Hnth]]].
  unfold loop_body. rewrite Hf.
  cbn [st_device_name set_device_name set_filename].
  unfold fscanf_s. rewrite Hw, String.eqb_refl. cbn [negb].
  rewrite Hd, Hnth.
  apply String.eqb_neq in Hname. rewrite Hname. cbn [negb].
  eexists. split; [reflexivity|]. split; reflexivity.
Qed.

Lemma resolve_from_first_bound (fs : sysfs) (v : bool) (pInfo : pmbus_info)
    (num N : Z) (d_name : string) :
  name pInfo <> "" ->
  N < num ->
  bound_at fs pInfo N d_name ->
  forall (fuel : nat) (i : Z) (m : store),
    i <= N ->
    (forall j, i <= j < N -> passed_over fs pInfo j) ->
    (Z.to_nat (N - i) < fuel)%nat ->
    exists r,
      resolve_from fuel fs v pInfo num i m = Some r /\
      res_exit r = Found (scanf_d (string_from 5 d_name) N) /\
      st_filename (res_store r)
      = attribute_file (sprintf_d (scanf_d (string_from 5 d_name) N)) (name pInfo).
Proof.
  intros Hname HN Hbound.
  induction fuel as [|fuel IH]; intros i m Hi Hpass Hfuel; [lia|].
  cbn [resolve_from].
  assert (Hlt : (i <? num) = true) by (apply Z.ltb_lt; lia).
  rewrite Hlt.
  destruct (Z.eq_dec i N) as [->|Hne].
  - destruct (loop_body_bound_at fs v pInfo N d_name m Hname Hbound)
      as [r [Hr Hrest]].
    rewrite Hr. exists r. split; [reflexivity|exact Hrest].
  - destruct (loop_body_passed_over fs v pInfo i m) as [m' [t Hb]];
      [apply Hpass; lia|].
    rewrite Hb.
    destruct (IH (i + 1) m') as [r [Hr Hrest]];
      [lia|intros j Hj; apply Hpass; lia|lia|].
    rewrite Hr. eexists. split; [reflexivity|exact Hrest].
Qed.

Lemma resolve_from_all_passed (fs : sysfs) (v : bool) (pInfo : pmbus_info)
    (num : Z) :
  forall (fuel : nat) (i : Z) (m : store),
    (forall j, i <= j < num -> passed_over fs pInfo j) ->
    (Z.to_nat (num - i) < fuel)%nat ->
    exists r,
      resolve_from fuel fs v pInfo num i m = Some r /\ res_exit r = NotFound.
Proof.
  induction fuel as [|fuel IH]; intros i m Hpass Hfuel; [lia|].
  cbn [resolve_from]. destruct (i <? num) eqn:Hlt.
  - apply Z.ltb_lt in Hlt.
    destruct (loop_body_passed_over fs v pInfo i m) as [m' [t Hb]];
      [apply Hpass; lia|].
    rewrite Hb.
    destruct (IH (i + 1) m') as [r [Hr Hx]];
      [intros j Hj; apply Hpass; lia|lia|].
    rewrite Hr. eexists. split; [reflexivity|exact Hx].
  - eexists. split; reflexivity.
Qed.

(** C3.  When [pInfo->name] is not empty, [get_pmbus_device_filename]
    returns (one more unit of fuel than there are hwmon devices is enough),
    leaves the descriptor as it was, and every call it makes belongs to the
    search for the instance bound to the address: it opens no file whose
    name ends in "_label" and lists no [/sys/class/hwmon/hwmon<id>]
    directory.  When it returns a hwmon index [id], [filename] is
    [/sys/class/hwmon/hwmon<id>/<name>], and [id] is the number read from the
    third entry of [hwmon<N>/device/driver/<address>/hwmon] for an instance
    [N] ([N] itself when that entry holds no number).  And it does return
    that index and that path for the first instance [N] below the count
    that has the device at the address, the instances before it having no
    [name] file there or one of another device; when every instance below
    the count is of that kind it returns -1. *)
Theorem explicit_attribute_no_label_scan (fuel : nat) (fs : sysfs)
    (verbose_flag : bool) (pInfo : pmbus_info) (m : store) :
  name pInfo <> "" ->
  (Z.to_nat (fst (fst (count_hwmon_reg_devices fs (st_errno m)))) < fuel)%nat ->
  exists r,
    get_pmbus_device_filename fuel fs verbose_flag pInfo m = Some r /\
    res_info r = pInfo /\
    Forall (probe_event (address pInfo)) (res_trace r) /\
    (forall p, In (Fopen p) (res_trace r) -> ends_with p "_label" = false) /\
    (forall id : Z, ~ In (Opendir (hwmon_dir (sprintf_d id))) (res_trace r)) /\
    (forall id, res_exit r = Found id ->
       st_filename (res_store r)
       = "/sys/class/hwmon/hwmon" ++ sprintf_d id ++ "/" ++ name pInfo /\
       exists N entries d_name,
         sys_dir fs (driver_hwmon_dir (sprintf_d N) (address pInfo)) = Ok entries /\
         nth_error entries 2 = Some d_name /\
         id = scanf_d (string_from 5 d_name) N) /\
    (forall N d_name,
       0 <= N < fst (fst (count_hwmon_reg_devices fs (st_errno m))) ->
       (forall j, 0 <= j < N -> passed_over fs pInfo j) ->
       bound_at fs pInfo N d_name ->
       res_exit r = Found (scanf_d (string_from 5 d_name) N) /\
       st_filename (res_store r)
       = "/sys/class/hwmon/hwmon" ++ sprintf_d (scanf_d (string_from 5 d_name) N)
         ++ "/" ++ name pInfo) /\
    ((forall j, 0 <= j < fst (fst (count_hwmon_reg_devices fs (st_errno m))) ->
                passed_over fs pInfo j) ->
     res_exit r = NotFound /\ exit_code (res_exit r) = -1).
Proof.
  intros Hname Hfuel. unfold get_pmbus_device_filename.
  pose proof (count_hwmon_reg_devices_probe fs (st_errno m) (address pInfo)) as Hc.
  destruct (count_hwmon_reg_devices fs (st_errno m)) as [[num e] t].
  cbn [fst snd] in Hfuel, Hc |- *.
  destruct (resolve_from_explicit fs verbose_flag pInfo num Hname fuel 0
              (set_errno m e)) as [r [Hr [Hi [Htr Hfound]]]].
  { replace (num - 0) with num by lia. exact Hfuel. }
  rewrite Hr. cbn [emit]. eexists. split; [reflexivity|].
  cbn [res_exit res_info res_store res_trace].
  assert (Hall : Forall (probe_event (address pInfo)) (t ++ res_trace r))
    by (apply Forall_app; auto).
  split; [exact Hi|]. split; [exact Hall|].
  rewrite Forall_forall in Hall.
  split; [|split; [|split; [|split]]].
  - intros p Hp. destruct (Hall _ Hp) as [N HN]. subst p.
    apply driver_name_file_not_label.
  - intros id Hin. destruct (Hall _ Hin) as [H|[N H]].
    + exact (hwmon_dir_not_class _ H).
    + exact (hwmon_dir_not_driver_dir _ _ _ H).
  - intros id Hid. destruct (Hfound id Hid) as [Hf [N [es [d [_ Hrest]]]]].
    split; [exact Hf|]. exists N, es, d. exact Hrest.
  - intros N d_name HN Hpass Hbound.
    destruct (resolve_from_first_bound fs verbose_flag pInfo num N d_name Hname
                (proj2 HN) Hbound fuel 0 (set_errno m e) (proj1 HN))
      as [r' [Hr' Hrest]].
    + exact Hpass.
    + lia.
    + rewrite Hr in Hr'. injection Hr' as <-. exact Hrest.
  - intros Hpass.
    destruct (resolve_from_all_passed fs verbose_flag pInfo num fuel 0
                (set_errno m e) Hpass) as [r' [Hr' Hx]].
    + replace (num - 0) with num by lia. exact Hfuel.
    + rewrite Hr in Hr'. injection Hr' as <-. rewrite Hx. split; reflexivity.
Qed.

Lemma explicit_attribute_no_label_scan_witness :
  exists r,
    get_pmbus_device_filename 8 scenario_A true rail_A_temp empty_store = Some r /\
    res_info r = rail_A_temp /\
    res_exit r = Found 3 /\
    st_filename (res_store r) = "/sys/class/hwmon/hwmon3/temp1_input" /\
    (forall p, In (Fopen p) (res_trace r) -> ends_with p "_label" = false) /\
    (forall id : Z, ~ In (Opendir (hwmon_dir (sprintf_d id))) (res_trace r)).
Proof.
  destruct (explicit_attribute_no_label_scan 8 scenario_A true rail_A_temp
              empty_store)
    as [r [Hr [Hi [_ [Hlabel [Hdir [_ [Hfirst _]]]]]]]].
  - discriminate.
  - vm_compute. lia.
  - exists r. split; [exact Hr|]. split; [exact Hi|].
    destruct (Hfirst 3 "hwmon3") as [Hx Hf].
    + vm_compute. split; [discriminate|reflexivity].
    + intros j Hj.
      assert (Hcases : j = 0 \/ j = 1 \/ j = 2) by lia.
      destruct Hcases as [H0 | [H0 | H0]]; subst j; vm_compute; exact I.
    + split.
      * exists ("irps5401" ++ newline). split; reflexivity.
      * exists ["."; ".."; "hwmon3"]. split; reflexivity.
    + split; [exact Hx|]. split; [exact Hf|]. split; [exact Hlabel|exact Hdir].
Defined.

(** ** Resolution by label *)

Lemma emit_none (t : trace) : emit t None = None.
Proof. reflexivity. Qed.

Lemma twin_pass (verbose_flag : bool) (m : store) (hwmon_id : Z) :
  hwmon_id = 0 \/ hwmon_id = 1 ->
  exists m' t,
    loop_body scenario_twin verbose_flag rail_pout5 hwmon_id m = Continue 1 m' t.
Proof.
  intros [H|H]; subst hwmon_id; destruct m as [f d l e];
    vm_compute; eexists; eexists; reflexivity.
Qed.

Lemma twin_spins (verbose_flag : bool) (fuel : nat) (m : store) :
  resolve_from fuel scenario_twin verbose_flag rail_pout5 2 1 m = None.
Proof.
  revert m. induction fuel as [|fuel IH]; intros m.
  - reflexivity.
  - cbn [resolve_from]. change (1 <? 2) with true. cbv iota.
    destruct (twin_pass verbose_flag m 1 (or_intror eq_refl)) as [m' [t H]].
    rewrite H, IH. reflexivity.
Qed.

(** C4 (fails on the code).  On [scenario_twin] the labels of hwmon0 are
    "pout1" and "pout2".  Resolving a rail of the regulator at 6-0043 with
    the label "pout5" scans them at index 0, finds no match, and goes on with
    the loop instead of returning -1.  At index 1 the driver directory leads
    to hwmon0 again, the [sscanf] of line 1825 sets [hwmon_id] back to 0, the
    scan fails again and [hwmon_id++] makes it 1 again: the function never
    returns, whatever the fuel.  (A label that exists is found: see
    [twin_resolves_present_label].) *)
Theorem missing_label_never_returns (fuel : nat) (verbose_flag : bool) (m : store) :
  get_pmbus_device_filename fuel scenario_twin verbose_flag rail_pout5 m = None.
Proof.
  unfold get_pmbus_device_filename.
  change (count_hwmon_reg_devices scenario_twin (st_errno m))
    with (2, st_errno m, [Opendir hwmon_class; Closedir hwmon_class]).
  cbv iota beta.
  destruct fuel as [|fuel]; [reflexivity|].
  cbn [resolve_from]. change (0 <? 2) with true. cbv iota.
  destruct (twin_pass verbose_flag (set_errno m (st_errno m)) 0 (or_introl eq_refl))
    as [m' [t H]].
  rewrite H, twin_spins. reflexivity.
Qed.

Lemma twin_resolves_present_label :
  exists r,
    get_pmbus_device_filename 3 scenario_twin false rail_pout2 empty_store = Some r /\
    res_exit r = Found 0 /\
    name (res_info r) = "pout2_input" /\
    st_filename (res_store r) = "/sys/class/hwmon/hwmon0/pout2_input".
Proof.
  eexists. split; [vm_compute; reflexivity|]. repeat split.
Qed.

(** ** The loop body against the search *)

Lemma fscanf_s_token (fs : sysfs) (path content buf : string) :
  files_hold_token fs -> sys_file fs path = Ok content ->
  fscanf_s content buf = fscanf_s content "".
Proof.
  intros Htok Hfile. unfold fscanf_s.
  destruct (scan_token content) eqn:Hs; [reflexivity|].
  exfalso. exact (Htok _ _ Hfile Hs).
Qed.

Lemma label_scan_expected (fs : sysfs) (v : bool) (pInfo : pmbus_info)
    (hwmon_id_str : string) (entries : list string) (m : store) :
  files_hold_token fs ->
  match label_scan fs v pInfo hwmon_id_str entries m,
        find_label fs hwmon_id_str (label pInfo) entries with
  | ScanHit pInfo' m' _, Some d_name =>
      pInfo' = set_name pInfo (input_of_label d_name) /\
      st_filename m' = attribute_file hwmon_id_str (input_of_label d_name)
  | ScanMiss _ _, None => True
  | _, _ => False
  end.
Proof.
  intros Htok. revert m. induction entries as [|d rest IH]; intros m; simpl.
  - exact I.
  - destruct (strstr d "label"); [|apply IH].
    destruct (sys_file fs (attribute_file hwmon_id_str d)) as [content|e] eqn:Hfile.
    + rewrite (fscanf_s_token fs _ content _ Htok Hfile).
      destruct (String.eqb (fscanf_s content "") (label pInfo)).
      * split; reflexivity.
      * match goal with |- context [label_scan fs v pInfo hwmon_id_str rest ?m0] =>
          specialize (IH m0); destruct (label_scan fs v pInfo hwmon_id_str rest m0)
        end; simpl; exact IH.
    + match goal with |- context [label_scan fs v pInfo hwmon_id_str rest ?m0] =>
        specialize (IH m0); destruct (label_scan fs v pInfo hwmon_id_str rest m0)
      end; simpl; exact IH.
Qed.

Lemma loop_body_expected (fs : sysfs) (v : bool) (pInfo : pmbus_info)
    (N : Z) (m : store) :
  files_hold_token fs ->
  realizes pInfo (loop_body fs v pInfo N m) (expected fs pInfo N).
Proof.
  intros Htok. unfold loop_body, expected, probe.
  destruct (sys_file fs (driver_name_file _ _)) as [content|e] eqn:Hfile;
    [|reflexivity].
  simpl st_device_name.
  rewrite (fscanf_s_token fs _ content _ Htok Hfile).
  destruct (String.eqb (device pInfo) (fscanf_s content "")); simpl negb; cbv iota;
    [|reflexivity].
  destruct (sys_dir fs (driver_hwmon_dir _ _)) as [entries|e].
  2:{ simpl. eexists. reflexivity. }
  destruct (nth_error entries 2) as [d_name|].
  2:{ simpl. eexists. reflexivity. }
  destruct (negb (String.eqb (name pInfo) "")) eqn:Hname.
  { simpl. repeat split. symmetry. apply set_name_id. }
  destruct (sys_dir fs (hwmon_dir _)) as [labels|e].
  2:{ simpl. eexists. reflexivity. }
  match goal with |- context [label_scan fs v pInfo ?i labels ?m0] =>
    pose proof (label_scan_expected fs v pInfo i labels m0 Htok) as Hs;
    destruct (label_scan fs v pInfo i labels m0)
  end;
    destruct (find_label fs _ (label pInfo) labels); simpl; try contradiction.
  - destruct Hs as [Hp Hf]. repeat split; assumption.
  - reflexivity.
Qed.

(** ** Resolving a second time *)

Lemma input_of_label_nonempty (d_name : string) : input_of_label d_name <> "".
Proof.
  unfold input_of_label.
  destruct (substring 0 (String.length d_name - 5) d_name); discriminate.
Qed.

Lemma probe_set_name (fs : sysfs) (pInfo : pmbus_info) (attr : string) (N : Z) :
  probe fs (set_name pInfo attr) N = probe fs pInfo N.
Proof. reflexivity. Qed.

Lemma expected_cached (fs : sysfs) (pInfo : pmbus_info) (attr : string) (N : Z) :
  attr <> "" ->
  expected fs (set_name pInfo attr) N
  = match probe fs pInfo N with
    | Unbound => GoOn (N + 1)
    | Broken => Fail
    | BoundTo M => Hit M attr
    end.
Proof.
  intros Hattr. unfold expected. rewrite probe_set_name.
  destruct (probe fs pInfo N); try reflexivity.
  simpl name. apply String.eqb_neq in Hattr. rewrite Hattr. reflexivity.
Qed.

(** When no instance gives a hit, the loop does not return a hwmon index. *)
Lemma never_found (fs : sysfs) (v : bool) (pInfo : pmbus_info) (num : Z) :
  files_hold_token fs ->
  (forall N, no_hit (expected fs pInfo N)) ->
  forall (fuel : nat) (N : Z) (m : store) (r : resolution) (id : Z),
    resolve_from fuel fs v pInfo num N m = Some r -> res_exit r <> Found id.
Proof.
  intros Htok Hno. induction fuel as [|fuel IH]; intros N m r id; simpl.
  - discriminate.
  - destruct (N <? num).
    + pose proof (loop_body_expected fs v pInfo N m Htok) as Hb.
      pose proof (Hno N) as HN.
      destruct (loop_body fs v pInfo N m) as [id' m' t|r0];
        destruct (expected fs pInfo N); simpl in Hb, HN; try contradiction.
      * intros H. apply emit_some in H. destruct H as [r1 [H1 [He _]]].
        rewrite He. apply (IH _ _ _ _ H1).
      * intros H. inversion H; subst. destruct Hb as [e He]. rewrite He.
        discriminate.
    + intros H. inversion H. discriminate.
Qed.

(** With consistent bindings, a label scan that comes up empty for one
    instance comes up empty for all. *)
Lemma miss_everywhere (fs : sysfs) (pInfo : pmbus_info) (N0 M : Z) :
  consistent_bindings fs pInfo ->
  name pInfo = "" ->
  probe fs pInfo N0 = BoundTo M ->
  no_hit (expected fs pInfo N0) ->
  forall N, no_hit (expected fs pInfo N).
Proof.
  intros Hcons Hname Hp0 H0 N. unfold expected in *.
  rewrite Hp0, Hname in H0.
  destruct (probe fs pInfo N) as [| |M'] eqn:Hp; try exact I.
  rewrite (Hcons _ _ _ _ Hp Hp0), Hname. exact H0.
Qed.

Lemma expected_hit (fs : sysfs) (pInfo : pmbus_info) (N M : Z) (attr : string) :
  expected fs pInfo N = Hit M attr ->
  probe fs pInfo N = BoundTo M /\ attr <> "".
Proof.
  unfold expected. destruct (probe fs pInfo N) as [| |M']; try discriminate.
  destruct (negb (String.eqb (name pInfo) "")) eqn:Hn.
  - intros H. inversion H; subst. split; [reflexivity|].
    apply negb_true_iff in Hn. apply String.eqb_neq. exact Hn.
  - destruct (sys_dir fs (hwmon_dir (sprintf_d M'))) as [labels|e]; try discriminate.
    destruct (find_label fs _ (label pInfo) labels) as [d|]; try discriminate.
    intros H. inversion H; subst. split; [reflexivity|].
    apply input_of_label_nonempty.
Qed.

Lemma expected_go_on_bound (fs : sysfs) (pInfo : pmbus_info) (N M id : Z) :
  probe fs pInfo N = BoundTo M ->
  expected fs pInfo N = GoOn id ->
  name pInfo = "".
Proof.
  unfold expected. intros Hp. rewrite Hp.
  destruct (String.eqb (name pInfo) "") eqn:Hn; simpl.
  - intros _. apply String.eqb_eq. exact Hn.
  - discriminate.
Qed.

Lemma set_name_twice (pInfo : pmbus_info) (a b : string) :
  set_name (set_name pInfo a) b = set_name pInfo b.
Proof. reflexivity. Qed.

(** The heart of the memoization: a loop that returned a hwmon index
    returns the same index and the same path when it is run again, from the
    same instance, on the descriptor it left. *)
Lemma resolve_again (fs : sysfs) (v1 v2 : bool) (pInfo : pmbus_info) (num : Z) :
  files_hold_token fs ->
  consistent_bindings fs pInfo ->
  forall (fuel : nat) (N : Z) (m1 m2 : store) (r1 : resolution) (id : Z),
    resolve_from fuel fs v1 pInfo num N m1 = Some r1 ->
    res_exit r1 = Found id ->
    exists r2,
      resolve_from fuel fs v2 (res_info r1) num N m2 = Some r2 /\
      res_exit r2 = Found id /\
      res_info r2 = res_info r1 /\
      st_filename (res_store r2) = st_filename (res_store r1) /\
      name (res_info r1) <> "" /\
      st_filename (res_store r1)
      = attribute_file (sprintf_d id) (name (res_info r1)).
Proof.
  intros Htok Hcons. induction fuel as [|fuel IH]; intros N m1 m2 r1 id Hr1 Hid.
  - discriminate Hr1.
  - pose proof (resolve_from_info _ _ _ _ _ _ _ _ Hr1) as Hinfo.
    simpl resolve_from in *. destruct (N <? num); [|inversion Hr1; subst; discriminate Hid].
    pose proof (loop_body_expected fs v1 pInfo N m1 Htok) as Hb1.
    destruct (loop_body fs v1 pInfo N m1) as [id' m' t|r] eqn:Hbody1.
    + (* the first call went on *)
      apply emit_some in Hr1. destruct Hr1 as [r0 [Hr0 [He [Hi [Hs _]]]]].
      rewrite He in Hid. rewrite Hs, Hi in *.
      destruct (expected fs pInfo N) as [id''| |] eqn:Hexp; simpl in Hb1;
        try contradiction.
      subst id''.
      destruct (probe fs pInfo N) as [| |M] eqn:Hp.
      * (* no device at the address under this instance *)
        destruct (IH _ _ m2 _ _ Hr0 Hid) as [_ [_ [_ [_ [_ [Hne _]]]]]].
        pose proof (loop_body_expected fs v2 (res_info r0) N m2 Htok) as Hb2.
        assert (Hexp2 : expected fs (res_info r0) N = GoOn (N + 1)).
        { rewrite Hinfo, (expected_cached _ _ _ _ Hne), Hp. reflexivity. }
        rewrite Hexp2 in Hb2.
        destruct (loop_body fs v2 (res_info r0) N m2) as [id2 m2' t2|r2];
          simpl in Hb2; try contradiction.
        subst id2.
        assert (Hid' : id' = N + 1).
        { unfold expected in Hexp. rewrite Hp in Hexp. inversion Hexp. reflexivity. }
        subst id'.
        destruct (IH _ _ m2' _ _ Hr0 Hid) as [r2 [Hr2 [He2 [Hi2 [Hf2 [_ Hsh]]]]]].
        rewrite Hr2. simpl. eexists. split; [reflexivity|]. simpl. auto 10.
      * unfold expected in Hexp. rewrite Hp in Hexp. discriminate.
      * (* bound, and the label scan missed: then it misses everywhere *)
        exfalso.
        pose proof (expected_go_on_bound _ _ _ _ _ Hp Hexp) as Hname.
        assert (Hno : no_hit (expected fs pInfo N)) by (rewrite Hexp; exact I).
        exact (never_found fs v1 pInfo num Htok
                 (miss_everywhere _ _ _ _ Hcons Hname Hp Hno) _ _ _ _ id Hr0 Hid).
    + (* the first call returned here *)
      inversion Hr1; subst r.
      destruct (expected fs pInfo N) as [| |M attr] eqn:Hexp; simpl in Hb1;
        try contradiction.
      { destruct Hb1 as [e He]. rewrite He in Hid. discriminate. }
      destruct Hb1 as [He [Hi Hf]].
      destruct (expected_hit _ _ _ _ _ Hexp) as [Hp Hne].
      assert (Hattr : name (res_info r1) = attr) by (rewrite Hi; reflexivity).
      pose proof (loop_body_expected fs v2 (res_info r1) N m2 Htok) as Hb2.
      assert (Hexp2 : expected fs (res_info r1) N = Hit M attr).
      { rewrite Hi, (expected_cached _ _ _ _ Hne), Hp. reflexivity. }
      rewrite Hexp2 in Hb2.
      destruct (loop_body fs v2 (res_info r1) N m2) as [id2 m2' t2|r2];
        simpl in Hb2; try contradiction.
      destruct Hb2 as [He2 [Hi2 Hf2]].
      exists r2. split; [reflexivity|].
      rewrite He in Hid. inversion Hid; subst id.
      split; [exact He2|]. split.
      { rewrite Hi2, Hi. apply set_name_twice. }
      split; [rewrite Hf2, Hf; reflexivity|].
      rewrite Hattr. split; [exact Hne|exact Hf].
Qed.

Lemma resolve_from_explicit_sound (fs : sysfs) (v : bool) (pInfo : pmbus_info) (num : Z) :
  name pInfo <> "" ->
  forall (fuel : nat) (N : Z) (m : store) (r : resolution),
    resolve_from fuel fs v pInfo num N m = Some r ->
    Forall (probe_event (address pInfo)) (res_trace r).
Proof.
  intros Hname. induction fuel as [|fuel IH]; intros N m r; simpl.
  - discriminate.
  - destruct (N <? num).
    + pose proof (loop_body_explicit fs v pInfo N m Hname) as Hb.
      destruct (loop_body fs v pInfo N m) as [id' m' t|r0].
      * intros H. apply emit_some in H. destruct H as [r1 [H1 [_ [_ [_ Ht]]]]].
        rewrite Ht. apply Forall_app. split; [apply Hb|apply (IH _ _ _ H1)].
      * intros H. inversion H; subst. apply Hb.
    + intros H. inversion H. constructor.
Qed.

Lemma count_hwmon_reg_devices_num (fs : sysfs) (e1 e2 : Z) :
  fst (fst (count_hwmon_reg_devices fs e1))
  = fst (fst (count_hwmon_reg_devices fs e2)).
Proof.
  unfold count_hwmon_reg_devices. destruct (sys_dir fs hwmon_class); reflexivity.
Qed.

(** C5.  On a file system whose attribute files hold a token and where the
    address leads to one hwmon index from every instance, a resolution that
    returned a hwmon index left a non-empty [name] in the descriptor and the
    path [/sys/class/hwmon/hwmon<id>/<name>] in [filename].  Resolving the
    descriptor again (same fuel; any verbosity, any buffer contents) returns
    the same index and the same path and leaves the descriptor as it is,
    and this second call only searches for the bound instance: it opens no
    file whose name ends in "_label" and lists no
    [/sys/class/hwmon/hwmon<id>] directory. *)
Theorem second_resolution_uses_cached_name (fuel : nat) (fs : sysfs)
    (v1 v2 : bool) (pInfo : pmbus_info) (m1 m2 : store) (r1 : resolution) (id : Z) :
  files_hold_token fs ->
  consistent_bindings fs pInfo ->
  get_pmbus_device_filename fuel fs v1 pInfo m1 = Some r1 ->
  res_exit r1 = Found id ->
  res_info r1 = set_name pInfo (name (res_info r1)) /\
  name (res_info r1) <> "" /\
  st_filename (res_store r1)
  = "/sys/class/hwmon/hwmon" ++ sprintf_d id ++ "/" ++ name (res_info r1) /\
  exists r2,
    get_pmbus_device_filename fuel fs v2 (res_info r1) m2 = Some r2 /\
    res_exit r2 = Found id /\
    st_filename (res_store r2) = st_filename (res_store r1) /\
    res_info r2 = res_info r1 /\
    (forall p, In (Fopen p) (res_trace r2) -> ends_with p "_label" = false) /\
    (forall id' : Z, ~ In (Opendir (hwmon_dir (sprintf_d id'))) (res_trace r2)).
Proof.
  intros Htok Hcons Hr1 Hid.
  pose proof (get_pmbus_device_filename_info _ _ _ _ _ _ Hr1) as Hinfo.
  unfold get_pmbus_device_filename in *.
  pose proof (count_hwmon_reg_devices_num fs (st_errno m1) (st_errno m2)) as Hnum.
  pose proof (count_hwmon_reg_devices_probe fs (st_errno m2) (address pInfo)) as Hc.
  destruct (count_hwmon_reg_devices fs (st_errno m1)) as [[num e1] t1].
  destruct (count_hwmon_reg_devices fs (st_errno m2)) as [[num2 e2] t2].
  simpl in Hnum, Hc. subst num2.
  apply emit_some in Hr1. destruct Hr1 as [r0 [Hr0 [He [Hi [Hs _]]]]].
  rewrite He in Hid. rewrite Hs, Hi in *.
  destruct (resolve_again fs v1 v2 pInfo num Htok Hcons fuel 0 _ (set_errno m2 e2)
              _ _ Hr0 Hid) as [r2 [Hr2 [He2 [Hi2 [Hf2 [Hne Hshape]]]]]].
  split; [exact Hinfo|]. split; [exact Hne|]. split; [exact Hshape|].
  rewrite Hr2. simpl. eexists. split; [reflexivity|]. simpl.
  split; [exact He2|]. split; [exact Hf2|]. split; [exact Hi2|].
  assert (Hall : Forall (probe_event (address pInfo)) (t2 ++ res_trace r2)).
  { apply Forall_app. split; [exact Hc|].
    replace (address pInfo) with (address (res_info r0))
      by (rewrite Hinfo; reflexivity).
    apply (resolve_from_explicit_sound fs v2 (res_info r0) num Hne _ _ _ _ Hr2). }
  rewrite Forall_forall in Hall. split.
  - intros p Hp. destruct (Hall _ Hp) as [N HN]. subst p.
    apply driver_name_file_not_label.
  - intros id' Hin. destruct (Hall _ Hin) as [H|[N H]].
    + exact (hwmon_dir_not_class _ H).
    + exact (hwmon_dir_not_driver_dir _ _ _ H).
Qed.

Lemma lookup_In {A : Type} (l : list (string * A)) (path : string) (a : A) :
  lookup l path = Ok a -> In (path, a) l.
Proof.
  induction l as [|[p x] l IH]; simpl.
  - discriminate.
  - destruct (String.eqb path p) eqn:Hp.
    + intros H. inversion H; subst. apply String.eqb_eq in Hp. subst. left. reflexivity.
    + intros H. right. apply IH. exact H.
Qed.

Lemma scenario_A_files_hold_token : files_hold_token scenario_A.
Proof.
  intros path content H. apply lookup_In in H.
  destruct H as [H|[H|[H|[]]]]; inversion H; subst; vm_compute; discriminate.
Qed.

Lemma scenario_A_bound_to_3 (N M : Z) :
  probe scenario_A rail_A N = BoundTo M -> M = 3.
Proof.
  unfold probe.
  destruct (sys_file scenario_A _) as [content|e]; [|discriminate].
  destruct (String.eqb _ _); [|discriminate].
  destruct (sys_dir scenario_A (driver_hwmon_dir (sprintf_d N) (address rail_A)))
    as [entries|e] eqn:Hd; [|discriminate].
  apply lookup_In in Hd.
  destruct Hd as [H|[H|[H|[]]]]; injection H as Hpath Hentries; subst entries.
  - discriminate Hpath.
  - intros H0. inversion H0. reflexivity.
  - exfalso. apply (f_equal (has_char "/")) in Hpath.
    rewrite has_char_append, sprintf_d_no_slash in Hpath. discriminate Hpath.
Qed.

Lemma scenario_A_consistent : consistent_bindings scenario_A rail_A.
Proof.
  intros N N' M M' H H'.
  rewrite (scenario_A_bound_to_3 _ _ H), (scenario_A_bound_to_3 _ _ H').
  reflexivity.
Qed.

Lemma second_resolution_uses_cached_name_witness :
  exists r1,
    get_pmbus_device_filename 8 scenario_A false rail_A empty_store = Some r1 /\
    res_info r1 = set_name rail_A (name (res_info r1)) /\
    name (res_info r1) <> "" /\
    st_filename (res_store r1)
    = "/sys/class/hwmon/hwmon" ++ sprintf_d 3 ++ "/" ++ name (res_info r1) /\
    exists r2,
      get_pmbus_device_filename 8 scenario_A true (res_info r1) (res_store r1) = Some r2 /\
      res_exit r2 = Found 3 /\
      st_filename (res_store r2) = st_filename (res_store r1) /\
      res_info r2 = res_info r1 /\
      (forall p, In (Fopen p) (res_trace r2) -> ends_with p "_label" = false) /\
      (forall id' : Z, ~ In (Opendir (hwmon_dir (sprintf_d id'))) (res_trace r2)).
Proof.
  eexists. split; [vm_compute; reflexivity|].
  refine (second_resolution_uses_cached_name 8 scenario_A false true rail_A
            empty_store _ _ 3 scenario_A_files_hold_token scenario_A_consistent _ _).
  - vm_compute. reflexivity.
  - reflexivity.
Defined.

(** ** The error number does not reach the report *)

Lemma forget_store_eq (m1 m2 : store) :
  forget_store m1 = forget_store m2 ->
  st_filename m1 = st_filename m2 /\
  st_device_name m1 = st_device_name m2 /\
  st_reg_label m1 = st_reg_label m2.
Proof.
  destruct m1, m2. unfold forget_store, set_errno. simpl.
  intros H. inversion H. auto.
Qed.

Lemma forget_store_split (m1 m2 : store) :
  forget_store m1 = forget_store m2 ->
  exists f d l e1 e2, m1 = mk_store f d l e1 /\ m2 = mk_store f d l e2.
Proof.
  destruct m1 as [f1 d1 l1 e1], m2 as [f2 d2 l2 e2].
  unfold forget_store, set_errno. simpl. intros H. inversion H; subst.
  exists f2, d2, l2, e1, e2. split; reflexivity.
Qed.

Lemma forget_scan_emit (t : trace) (s : scan) :
  forget_scan (scan_emit t s) = scan_emit t (forget_scan s).
Proof. destruct s; reflexivity. Qed.

Lemma label_scan_forget (fs : sysfs) (v : bool) (pInfo : pmbus_info)
    (hwmon_id_str : string) (entries : list string) (m1 m2 : store) :
  forget_store m1 = forget_store m2 ->
  forget_scan (label_scan fs v pInfo hwmon_id_str entries m1)
  = forget_scan (label_scan fs v pInfo hwmon_id_str entries m2).
Proof.
  revert m1 m2. induction entries as [|d rest IH]; intros m1 m2 Hm;
    destruct (forget_store_split _ _ Hm) as [f [d0 [l [e1 [e2 [H1 H2]]]]]];
    subst m1 m2; clear Hm; cbn [label_scan].
  - reflexivity.
  - destruct (strstr d "label"); [|apply IH; reflexivity].
    destruct (sys_file fs (attribute_file hwmon_id_str d)) as [content|e].
    + cbn [st_reg_label set_reg_label set_filename st_filename st_device_name st_errno].
      destruct (String.eqb _ (label pInfo)).
      * reflexivity.
      * rewrite !forget_scan_emit. apply (f_equal (scan_emit _)).
        apply IH. reflexivity.
    + rewrite !forget_scan_emit. apply (f_equal (scan_emit _)).
      apply IH. reflexivity.
Qed.

Lemma forget_scan_inv (s1 s2 : scan) :
  forget_scan s1 = forget_scan s2 ->
  match s1, s2 with
  | ScanHit p1 m1 t1, ScanHit p2 m2 t2 =>
      p1 = p2 /\ forget_store m1 = forget_store m2 /\ t1 = t2
  | ScanMiss m1 t1, ScanMiss m2 t2 => forget_store m1 = forget_store m2 /\ t1 = t2
  | _, _ => False
  end.
Proof.
  destruct s1 as [p1 m1 t1|m1 t1], s2 as [p2 m2 t2|m2 t2]; cbn [forget_scan];
    generalize (forget_store m1), (forget_store m2); intros a b H;
    inversion H; auto.
Qed.

Lemma loop_body_forget (fs : sysfs) (v : bool) (pInfo : pmbus_info) (N : Z)
    (m1 m2 : store) :
  forget_store m1 = forget_store m2 ->
  forget_step (loop_body fs v pInfo N m1) = forget_step (loop_body fs v pInfo N m2).
Proof.
  intros Hm. destruct (forget_store_split _ _ Hm) as [f [d [l [e1 [e2 [H1 H2]]]]]].
  subst m1 m2. clear Hm. unfold loop_body.
  cbn [set_filename set_device_name set_errno st_filename st_device_name
       st_reg_label st_errno].
  destruct (sys_file fs (driver_name_file _ _)) as [content|e]; [|reflexivity].
  destruct (negb (String.eqb (device pInfo) _)); [reflexivity|].
  destruct (sys_dir fs (driver_hwmon_dir _ _)) as [entries|e]; [|reflexivity].
  destruct (nth_error entries 2) as [d_name|]; [|reflexivity].
  destruct (negb (String.eqb (name pInfo) "")); [reflexivity|].
  destruct (sys_dir fs (hwmon_dir _)) as [labels|e]; [|reflexivity].
  match goal with
  |- forget_step match label_scan fs v pInfo ?i labels ?a with _ => _ end
     = forget_step match label_scan fs v pInfo ?i labels ?b with _ => _ end =>
      pose proof (forget_scan_inv _ _
                    (label_scan_forget fs v pInfo i labels a b eq_refl)) as Hs;
      destruct (label_scan fs v pInfo i labels a) as [p1 a1 t1|a1 t1];
      destruct (label_scan fs v pInfo i labels b) as [p2 a2 t2|a2 t2]
  end; try contradiction.
  - destruct Hs as [Hp [Ha Ht]]. subst p2 t2.
    cbn [forget_step]. unfold forget_resolution.
    cbn [res_exit res_info res_store res_trace]. rewrite Ha. reflexivity.
  - destruct Hs as [Ha Ht]. subst t2. cbn [forget_step]. rewrite Ha. reflexivity.
Qed.

Lemma forget_emit (t : trace) (r : option resolution) :
  option_map forget_resolution (emit t r)
  = emit t (option_map forget_resolution r).
Proof. destruct r; reflexivity. Qed.

Lemma forget_step_inv (s1 s2 : step) :
  forget_step s1 = forget_step s2 ->
  match s1, s2 with
  | Continue i1 m1 t1, Continue i2 m2 t2 =>
      i1 = i2 /\ forget_store m1 = forget_store m2 /\ t1 = t2
  | Stop r1, Stop r2 => forget_resolution r1 = forget_resolution r2
  | _, _ => False
  end.
Proof.
  destruct s1 as [i1 m1 t1|r1], s2 as [i2 m2 t2|r2]; cbn [forget_step].
  - generalize (forget_store m1), (forget_store m2). intros a b H.
    inversion H; auto.
  - discriminate.
  - discriminate.
  - generalize (forget_resolution r1), (forget_resolution r2). intros a b H.
    inversion H; auto.
Qed.

Lemma resolve_from_forget (fs : sysfs) (v : bool) (pInfo : pmbus_info) (num : Z)
    (fuel : nat) (N : Z) (m1 m2 : store) :
  forget_store m1 = forget_store m2 ->
  option_map forget_resolution (resolve_from fuel fs v pInfo num N m1)
  = option_map forget_resolution (resolve_from fuel fs v pInfo num N m2).
Proof.
  revert N m1 m2. induction fuel as [|fuel IH]; intros N m1 m2 Hm;
    cbn [resolve_from].
  - reflexivity.
  - destruct (N <? num).
    + pose proof (forget_step_inv _ _ (loop_body_forget fs v pInfo N m1 m2 Hm)) as Hb.
      destruct (loop_body fs v pInfo N m1) as [i1 a1 t1|r1];
        destruct (loop_body fs v pInfo N m2) as [i2 a2 t2|r2];
        try contradiction.
      * destruct Hb as [Hi [Ha Ht]]. subst i2 t2.
        rewrite !forget_emit. apply (f_equal (emit _)). apply IH. exact Ha.
      * cbn [option_map]. rewrite Hb. reflexivity.
    + cbn [option_map]. unfold forget_resolution.
      cbn [res_exit res_info res_store res_trace]. rewrite Hm. reflexivity.
Qed.

Lemma get_pmbus_device_filename_forget (fuel : nat) (fs : sysfs) (v : bool)
    (pInfo : pmbus_info) (m1 m2 : store) :
  forget_store m1 = forget_store m2 ->
  option_map forget_resolution (get_pmbus_device_filename fuel fs v pInfo m1)
  = option_map forget_resolution (get_pmbus_device_filename fuel fs v pInfo m2).
Proof.
  intros Hm. destruct (forget_store_split _ _ Hm) as [f [d [l [e1 [e2 [H1 H2]]]]]].
  subst m1 m2. unfold get_pmbus_device_filename, count_hwmon_reg_devices. simpl.
  destruct (sys_dir fs hwmon_class) as [entries|e];
    rewrite !forget_emit; f_equal; apply resolve_from_forget; reflexivity.
Qed.

Lemma forget_rep_emit (t : trace) (row : option pmbus_info) (r : option report) :
  forget_report (rep_emit t row r) = rep_emit t row (forget_report r).
Proof. destruct r; reflexivity. Qed.

Lemma forget_resolution_inv (r1 r2 : resolution) :
  forget_resolution r1 = forget_resolution r2 ->
  res_info r1 = res_info r2 /\
  st_filename (res_store r1) = st_filename (res_store r2) /\
  res_trace r1 = res_trace r2.
Proof.
  destruct r1 as [x1 p1 [f1 d1 l1 e1] t1], r2 as [x2 p2 [f2 d2 l2 e2] t2].
  unfold forget_resolution, forget_store, set_errno. simpl.
  intros H. inversion H. auto.
Qed.

Lemma report_from_forget (fuel : nat) (fs : sysfs) (v : bool)
    (stack : nat -> garbage) (rows : list pmbus_info) (i : nat)
    (filename : string) (value e1 e2 : Z) :
  forget_report (report_from fuel fs v stack i rows filename value e1)
  = forget_report (report_from fuel fs v stack i rows filename value e2).
Proof.
  revert i filename value e1 e2.
  induction rows as [|row rest IH]; intros i filename value e1 e2;
    cbn [report_from].
  - reflexivity.
  - destruct (String.eqb (device row) ""); [reflexivity|].
    pose proof (get_pmbus_device_filename_forget fuel fs v row
                  (mk_store filename (g_device_name (stack i))
                            (g_reg_label (stack i)) e1)
                  (mk_store filename (g_device_name (stack i))
                            (g_reg_label (stack i)) e2) eq_refl) as Hres.
    destruct (get_pmbus_device_filename fuel fs v row (mk_store _ _ _ e1)) as [r1|];
      destruct (get_pmbus_device_filename fuel fs v row (mk_store _ _ _ e2)) as [r2|];
      cbn [option_map] in Hres; try discriminate; [|reflexivity].
    assert (Hr : forget_resolution r1 = forget_resolution r2)
      by (generalize (forget_resolution r1), (forget_resolution r2), Hres;
          intros a b Hab; inversion Hab; reflexivity).
    destruct (forget_resolution_inv _ _ Hr) as [Hi [Hf Ht]].
    rewrite Hi, Hf, Ht.
    destruct (sys_file fs (st_filename (res_store r2))) as [content|e].
    + destruct (division (res_info r2) =? 0); [reflexivity|].
      rewrite !forget_rep_emit. apply (f_equal (rep_emit _ _)). apply IH.
    + reflexivity.
Qed.

Lemma print_pmbus_info_forget (fuel : nat) (fs : sysfs) (v : bool) (fr : frame)
    (pmbus_list : list pmbus_info) (e1 e2 : Z) :
  forget_report (print_pmbus_info fuel fs v fr pmbus_list e1)
  = forget_report (print_pmbus_info fuel fs v fr pmbus_list e2).
Proof.
  unfold print_pmbus_info. rewrite !forget_rep_emit.
  apply (f_equal (rep_emit _ _)). apply report_from_forget.
Qed.

(** ** The three board blocks *)

Lemma board_block_alone (fuel : nat) (fs : sysfs) (v : bool) (fr : frame)
    (hostname fragment banner : string) (pmbus_list : list pmbus_info)
    (errno : Z) (r : report) :
  (strstr hostname fragment = true ->
   print_pmbus_info fuel fs v fr pmbus_list 0 = Some r /\ rep_status r = Returned) ->
  exists e,
    board_block fuel fs v fr hostname fragment banner pmbus_list errno
    = Some (Returned,
            if strstr hostname fragment then rep_list r else pmbus_list,
            e,
            when (strstr hostname fragment)
                 (diag v (banner ++ newline) ++ rep_trace r)).
Proof.
  intros H. unfold board_block, when.
  destruct (strstr hostname fragment).
  - destruct (H eq_refl) as [Hr Hs].
    pose proof (print_pmbus_info_forget fuel fs v fr pmbus_list errno 0) as Hf.
    rewrite Hr in Hf.
    destruct (print_pmbus_info fuel fs v fr pmbus_list errno) as [r'|];
      simpl in Hf; [|discriminate].
    inversion Hf as [[H1 H2 H3 H4 H5]].
    rewrite H1, H2, H5, Hs. eexists. reflexivity.
  - eexists. reflexivity.
Qed.

(** The three tests of the host name are separate [if] statements.
    Whenever each table whose fragment occurs in the host name is reported
    to the end (its [print_pmbus_info], run on its own, returns),
    [print_power_utilization] returns 0 and its trace is the host-name
    lookup followed by the blocks of the boards whose fragment occurs, each
    block being the banner that [verbose_flag] asks for and the whole trace
    of that table's report, in the order Ultra96-V2, UltraZed-7EV,
    UltraZed-3EG; no block depends on whether an earlier one ran. *)
Theorem board_checks_are_independent (fuel : nat) (fs : sysfs) (verbose_flag : bool)
    (command_output : option string) (frames : nat -> frame) (tbs : tables)
    (errno : Z) (hostname : string) (t0 : trace) (r1 r2 r3 : report) :
  read_hostname verbose_flag command_output = (hostname, t0) ->
  (strstr hostname "u96v2" = true ->
   print_pmbus_info fuel fs verbose_flag (frames 0%nat) (tb_ultra96v2 tbs) 0 = Some r1 /\
   rep_status r1 = Returned) ->
  (strstr hostname "uz7ev" = true ->
   print_pmbus_info fuel fs verbose_flag (frames 1%nat) (tb_uz7ev_evcc tbs) 0 = Some r2 /\
   rep_status r2 = Returned) ->
  (strstr hostname "uz3eg" = true ->
   print_pmbus_info fuel fs verbose_flag (frames 2%nat) (tb_uz3eg_xxx tbs) 0 = Some r3 /\
   rep_status r3 = Returned) ->
  exists p,
    print_power_utilization fuel fs verbose_flag command_output frames tbs errno
    = Some p /\
    pw_result p = Return 0 /\
    pw_tables p
    = mk_tables
        (if strstr hostname "u96v2" then rep_list r1 else tb_ultra96v2 tbs)
        (if strstr hostname "uz7ev" then rep_list r2 else tb_uz7ev_evcc tbs)
        (if strstr hostname "uz3eg" then rep_list r3 else tb_uz3eg_xxx tbs) /\
    pw_trace p
    = (t0 ++
       when (strstr hostname "u96v2")
            (diag verbose_flag ("Ultra96-V2" ++ newline) ++ rep_trace r1) ++
       when (strstr hostname "uz7ev")
            (diag verbose_flag ("UltraZed-7EV-EVCC" ++ newline) ++ rep_trace r2) ++
       when (strstr hostname "uz3eg")
            (diag verbose_flag ("UltraZed-3EG" ++ newline) ++ rep_trace r3))%list.
Proof.
  intros Hhost H1 H2 H3. unfold print_power_utilization. rewrite Hhost.
  destruct (board_block_alone fuel fs verbose_flag (frames 0%nat) hostname "u96v2"
              "Ultra96-V2" (tb_ultra96v2 tbs) errno r1 H1) as [e1 Hb1].
  rewrite Hb1.
  destruct (board_block_alone fuel fs verbose_flag (frames 1%nat) hostname "uz7ev"
              "UltraZed-7EV-EVCC" (tb_uz7ev_evcc tbs) e1 r2 H2) as [e2 Hb2].
  rewrite Hb2.
  destruct (board_block_alone fuel fs verbose_flag (frames 2%nat) hostname "uz3eg"
              "UltraZed-3EG" (tb_uz3eg_xxx tbs) e2 r3 H3) as [e3 Hb3].
  rewrite Hb3.
  eexists. split; [reflexivity|]. simpl. auto.
Qed.

Lemma board_checks_are_independent_witness :
  exists r1 r2 p,
    print_pmbus_info 12 both_boards false empty_frame pmbus_ultra96v2 0 = Some r1 /\
    print_pmbus_info 12 both_boards false empty_frame pmbus_uz7ev_evcc 0 = Some r2 /\
    print_power_utilization 12 both_boards false
      (Some ("zub-u96v2-uz7ev" ++ newline)) (fun _ => empty_frame) initial_tables 0
    = Some p /\
    pw_result p = Return 0 /\
    pw_trace p
    = ([Popen "hostname"; Pclose "hostname"] ++
       rep_trace r1 ++ rep_trace r2)%list.
Proof.
  destruct (print_pmbus_info 12 both_boards false empty_frame pmbus_ultra96v2 0)
    as [r1|] eqn:H1; [|vm_compute in H1; discriminate H1].
  destruct (print_pmbus_info 12 both_boards false empty_frame pmbus_uz7ev_evcc 0)
    as [r2|] eqn:H2; [|vm_compute in H2; discriminate H2].
  assert (S1 : rep_status r1 = Returned).
  { vm_compute in H1. inversion H1. reflexivity. }
  assert (S2 : rep_status r2 = Returned).
  { vm_compute in H2. inversion H2. reflexivity. }
  destruct (board_checks_are_independent 12 both_boards false
              (Some ("zub-u96v2-uz7ev" ++ newline)) (fun _ => empty_frame)
              initial_tables 0 ("zub-u96v2-uz7ev" ++ newline)
              [Popen "hostname"; Pclose "hostname"] r1 r2 r1)
    as [p [Hp [Hr [_ Ht]]]].
  - reflexivity.
  - intros _. split; assumption.
  - intros _. split; assumption.
  - intros H. vm_compute in H. discriminate H.
  - exists r1, r2, p. split; [reflexivity|]. split; [reflexivity|].
    split; [exact Hp|]. split; [exact Hr|].
    rewrite Ht. simpl. rewrite app_nil_r. reflexivity.
Defined.

(** C10 (fails on the code).  A report does not always run to its end, so
    the reports of the matching boards are not always all printed.  On an
    Ultra96-V2 whose host name contains "u96v2" and "uz7ev", both tests
    succeed and the Ultra96-V2 table is reported in full; the UltraZed-7EV
    report then prints its heading, finds no instance for the address
    6-004c of its first rail, prints "unable to open" for the last path
    tried and reaches [fscanf] on the null stream.  The run ends there,
    with or without [verbose_flag]: no rail of the second table is
    reported and [print_power_utilization] does not return. *)
Theorem second_board_report_faults (verbose_flag : bool) :
  strstr ("zub-u96v2-uz7ev" ++ newline) "u96v2" = true /\
  strstr ("zub-u96v2-uz7ev" ++ newline) "uz7ev" = true /\
  exists r1 p,
    print_pmbus_info 12 ultra96v2_board verbose_flag empty_frame pmbus_ultra96v2 0
    = Some r1 /\
    rep_status r1 = Returned /\
    print_power_utilization 12 ultra96v2_board verbose_flag
      (Some ("zub-u96v2-uz7ev" ++ newline)) (fun _ => empty_frame) initial_tables 0
    = Some p /\
    pw_result p = Abort NullStream /\
    printed (pw_trace p)
    = (printed (rep_trace r1) ++
       [(newline ++ "Power Utilization:" ++ newline)%string;
        ("unable to open /sys/class/hwmon/hwmon2/device/driver/6-004c/name"
         ++ newline)%string])%list.
Proof.
  split; [reflexivity|]. split; [reflexivity|].
  destruct verbose_flag;
    (eexists; eexists; split; [vm_compute; reflexivity|];
     split; [reflexivity|]; split; [vm_compute; reflexivity|];
     split; [reflexivity|]; vm_compute; reflexivity).
Qed.

(** * Further properties of the code *)

(** ** An address that no instance knows *)

Lemma indices_nil (lo hi : Z) : hi <= lo -> indices lo hi = [].
Proof.
  intros H. unfold indices. replace (Z.to_nat (hi - lo)) with O by lia.
  reflexivity.
Qed.

Lemma indices_cons (lo hi : Z) : lo < hi -> indices lo hi = lo :: indices (lo + 1) hi.
Proof.
  intros H. unfold indices.
  replace (Z.to_nat (hi - lo)) with (S (Z.to_nat (hi - (lo + 1)))) by lia.
  cbn [seq map]. f_equal; [lia|].
  rewrite <- seq_shift, map_map. apply map_ext. intros k. lia.
Qed.

Lemma loop_body_unbound (fs : sysfs) (v : bool) (pInfo : pmbus_info) (N : Z)
    (m : store) (e : positive) :
  sys_file fs (driver_name_file (sprintf_d N) (address pInfo)) = Err e ->
  loop_body fs v pInfo N m
  = Continue (N + 1)
      (set_errno (set_filename m (driver_name_file (sprintf_d N) (address pInfo)))
                 (Z.pos e))
      [Fopen (driver_name_file (sprintf_d N) (address pInfo))].
Proof. intros H. unfold loop_body. rewrite H. reflexivity. Qed.

Lemma resolve_from_unbound (fs : sysfs) (v : bool) (pInfo : pmbus_info) (num : Z) :
  forall (fuel : nat) (N : Z) (m : store),
    (forall i, N <= i < num ->
       exists e, sys_file fs (driver_name_file (sprintf_d i) (address pInfo)) = Err e) ->
    (Z.to_nat (num - N) < fuel)%nat ->
    exists r,
      resolve_from fuel fs v pInfo num N m = Some r /\
      res_exit r = NotFound /\
      res_info r = pInfo /\
      res_trace r
      = map (fun i => Fopen (driver_name_file (sprintf_d i) (address pInfo)))
            (indices N num) /\
      st_filename (res_store r)
      = (if N <? num then driver_name_file (sprintf_d (num - 1)) (address pInfo)
         else st_filename m) /\
      st_device_name (res_store r) = st_device_name m /\
      st_reg_label (res_store r) = st_reg_label m.
Proof.
  induction fuel as [|fuel IH]; intros N m Hun Hfuel.
  - lia.
  - cbn [resolve_from]. destruct (N <? num) eqn:Hlt.
    + apply Z.ltb_lt in Hlt.
      destruct (Hun N (conj (Z.le_refl N) Hlt)) as [e He].
      rewrite (loop_body_unbound fs v pInfo N m e He).
      destruct (IH (N + 1)
                  (set_errno (set_filename m
                     (driver_name_file (sprintf_d N) (address pInfo))) (Z.pos e)))
        as [r [Hr [Hx [Hi [Ht [Hf [Hd Hl]]]]]]].
      { intros i Hi. apply Hun. lia. }
      { lia. }
      rewrite Hr. cbn [emit]. eexists. split; [reflexivity|].
      cbn [res_exit res_info res_trace res_store].
      split; [exact Hx|]. split; [exact Hi|]. split.
      { rewrite Ht, (indices_cons N num Hlt). reflexivity. }
      split; [|split; [exact Hd|exact Hl]].
      rewrite Hf. destruct (N + 1 <? num) eqn:Hlt'.
      * reflexivity.
      * apply Z.ltb_ge in Hlt'. replace (num - 1) with N by lia. reflexivity.
    + apply Z.ltb_ge in Hlt. eexists. split; [reflexivity|].
      cbn [res_exit res_info res_trace res_store].
      rewrite (indices_nil N num Hlt). auto 10.
Qed.

(** X1.  If no hwmon instance below the count has a [name] for the address
    under its driver, the resolver opens exactly those [name] files, one per
    index and in order, after counting the instances; it leaves the
    descriptor as it was, returns -1 and leaves in [filename] the last path
    it tried (the caller's buffer untouched when the count is 0).  The count
    is whatever [count_hwmon_reg_devices] returned: the error number when
    the class directory did not open. *)
Theorem unbound_address_not_found (fuel : nat) (fs : sysfs) (verbose_flag : bool)
    (pInfo : pmbus_info) (m : store) (num e0 : Z) (t0 : trace) :
  count_hwmon_reg_devices fs (st_errno m) = (num, e0, t0) ->
  (forall i, 0 <= i < num ->
     exists e, sys_file fs (driver_name_file (sprintf_d i) (address pInfo)) = Err e) ->
  (Z.to_nat num < fuel)%nat ->
  exists r,
    get_pmbus_device_filename fuel fs verbose_flag pInfo m = Some r /\
    exit_code (res_exit r) = -1 /\
    res_info r = pInfo /\
    res_trace r
    = (t0 ++ map (fun i => Fopen (driver_name_file (sprintf_d i) (address pInfo)))
                 (indices 0 num))%list /\
    st_filename (res_store r)
    = (if 0 <? num then driver_name_file (sprintf_d (num - 1)) (address pInfo)
       else st_filename m).
Proof.
  intros Hc Hun Hfuel. unfold get_pmbus_device_filename. rewrite Hc.
  destruct (resolve_from_unbound fs verbose_flag pInfo num fuel 0 (set_errno m e0))
    as [r [Hr [Hx [Hi [Ht [Hf _]]]]]].
  { exact Hun. }
  { replace (num - 0) with num by lia. exact Hfuel. }
  rewrite Hr. cbn [emit]. eexists. split; [reflexivity|].
  cbn [res_exit res_info res_trace res_store].
  rewrite Hx, Ht, Hf. auto.
Qed.

Lemma unbound_address_not_found_witness :
  exists r,
    get_pmbus_device_filename 3 (sysfs_of [] []) true rail_A empty_store = Some r /\
    exit_code (res_exit r) = -1 /\
    res_info r = rail_A /\
    res_trace r
    = ([Opendir hwmon_class;
        Printf ("Unable to open /sys/class/hwmon path" ++ newline)] ++
       map (fun i => Fopen (driver_name_file (sprintf_d i) "6-0043")) (indices 0 2))%list /\
    st_filename (res_store r)
    = (if 0 <? 2 then driver_name_file (sprintf_d (2 - 1)) "6-0043" else "").
Proof.
  apply (unbound_address_not_found 3 (sysfs_of [] []) true rail_A empty_store 2 2
           [Opendir hwmon_class;
            Printf ("Unable to open /sys/class/hwmon path" ++ newline)]).
  - reflexivity.
  - intros i _. exists ENOENT. reflexivity.
  - vm_compute. lia.
Defined.

Lemma printed_app (t1 t2 : trace) : printed (t1 ++ t2) = (printed t1 ++ printed t2)%list.
Proof.
  induction t1 as [|e t1 IH]; [reflexivity|].
  destruct e; cbn [printed app]; rewrite IH; reflexivity.
Qed.

Lemma printed_diag (v : bool) (s : string) : printed (diag v s) = [].
Proof. destruct v; reflexivity. Qed.

Lemma printed_fopens (f : Z -> string) (l : list Z) :
  printed (map (fun i => Fopen (f i)) l) = [].
Proof. induction l as [|i l IH]; [reflexivity|exact IH]. Qed.

Lemma count_of_listing (fs : sysfs) (entries : list string) (errno : Z) :
  sys_dir fs hwmon_class = Ok entries ->
  count_hwmon_reg_devices fs errno
  = (Z.of_nat (List.length (filter (fun d_name => strstr d_name "hwmon") entries)),
     errno, [Opendir hwmon_class; Closedir hwmon_class]).
Proof. intros H. unfold count_hwmon_reg_devices. rewrite H. reflexivity. Qed.

(** X2.  The reporter does not survive a rail whose address no instance
    knows.  When the class directory lists at least one hwmon entry and the
    address of the first row is bound under none of them, the resolver's -1
    is ignored, the reporter opens the last path the resolver tried, prints
    "unable to open" for it and reaches [fscanf] on the null stream: the
    report ends there, whatever rows follow, with the table untouched. *)
Theorem unbound_rail_ends_report (fuel : nat) (fs : sysfs) (verbose_flag : bool)
    (fr : frame) (row : pmbus_info) (rest : list pmbus_info) (errno : Z)
    (entries : list string) (num : Z) :
  device row <> "" ->
  sys_dir fs hwmon_class = Ok entries ->
  num = Z.of_nat (List.length (filter (fun d_name => strstr d_name "hwmon") entries)) ->
  0 < num ->
  (forall i, 0 <= i < num ->
     exists e, sys_file fs (driver_name_file (sprintf_d i) (address row)) = Err e) ->
  (Z.to_nat num < fuel)%nat ->
  exists rep,
    print_pmbus_info fuel fs verbose_flag fr (row :: rest) errno = Some rep /\
    rep_status rep = Faulted NullStream /\
    rep_list rep = row :: rest /\
    rep_filename rep = driver_name_file (sprintf_d (num - 1)) (address row) /\
    printed (rep_trace rep)
    = [newline ++ "Power Utilization:" ++ newline;
       "unable to open " ++ driver_name_file (sprintf_d (num - 1)) (address row)
       ++ newline].
Proof.
  intros Hdev Hdir Hnum Hpos Hun Hfuel.
  unfold print_pmbus_info. cbn [report_from].
  apply String.eqb_neq in Hdev. rewrite Hdev.
  destruct (unbound_address_not_found fuel fs verbose_flag row
              (mk_store (f_filename fr) (g_device_name (f_stack fr 0%nat))
                        (g_reg_label (f_stack fr 0%nat)) errno)
              num errno [Opendir hwmon_class; Closedir hwmon_class])
    as [r [Hr [Hx [Hi [Ht Hf]]]]].
  { cbn [st_errno]. rewrite (count_of_listing fs entries errno Hdir), <- Hnum.
    reflexivity. }
  { exact Hun. }
  { exact Hfuel. }
  rewrite Hr.
  assert (Hlt : (0 <? num) = true) by (apply Z.ltb_lt; exact Hpos).
  rewrite Hlt in Hf. rewrite Hf, Hi.
  destruct (Hun (num - 1)) as [e He]; [lia|].
  rewrite He. cbn [rep_emit]. eexists. split; [reflexivity|].
  cbn [rep_status rep_list rep_filename rep_trace].
  repeat split.
  rewrite Ht. cbn [printed app].
  rewrite !printed_app, !printed_diag. cbn [printed].
  rewrite !printed_app, !printed_diag.
  rewrite (printed_fopens (fun i => driver_name_file (sprintf_d i) (address row))).
  reflexivity.
Qed.

Lemma unbound_rail_ends_report_witness :
  exists rep,
    print_pmbus_info 2 scenario_B true empty_frame table_B 0 = Some rep /\
    rep_status rep = Faulted NullStream /\
    rep_list rep = table_B /\
    rep_filename rep = driver_name_file (sprintf_d (1 - 1)) "6-0043" /\
    printed (rep_trace rep)
    = [newline ++ "Power Utilization:" ++ newline;
       "unable to open " ++ driver_name_file (sprintf_d (1 - 1)) "6-0043" ++ newline].
Proof.
  apply (unbound_rail_ends_report 2 scenario_B true empty_frame rail_A
           [rail_B; pmbus_end] 0 ["."; ".."; "hwmon0"] 1).
  - discriminate.
  - reflexivity.
  - reflexivity.
  - lia.
  - intros i Hi. assert (i = 0) by lia. subst i. exists ENOENT. reflexivity.
  - vm_compute. lia.
Defined.

(** X3.  A class directory without any hwmon entry.  The resolver's loop
    does not run: it returns -1 having touched neither the descriptor nor
    [filename].  The reporter then opens whatever its [filename] array held
    before the call, which for the first row of a table is what the stack
    held; when that does not open, the report ends at the null stream with
    that text in the "unable to open" message. *)
Theorem no_hwmon_entry_stale_filename (fuel : nat) (fs : sysfs) (verbose_flag : bool)
    (fr : frame) (row : pmbus_info) (rest : list pmbus_info) (errno : Z)
    (entries : list string) (e : positive) (m : store) :
  device row <> "" ->
  sys_dir fs hwmon_class = Ok entries ->
  (forall d_name, In d_name entries -> strstr d_name "hwmon" = false) ->
  (0 < fuel)%nat ->
  sys_file fs (f_filename fr) = Err e ->
  get_pmbus_device_filename fuel fs verbose_flag row m
  = Some (mk_resolution NotFound row m [Opendir hwmon_class; Closedir hwmon_class]) /\
  exists rep,
    print_pmbus_info fuel fs verbose_flag fr (row :: rest) errno = Some rep /\
    rep_status rep = Faulted NullStream /\
    rep_filename rep = f_filename fr /\
    printed (rep_trace rep)
    = [newline ++ "Power Utilization:" ++ newline;
       "unable to open " ++ f_filename fr ++ newline].
Proof.
  intros Hdev Hdir Hnone Hfuel Hfile.
  assert (Hres : forall m0,
             get_pmbus_device_filename fuel fs verbose_flag row m0
             = Some (mk_resolution NotFound row m0
                       [Opendir hwmon_class; Closedir hwmon_class])).
  { intros m0. unfold get_pmbus_device_filename.
    rewrite (count_of_listing fs entries _ Hdir), (filter_none _ _ Hnone).
    destruct fuel as [|fuel]; [lia|]. cbn [resolve_from List.length Z.of_nat].
    change (0 <? 0) with false. cbv iota. destruct m0. reflexivity. }
  split; [apply Hres|].
  unfold print_pmbus_info. cbn [report_from].
  apply String.eqb_neq in Hdev. rewrite Hdev, Hres.
  cbn [res_store res_info res_trace st_filename st_errno]. rewrite Hfile.
  cbn [rep_emit]. eexists. split; [reflexivity|].
  cbn [rep_status rep_filename rep_trace]. repeat split.
  cbn [printed app]. rewrite !printed_app, !printed_diag. cbn [printed].
  rewrite ?printed_app, ?printed_diag. reflexivity.
Qed.

Lemma no_hwmon_entry_stale_filename_witness :
  get_pmbus_device_filename 1 (sysfs_of [] [(hwmon_class, ["."; ".."])]) false
    rail_A empty_store
  = Some (mk_resolution NotFound rail_A empty_store
            [Opendir hwmon_class; Closedir hwmon_class]) /\
  exists rep,
    print_pmbus_info 1 (sysfs_of [] [(hwmon_class, ["."; ".."])]) false
      (mk_frame "stack bytes" 0 (fun _ => no_garbage)) [rail_A; pmbus_end] 0 = Some rep /\
    rep_status rep = Faulted NullStream /\
    rep_filename rep = "stack bytes" /\
    printed (rep_trace rep)
    = [newline ++ "Power Utilization:" ++ newline;
       "unable to open " ++ "stack bytes" ++ newline].
Proof.
  apply (no_hwmon_entry_stale_filename 1 (sysfs_of [] [(hwmon_class, ["."; ".."])])
           false (mk_frame "stack bytes" 0 (fun _ => no_garbage)) rail_A [pmbus_end] 0
           ["."; ".."] ENOENT empty_store).
  - discriminate.
  - reflexivity.
  - intros d [H|[H|[]]]; subst d; reflexivity.
  - lia.
  - reflexivity.
Defined.

(** ** Streams *)

Lemma open_streams_app (fs : sysfs) (t1 t2 : trace) (acc : list string) :
  open_streams fs (t1 ++ t2) acc = open_streams fs t2 (open_streams fs t1 acc).
Proof.
  revert acc. induction t1 as [|e t1 IH]; intros acc; [reflexivity|].
  destruct e; cbn [open_streams app]; try apply IH.
  destruct (sys_file fs path); apply IH.
Qed.

Lemma balanced_nil (fs : sysfs) : balanced fs [].
Proof. intros acc. reflexivity. Qed.

Lemma balanced_app (fs : sysfs) (t1 t2 : trace) :
  balanced fs t1 -> balanced fs t2 -> balanced fs (t1 ++ t2).
Proof. intros H1 H2 acc. rewrite open_streams_app, H1, H2. reflexivity. Qed.

Lemma balanced_diag (fs : sysfs) (v : bool) (s : string) : balanced fs (diag v s).
Proof. destruct v; intros acc; reflexivity. Qed.

Lemma remove_one_head (p : string) (acc : list string) : remove_one p (p :: acc) = acc.
Proof. cbn [remove_one]. rewrite String.eqb_refl. reflexivity. Qed.

Lemma balanced_read (fs : sysfs) (p content : string) (t : trace) :
  sys_file fs p = Ok content -> balanced fs t ->
  balanced fs (Fopen p :: Fclose p :: t).
Proof.
  intros H Ht acc. cbn [open_streams]. rewrite H, remove_one_head. apply Ht.
Qed.

Lemma balanced_failed (fs : sysfs) (p : string) (e : positive) (t : trace) :
  sys_file fs p = Err e -> balanced fs t -> balanced fs (Fopen p :: t).
Proof. intros H Ht acc. cbn [open_streams]. rewrite H. apply Ht. Qed.

Lemma balanced_other (fs : sysfs) (e : event) (t : trace) :
  match e with Fopen _ | Fclose _ => False | _ => True end ->
  balanced fs t -> balanced fs (e :: t).
Proof.
  intros He Ht acc. destruct e; try contradiction; cbn [open_streams]; apply Ht.
Qed.

Ltac balance :=
  cbn [app];
  repeat first
    [ apply balanced_nil
    | apply balanced_diag
    | apply balanced_app
    | eapply balanced_read; [eassumption|]
    | eapply balanced_failed; [eassumption|]
    | apply balanced_other; [exact I|]
    | assumption ].

Lemma label_scan_balanced (fs : sysfs) (v : bool) (pInfo : pmbus_info)
    (hwmon_id_str : string) (entries : list string) (m : store) :
  match label_scan fs v pInfo hwmon_id_str entries m with
  | ScanHit _ _ t => balanced fs t
  | ScanMiss _ t => balanced fs t
  end.
Proof.
  revert m. induction entries as [|d rest IH]; intros m; cbn [label_scan].
  - apply balanced_nil.
  - destruct (strstr d "label"); [|apply IH].
    destruct (sys_file fs (attribute_file hwmon_id_str d)) as [content|e] eqn:Hf.
    + destruct (String.eqb _ (label pInfo)).
      * balance.
      * match goal with |- context [label_scan fs v pInfo hwmon_id_str rest ?m0] =>
          specialize (IH m0); destruct (label_scan fs v pInfo hwmon_id_str rest m0)
        end; cbn [scan_emit]; balance.
    + match goal with |- context [label_scan fs v pInfo hwmon_id_str rest ?m0] =>
        specialize (IH m0); destruct (label_scan fs v pInfo hwmon_id_str rest m0)
      end; cbn [scan_emit]; balance.
Qed.

Lemma loop_body_balanced (fs : sysfs) (v : bool) (pInfo : pmbus_info) (N : Z)
    (m : store) :
  match loop_body fs v pInfo N m with
  | Continue _ _ t => balanced fs t
  | Stop r => balanced fs (res_trace r)
  end.
Proof.
  unfold loop_body.
  destruct (sys_file fs (driver_name_file _ _)) as [content|e] eqn:Hf.
  2:{ balance. }
  destruct (negb (String.eqb (device pInfo) _)).
  { balance. }
  destruct (sys_dir fs (driver_hwmon_dir _ _)) as [entries|e].
  2:{ cbn [res_trace]. balance. }
  destruct (nth_error entries 2) as [d_name|].
  2:{ cbn [res_trace]. balance. }
  destruct (negb (String.eqb (name pInfo) "")).
  { cbn [res_trace]. balance. }
  destruct (sys_dir fs (hwmon_dir _)) as [labels|e].
  2:{ cbn [res_trace]. balance. }
  match goal with |- context [label_scan fs v pInfo ?i labels ?m0] =>
    pose proof (label_scan_balanced fs v pInfo i labels m0) as Hs;
    destruct (label_scan fs v pInfo i labels m0)
  end; cbn [res_trace]; balance.
Qed.

Lemma resolve_from_balanced (fs : sysfs) (v : bool) (pInfo : pmbus_info) (num : Z)
    (fuel : nat) (N : Z) (m : store) (r : resolution) :
  resolve_from fuel fs v pInfo num N m = Some r -> balanced fs (res_trace r).
Proof.
  revert N m r. induction fuel as [|fuel IH]; intros N m r; cbn [resolve_from].
  - discriminate.
  - destruct (N <? num).
    + pose proof (loop_body_balanced fs v pInfo N m) as Hb.
      destruct (loop_body fs v pInfo N m) as [id' m' t|r0].
      * intros H. apply emit_some in H. destruct H as [r1 [H1 [_ [_ [_ Ht]]]]].
        rewrite Ht. apply balanced_app; [exact Hb|apply (IH _ _ _ H1)].
      * intros H. inversion H; subst. exact Hb.
    + intros H. inversion H. apply balanced_nil.
Qed.

Lemma get_pmbus_device_filename_balanced (fuel : nat) (fs : sysfs) (v : bool)
    (pInfo : pmbus_info) (m : store) (r : resolution) :
  get_pmbus_device_filename fuel fs v pInfo m = Some r -> balanced fs (res_trace r).
Proof.
  unfold get_pmbus_device_filename, count_hwmon_reg_devices.
  destruct (sys_dir fs hwmon_class) as [entries|e]; intros H;
    apply emit_some in H; destruct H as [r0 [H0 [_ [_ [_ Ht]]]]]; rewrite Ht;
    (apply balanced_app; [balance|apply (resolve_from_balanced _ _ _ _ _ _ _ _ H0)]).
Qed.

Lemma rep_emit_some (t : trace) (row : option pmbus_info) (r : option report)
    (r' : report) :
  rep_emit t row r = Some r' ->
  exists r0, r = Some r0 /\ rep_status r' = rep_status r0 /\
             rep_list r' = match row with
                           | Some x => x :: rep_list r0
                           | None => rep_list r0
                           end /\
             rep_trace r' = (t ++ rep_trace r0)%list.
Proof.
  destruct r as [r0|]; cbn [rep_emit]; [|discriminate].
  intros H; inversion H; subst; cbn. exists r0. auto.
Qed.

Lemma report_from_balanced (fuel : nat) (fs : sysfs) (v : bool)
    (stack : nat -> garbage) (rows : list pmbus_info) (i : nat)
    (filename : string) (value errno : Z) (rep : report) :
  report_from fuel fs v stack i rows filename value errno = Some rep ->
  balanced fs (rep_trace rep).
Proof.
  revert i filename value errno rep.
  induction rows as [|row rest IH]; intros i filename value errno rep;
    cbn [report_from].
  - intros H. inversion H. apply balanced_nil.
  - destruct (String.eqb (device row) "").
    { intros H. inversion H. apply balanced_nil. }
    destruct (get_pmbus_device_filename fuel fs v row _) as [res|] eqn:Hres;
      [|discriminate].
    pose proof (get_pmbus_device_filename_balanced _ _ _ _ _ _ Hres) as Hb.
    destruct (sys_file fs (st_filename (res_store res))) as [content|e] eqn:Hf.
    + destruct (division (res_info res) =? 0).
      * intros H. inversion H. cbn [rep_trace]. balance.
      * intros H. apply rep_emit_some in H.
        destruct H as [r0 [H0 [_ [_ Ht]]]]. rewrite Ht.
        pose proof (IH _ _ _ _ _ H0) as Hrest. balance.
    + intros H. inversion H. cbn [rep_trace]. balance.
Qed.

(** X4.  The resolver and the reporter close every file they open: at the
    end of any run that terminates, also one that ends at the null stream
    or in a division by zero, no [FILE] stream opened by the run is left
    open (every [fopen] that succeeds is followed by its [fclose]). *)
Theorem resolver_and_reporter_close_files (fuel : nat) (fs : sysfs)
    (verbose_flag : bool) (pInfo : pmbus_info) (m : store) (fr : frame)
    (pmbus_list : list pmbus_info) (errno : Z) :
  match get_pmbus_device_filename fuel fs verbose_flag pInfo m with
  | Some r => open_streams fs (res_trace r) [] = []
  | None => True
  end /\
  match print_pmbus_info fuel fs verbose_flag fr pmbus_list errno with
  | Some rep => open_streams fs (rep_trace rep) [] = []
  | None => True
  end.
Proof.
  split.
  - destruct (get_pmbus_device_filename fuel fs verbose_flag pInfo m) as [r|] eqn:H;
      [|exact I].
    apply (get_pmbus_device_filename_balanced _ _ _ _ _ _ H).
  - unfold print_pmbus_info.
    destruct (rep_emit _ None _) as [rep|] eqn:H; [|exact I].
    apply rep_emit_some in H. destruct H as [r0 [H0 [_ [_ Ht]]]]. rewrite Ht.
    pose proof (report_from_balanced _ _ _ _ _ _ _ _ _ _ H0) as Hb.
    assert (Hall : balanced fs
              ([Printf (newline ++ "Power Utilization:" ++ newline)] ++ rep_trace r0))
      by balance.
    apply Hall.
Qed.

Lemma open_dirs_app (fs : sysfs) (t1 t2 : trace) (acc : list string) :
  open_dirs fs (t1 ++ t2) acc = open_dirs fs t2 (open_dirs fs t1 acc).
Proof.
  revert acc. induction t1 as [|e t1 IH]; intros acc; [reflexivity|].
  destruct e; cbn [open_dirs app]; try apply IH.
  destruct (sys_dir fs path); apply IH.
Qed.

Lemma open_dirs_none (fs : sysfs) (t : trace) (acc : list string) :
  Forall no_dir_event t -> open_dirs fs t acc = acc.
Proof.
  intros H. revert acc. induction H as [|e t He Ht IH]; intros acc; [reflexivity|].
  destruct e; try contradiction; cbn [open_dirs]; apply IH.
Qed.

Lemma no_dir_diag (v : bool) (s : string) : Forall no_dir_event (diag v s).
Proof. apply Forall_diag. exact I. Qed.

Lemma label_scan_no_dir (fs : sysfs) (v : bool) (pInfo : pmbus_info)
    (hwmon_id_str : string) (entries : list string) (m : store) :
  match label_scan fs v pInfo hwmon_id_str entries m with
  | ScanHit _ _ t => Forall no_dir_event t
  | ScanMiss _ t => Forall no_dir_event t
  end.
Proof.
  revert m. induction entries as [|d rest IH]; intros m; cbn [label_scan].
  - constructor.
  - destruct (strstr d "label"); [|apply IH].
    destruct (sys_file fs (attribute_file hwmon_id_str d)) as [content|e].
    + destruct (String.eqb _ (label pInfo)).
      * apply Forall_app. split; [repeat constructor|apply no_dir_diag].
      * match goal with |- context [label_scan fs v pInfo hwmon_id_str rest ?m0] =>
          specialize (IH m0); destruct (label_scan fs v pInfo hwmon_id_str rest m0)
        end; cbn [scan_emit]; (apply Forall_app; split; [repeat constructor|exact IH]).
    + match goal with |- context [label_scan fs v pInfo hwmon_id_str rest ?m0] =>
        specialize (IH m0); destruct (label_scan fs v pInfo hwmon_id_str rest m0)
      end; cbn [scan_emit]; (apply Forall_app; split; [repeat constructor|exact IH]).
Qed.

(** A pass that returns a hwmon index leaves the driver's [hwmon] directory
    open. *)
Lemma loop_body_leaves_dir_open (fs : sysfs) (v : bool) (pInfo : pmbus_info)
    (N : Z) (m : store) (acc : list string) :
  match loop_body fs v pInfo N m with
  | Stop r =>
      forall id, res_exit r = Found id ->
        In (driver_hwmon_dir (sprintf_d N) (address pInfo))
           (open_dirs fs (res_trace r) acc)
  | Continue _ _ _ => True
  end.
Proof.
  unfold loop_body.
  destruct (sys_file fs (driver_name_file _ _)) as [content|e]; [|exact I].
  destruct (negb (String.eqb (device pInfo) _)); [exact I|].
  destruct (sys_dir fs (driver_hwmon_dir _ _)) as [entries|e] eqn:Hd.
  2:{ intros id H. discriminate H. }
  destruct (nth_error entries 2) as [d_name|].
  2:{ intros id H. discriminate H. }
  destruct (negb (String.eqb (name pInfo) "")).
  { intros id _. cbn [res_trace].
    rewrite !open_dirs_app.
    rewrite !(open_dirs_none fs (diag _ _)) by apply no_dir_diag.
    cbn [open_dirs]. rewrite Hd. left. reflexivity. }
  destruct (sys_dir fs (hwmon_dir _)) as [labels|e] eqn:Hh.
  2:{ intros id H. discriminate H. }
  match goal with |- context [label_scan fs v pInfo ?i labels ?m0] =>
    pose proof (label_scan_no_dir fs v pInfo i labels m0) as Hs;
    destruct (label_scan fs v pInfo i labels m0) as [p' m' t|m' t]
  end; [|exact I].
  intros id _. cbn [res_trace].
  rewrite !open_dirs_app.
  rewrite !(open_dirs_none fs (diag _ _)) by apply no_dir_diag.
  rewrite (open_dirs_none fs t) by exact Hs.
  cbn [open_dirs]. rewrite Hd, Hh. right. left. reflexivity.
Qed.

Lemma resolve_from_leaves_dir_open (fs : sysfs) (v : bool) (pInfo : pmbus_info)
    (num : Z) (fuel : nat) (N : Z) (m : store) (r : resolution) (id : Z)
    (acc : list string) :
  resolve_from fuel fs v pInfo num N m = Some r ->
  res_exit r = Found id ->
  exists N', In (driver_hwmon_dir (sprintf_d N') (address pInfo))
                (open_dirs fs (res_trace r) acc).
Proof.
  revert N m r acc. induction fuel as [|fuel IH]; intros N m r acc;
    cbn [resolve_from].
  - discriminate.
  - destruct (N <? num).
    + destruct (loop_body fs v pInfo N m) as [id' m' t|r0] eqn:Hb.
      * intros H Hx. apply emit_some in H.
        destruct H as [r1 [H1 [He [_ [_ Ht]]]]].
        rewrite Ht, open_dirs_app. rewrite He in Hx.
        apply (IH _ _ _ _ H1 Hx).
      * intros H Hx. inversion H; subst. exists N.
        pose proof (loop_body_leaves_dir_open fs v pInfo N m acc) as Hl.
        rewrite Hb in Hl. apply (Hl id Hx).
    + intros H Hx. inversion H; subst. discriminate.
Qed.

(** X5.  The resolver never closes the directory it opens under the driver.
    Every call that returns a hwmon index returns with the directory stream
    of some [hwmon<N>/device/driver/<address>/hwmon] still open. *)
Theorem found_leaves_directory_open (fuel : nat) (fs : sysfs) (verbose_flag : bool)
    (pInfo : pmbus_info) (m : store) (r : resolution) (id : Z) :
  get_pmbus_device_filename fuel fs verbose_flag pInfo m = Some r ->
  res_exit r = Found id ->
  exists N, In (driver_hwmon_dir (sprintf_d N) (address pInfo))
               (open_dirs fs (res_trace r) []).
Proof.
  unfold get_pmbus_device_filename.
  destruct (count_hwmon_reg_devices fs (st_errno m)) as [[num e] t].
  intros H Hx. apply emit_some in H. destruct H as [r0 [H0 [He [_ [_ Ht]]]]].
  rewrite Ht, open_dirs_app. rewrite He in Hx.
  apply (resolve_from_leaves_dir_open _ _ _ _ _ _ _ _ _ _ H0 Hx).
Qed.

Lemma found_leaves_directory_open_witness :
  exists r,
    get_pmbus_device_filename 8 scenario_A false rail_A empty_store = Some r /\
    open_dirs scenario_A (res_trace r) []
    = ["/sys/class/hwmon/hwmon3";
       "/sys/class/hwmon/hwmon3/device/driver/6-0043/hwmon"] /\
    exists N, In (driver_hwmon_dir (sprintf_d N) "6-0043")
                 (open_dirs scenario_A (res_trace r) []).
Proof.
  eexists. split; [vm_compute; reflexivity|]. split; [vm_compute; reflexivity|].
  refine (found_leaves_directory_open 8 scenario_A false rail_A empty_store _ 3 _ _).
  - vm_compute. reflexivity.
  - reflexivity.
Defined.

(** ** The table *)

Lemma report_from_names_only (fuel : nat) (fs : sysfs) (v : bool)
    (stack : nat -> garbage) (rows : list pmbus_info) (i : nat)
    (filename : string) (value errno : Z) (rep : report) :
  report_from fuel fs v stack i rows filename value errno = Some rep ->
  Forall2 (fun old new => new = set_name old (name new)) rows (rep_list rep).
Proof.
  assert (Hrefl : forall l : list pmbus_info,
             Forall2 (fun old new => new = set_name old (name new)) l l).
  { induction l as [|x l IHl]; constructor; [symmetry; apply set_name_id|exact IHl]. }
  revert i filename value errno rep.
  induction rows as [|row rest IH]; intros i filename value errno rep;
    cbn [report_from].
  - intros H. inversion H. constructor.
  - destruct (String.eqb (device row) "").
    { intros H. inversion H. apply Hrefl. }
    destruct (get_pmbus_device_filename fuel fs v row _) as [res|] eqn:Hres;
      [|discriminate].
    pose proof (get_pmbus_device_filename_info _ _ _ _ _ _ Hres) as Hinfo.
    destruct (sys_file fs (st_filename (res_store res))) as [content|e].
    + destruct (division (res_info res) =? 0).
      * intros H. inversion H. cbn [rep_list]. constructor; [exact Hinfo|apply Hrefl].
      * intros H. apply rep_emit_some in H.
        destruct H as [r0 [H0 [_ [Hl _]]]]. rewrite Hl.
        constructor; [exact Hinfo|apply (IH _ _ _ _ _ H0)].
    + intros H. inversion H. cbn [rep_list]. constructor; [exact Hinfo|apply Hrefl].
Qed.

(** X6.  The only thing a report changes in a table is the [name] of rows:
    whenever [print_pmbus_info] terminates, also at a fault, the table it
    leaves has the rows of the table it was given, in the same order, each
    with its device, address, label, alias, unit and division as before. *)
Theorem report_writes_only_names (fuel : nat) (fs : sysfs) (verbose_flag : bool)
    (fr : frame) (pmbus_list : list pmbus_info) (errno : Z) :
  match print_pmbus_info fuel fs verbose_flag fr pmbus_list errno with
  | Some rep =>
      Forall2 (fun old new => new = set_name old (name new))
              pmbus_list (rep_list rep)
  | None => True
  end.
Proof.
  unfold print_pmbus_info.
  destruct (rep_emit _ None _) as [rep|] eqn:H; [|exact I].
  apply rep_emit_some in H. destruct H as [r0 [H0 [_ [Hl _]]]]. rewrite Hl.
  apply (report_from_names_only _ _ _ _ _ _ _ _ _ _ H0).
Qed.

Lemma with_tail_rep_emit (tail : list pmbus_info) (t : trace)
    (row : option pmbus_info) (r : option report) :
  with_tail tail (rep_emit t row r) = rep_emit t row (with_tail tail r).
Proof. destruct r as [r|]; [|reflexivity]. destruct row; reflexivity. Qed.

Lemma app_last_tail {A : Type} (l : list A) (x : A) (tail : list A) :
  ((l ++ [x]) ++ tail = l ++ x :: tail)%list.
Proof. rewrite <- app_assoc. reflexivity. Qed.

Lemma report_from_tail (fuel : nat) (fs : sysfs) (v : bool)
    (stack : nat -> garbage) (rows : list pmbus_info) (last : pmbus_info)
    (tail : list pmbus_info) (i : nat) (filename : string) (value errno : Z) :
  device last = "" ->
  report_from fuel fs v stack i (rows ++ last :: tail) filename value errno
  = with_tail tail
      (report_from fuel fs v stack i (rows ++ [last]) filename value errno).
Proof.
  intros Hlast. revert i filename value errno.
  induction rows as [|row rest IH]; intros i filename value errno.
  - cbn [app report_from]. rewrite Hlast. reflexivity.
  - change ((row :: rest) ++ last :: tail)%list with (row :: (rest ++ last :: tail))%list.
    change ((row :: rest) ++ [last])%list with (row :: (rest ++ [last]))%list.
    cbn [report_from].
    destruct (String.eqb (device row) "").
    { unfold with_tail. cbn [rep_status rep_list rep_filename rep_value rep_errno rep_trace].
      rewrite <- (app_last_tail rest last tail). reflexivity. }
    destruct (get_pmbus_device_filename fuel fs v row _) as [res|]; [|reflexivity].
    destruct (sys_file fs (st_filename (res_store res))) as [content|e].
    + destruct (division (res_info res) =? 0).
      * unfold with_tail.
        cbn [rep_status rep_list rep_filename rep_value rep_errno rep_trace].
        rewrite <- (app_last_tail rest last tail). reflexivity.
      * rewrite IH, with_tail_rep_emit. reflexivity.
    + unfold with_tail.
      cbn [rep_status rep_list rep_filename rep_value rep_errno rep_trace].
      rewrite <- (app_last_tail rest last tail). reflexivity.
Qed.

(** X7.  A table ends at its first row with an empty [device]: the rows
    behind it are neither resolved nor read nor changed, and the report is
    the one of the table cut after that row. *)
Theorem report_stops_at_empty_device (fuel : nat) (fs : sysfs) (verbose_flag : bool)
    (fr : frame) (rows : list pmbus_info) (last : pmbus_info)
    (tail : list pmbus_info) (errno : Z) :
  device last = "" ->
  print_pmbus_info fuel fs verbose_flag fr (rows ++ last :: tail) errno
  = with_tail tail
      (print_pmbus_info fuel fs verbose_flag fr (rows ++ [last]) errno).
Proof.
  intros Hlast. unfold print_pmbus_info.
  rewrite (report_from_tail _ _ _ _ _ _ tail _ _ _ _ Hlast), with_tail_rep_emit.
  reflexivity.
Qed.

Lemma report_stops_at_empty_device_witness :
  print_pmbus_info 8 scenario_A false empty_frame
    ([rail_A] ++ pmbus_end :: [rail_B; rail_A]) 0
  = with_tail [rail_B; rail_A]
      (print_pmbus_info 8 scenario_A false empty_frame ([rail_A] ++ [pmbus_end]) 0).
Proof.
  apply (report_stops_at_empty_device 8 scenario_A false empty_frame [rail_A]
           pmbus_end [rail_B; rail_A] 0).
  reflexivity.
Defined.

(** X8.  A reading that is not a number is not noticed.  When the file the
    resolver names opens but does not start with an integer, the [%ld]
    conversion leaves [pmbus_value] as it was, and the reporter prints the
    line of this rail with that value, the reading of the rail before it
    (for the first rail: what the stack held), divided by this rail's
    [division]; the next rail inherits the same value. *)
Theorem malformed_reading_prints_previous (fuel : nat) (fs : sysfs)
    (verbose_flag : bool) (stack : nat -> garbage) (i : nat) (row : pmbus_info)
    (rest : list pmbus_info) (filename : string) (pmbus_value errno : Z)
    (res : resolution) (content : string) :
  device row <> "" ->
  get_pmbus_device_filename fuel fs verbose_flag row
    (mk_store filename (g_device_name (stack i)) (g_reg_label (stack i)) errno)
  = Some res ->
  sys_file fs (st_filename (res_store res)) = Ok content ->
  scan_int content = None ->
  division row <> 0 ->
  exists t,
    quiet t = quiet (res_trace res) /\
    report_from fuel fs verbose_flag stack i (row :: rest) filename pmbus_value errno
    = rep_emit
        (t ++ [Fopen (st_filename (res_store res));
               Fclose (st_filename (res_store res));
               Printf (tab ++ device row ++ "@" ++ address row ++ "-" ++
                       label row ++ " (" ++ alias row ++ ") = " ++
                       sprintf_d (Z.quot pmbus_value (division row)) ++ " " ++
                       unit row ++ newline)])
        (Some (res_info res))
        (report_from fuel fs verbose_flag stack (S i) rest
           (st_filename (res_store res)) pmbus_value (st_errno (res_store res))).
Proof.
  intros Hdev Hres Hfile Hraw Hdiv.
  pose proof (get_pmbus_device_filename_info _ _ _ _ _ _ Hres) as Hinfo.
  assert (Hdv : device (res_info res) = device row) by (rewrite Hinfo; reflexivity).
  assert (Had : address (res_info res) = address row) by (rewrite Hinfo; reflexivity).
  assert (Hlb : label (res_info res) = label row) by (rewrite Hinfo; reflexivity).
  assert (Hal : alias (res_info res) = alias row) by (rewrite Hinfo; reflexivity).
  assert (Hun : unit (res_info res) = unit row) by (rewrite Hinfo; reflexivity).
  assert (Hd : division (res_info res) = division row) by (rewrite Hinfo; reflexivity).
  exists (diag verbose_flag
            ("[" ++ sprintf_d (Z.of_nat i) ++ "] " ++ device row ++ "," ++
             address row ++ "," ++ label row ++ "," ++ name row ++ "," ++
             unit row ++ newline) ++
          res_trace res ++
          diag verbose_flag
            (tab ++ device row ++ "@" ++ address row ++ "-" ++
             label row ++ " => " ++ st_filename (res_store res) ++ newline))%list.
  split.
  - rewrite !quiet_app, !quiet_diag, app_nil_r. reflexivity.
  - cbn [report_from]. apply String.eqb_neq in Hdev. rewrite Hdev, Hres, Hfile.
    unfold scanf_ld. rewrite Hraw.
    rewrite Hd. apply Z.eqb_neq in Hdiv. rewrite Hdiv.
    unfold result_line. rewrite Hdv, Had, Hlb, Hal, Hun. reflexivity.
Qed.

Lemma malformed_reading_prints_previous_witness :
  exists rep,
    print_pmbus_info 3 scenario_malformed false
      (mk_frame "" 77000 (fun _ => no_garbage)) [rail_B; pmbus_end] 0 = Some rep /\
    rep_status rep = Returned /\
    printed (rep_trace rep)
    = [newline ++ "Power Utilization:" ++ newline;
       tab ++ "irps5401@6-0044-temp1 (Temperature) = 77 C" ++ newline] /\
    exists res t,
      get_pmbus_device_filename 3 scenario_malformed false rail_B
        (mk_store "" "" "" 0) = Some res /\
      quiet t = quiet (res_trace res) /\
      report_from 3 scenario_malformed false (fun _ => no_garbage) 0
        [rail_B; pmbus_end] "" 77000 0
      = rep_emit
          (t ++ [Fopen (st_filename (res_store res));
                 Fclose (st_filename (res_store res));
                 Printf (tab ++ "irps5401" ++ "@" ++ "6-0044" ++ "-" ++
                         "temp1" ++ " (" ++ "Temperature" ++ ") = " ++
                         sprintf_d (Z.quot 77000 1000) ++ " " ++ "C" ++ newline)])
          (Some (res_info res))
          (report_from 3 scenario_malformed false (fun _ => no_garbage) 1
             [pmbus_end] (st_filename (res_store res)) 77000
             (st_errno (res_store res))).
Proof.
  eexists. split; [vm_compute; reflexivity|]. split; [reflexivity|].
  split; [reflexivity|].
  eexists. 
  assert (H : get_pmbus_device_filename 3 scenario_malformed false rail_B
                (mk_store "" "" "" 0)
              = Some (mk_resolution (Found 0) rail_B
                        (mk_store "/sys/class/hwmon/hwmon0/temp1_input" "irps5401" "" 0)
                        [Opendir "/sys/class/hwmon"; Closedir "/sys/class/hwmon";
                         Fopen "/sys/class/hwmon/hwmon0/device/driver/6-0044/name";
                         Fclose "/sys/class/hwmon/hwmon0/device/driver/6-0044/name";
                         Opendir "/sys/class/hwmon/hwmon0/device/driver/6-0044/hwmon"]))
    by (vm_compute; reflexivity).
  destruct (malformed_reading_prints_previous 3 scenario_malformed false
              (fun _ => no_garbage) 0 rail_B [pmbus_end] "" 77000 0 _
              ("n/a" ++ newline) ltac:(discriminate) H eq_refl eq_refl
              ltac:(discriminate)) as [t [Hq Hr]].
  exists t. split; [exact H|]. split; [exact Hq|exact Hr].
Defined.

(** ** When the search loop ends *)

Lemma loop_body_forward (fs : sysfs) (v : bool) (pInfo : pmbus_info) (num N : Z)
    (m : store) :
  forward_bindings fs (address pInfo) num ->
  0 <= N < num ->
  match loop_body fs v pInfo N m with
  | Continue hwmon_id' _ _ => N < hwmon_id'
  | Stop _ => True
  end.
Proof.
  intros Hfw HN. unfold loop_body.
  destruct (sys_file fs (driver_name_file _ _)) as [content|e]; [|lia].
  destruct (negb (String.eqb (device pInfo) _)); [lia|].
  destruct (sys_dir fs (driver_hwmon_dir _ _)) as [entries|e] eqn:Hd; [|exact I].
  destruct (nth_error entries 2) as [d_name|] eqn:Hn; [|exact I].
  pose proof (Hfw N entries d_name HN Hd Hn) as Hle.
  destruct (negb (String.eqb (name pInfo) "")); [exact I|].
  destruct (sys_dir fs (hwmon_dir _)) as [labels|e]; [|exact I].
  destruct (label_scan fs v pInfo _ labels _); [exact I|lia].
Qed.

Lemma resolve_from_forward (fs : sysfs) (v : bool) (pInfo : pmbus_info) (num : Z) :
  forward_bindings fs (address pInfo) num ->
  forall (fuel : nat) (N : Z) (m : store),
    0 <= N ->
    (Z.to_nat (num - N) < fuel)%nat ->
    exists r, resolve_from fuel fs v pInfo num N m = Some r.
Proof.
  intros Hfw. induction fuel as [|fuel IH]; intros N m HN Hfuel.
  - lia.
  - cbn [resolve_from]. destruct (N <? num) eqn:Hlt.
    + apply Z.ltb_lt in Hlt.
      pose proof (loop_body_forward fs v pInfo num N m Hfw (conj HN Hlt)) as Hb.
      destruct (loop_body fs v pInfo N m) as [id' m' t|r].
      * destruct (IH id' m') as [r Hr]; [lia|lia|].
        rewrite Hr. eexists. reflexivity.
      * eexists. reflexivity.
    + eexists. reflexivity.
Qed.

(** X9.  The search loop ends whenever following the driver directory never
    leads back: if, for every instance below the count, the index read from
    the third entry of [hwmon<N>/device/driver/<address>/hwmon] is at least
    [N], then [get_pmbus_device_filename] returns after at most as many
    passes as there are instances.  (Where an index leads back, it need not
    return.) *)
Theorem forward_bindings_terminate (fuel : nat) (fs : sysfs) (verbose_flag : bool)
    (pInfo : pmbus_info) (m : store) :
  forward_bindings fs (address pInfo)
    (fst (fst (count_hwmon_reg_devices fs (st_errno m)))) ->
  (Z.to_nat (fst (fst (count_hwmon_reg_devices fs (st_errno m)))) < fuel)%nat ->
  exists r, get_pmbus_device_filename fuel fs verbose_flag pInfo m = Some r.
Proof.
  intros Hfw Hfuel. unfold get_pmbus_device_filename.
  destruct (count_hwmon_reg_devices fs (st_errno m)) as [[num e] t].
  cbn [fst] in Hfw, Hfuel.
  destruct (resolve_from_forward fs verbose_flag pInfo num Hfw fuel 0 (set_errno m e))
    as [r Hr]; [lia| |].
  { replace (num - 0) with num by lia. exact Hfuel. }
  rewrite Hr. eexists. reflexivity.
Qed.

Lemma scenario_twin_forward_6_0044 : forward_bindings scenario_twin "6-0044" 2.
Proof.
  intros N entries d HN Hd Hn.
  assert (H : N = 0 \/ N = 1) by lia.
  destruct H; subst N; vm_compute in Hd; inversion Hd; subst entries;
    vm_compute in Hn; inversion Hn; subst d; vm_compute; discriminate.
Qed.

Lemma forward_bindings_terminate_witness :
  exists r,
    get_pmbus_device_filename 3 scenario_twin false
      (mk_pmbus_info "irps5401" "6-0044" "" "pout5" "PSPLL 1.2V" "mW" 1000)
      empty_store = Some r.
Proof.
  apply (forward_bindings_terminate 3 scenario_twin false
           (mk_pmbus_info "irps5401" "6-0044" "" "pout5" "PSPLL 1.2V" "mW" 1000)
           empty_store).
  - exact scenario_twin_forward_6_0044.
  - vm_compute. lia.
Defined.

(** ** The label scan *)

Lemma substring_prefix (a b : string) : substring 0 (String.length a) (a ++ b) = a.
Proof.
  induction a as [|c a IH]; cbn [String.length append substring].
  - destruct b; reflexivity.
  - rewrite IH. reflexivity.
Qed.

Lemma input_of_label_last5 (a b : string) :
  String.length b = 5%nat -> input_of_label (a ++ b) = a ++ "input".
Proof.
  intros Hb. unfold input_of_label. rewrite length_append, Hb.
  replace (String.length a + 5 - 5)%nat with (String.length a) by lia.
  rewrite substring_prefix. reflexivity.
Qed.

Lemma input_of_label_suffix (p : string) :
  input_of_label (p ++ "_label") = p ++ "_input".
Proof.
  change (p ++ "_label") with (p ++ ("_" ++ "label")).
  rewrite <- append_assoc, input_of_label_last5 by reflexivity.
  rewrite append_assoc. reflexivity.
Qed.

Lemma fscanf_s_is_token (content lbl : string) :
  scan_token content = Some lbl -> fscanf_s content "" = lbl.
Proof. intros H. unfold fscanf_s. rewrite H. reflexivity. Qed.

Lemma accepted_matches (fs : sysfs) (hwmon_id_str lbl x cx : string) :
  files_hold_token fs ->
  strstr x "label" = true ->
  sys_file fs (attribute_file hwmon_id_str x) = Ok cx ->
  String.eqb (fscanf_s cx "") lbl = true ->
  label_matches fs hwmon_id_str lbl x.
Proof.
  intros Htok Hx Hfx Heq. split; [exact Hx|]. exists cx. split; [exact Hfx|].
  apply String.eqb_eq in Heq. unfold fscanf_s in Heq.
  destruct (scan_token cx) as [w|] eqn:Hw.
  - subst w. reflexivity.
  - exfalso. exact (Htok _ _ Hfx Hw).
Qed.

Lemma find_label_first (fs : sysfs) (hwmon_id_str lbl : string)
    (pre : list string) (d : string) (post : list string) :
  files_hold_token fs ->
  label_matches fs hwmon_id_str lbl d ->
  (forall x, In x pre -> ~ label_matches fs hwmon_id_str lbl x) ->
  find_label fs hwmon_id_str lbl (pre ++ d :: post) = Some d.
Proof.
  intros Htok [Hd [content [Hf Ht]]] Hpre.
  induction pre as [|x pre IH]; cbn [app find_label].
  - rewrite Hd, Hf, (fscanf_s_is_token _ _ Ht), String.eqb_refl. reflexivity.
  - assert (IH' : find_label fs hwmon_id_str lbl (pre ++ d :: post) = Some d).
    { apply IH. intros y Hy. apply Hpre. right. exact Hy. }
    destruct (strstr x "label") eqn:Hx; [|exact IH'].
    destruct (sys_file fs (attribute_file hwmon_id_str x)) as [cx|e] eqn:Hfx;
      [|exact IH'].
    destruct (String.eqb (fscanf_s cx "") lbl) eqn:Heq; [|exact IH'].
    exfalso. apply (Hpre x (or_introl eq_refl)).
    exact (accepted_matches _ _ _ _ _ Htok Hx Hfx Heq).
Qed.

Lemma find_label_none (fs : sysfs) (hwmon_id_str lbl : string) (entries : list string) :
  files_hold_token fs ->
  (forall x, In x entries -> ~ label_matches fs hwmon_id_str lbl x) ->
  find_label fs hwmon_id_str lbl entries = None.
Proof.
  intros Htok. induction entries as [|x rest IH]; intros Hno; cbn [find_label];
    [reflexivity|].
  assert (IH' : find_label fs hwmon_id_str lbl rest = None).
  { apply IH. intros y Hy. apply Hno. right. exact Hy. }
  destruct (strstr x "label") eqn:Hx; [|exact IH'].
  destruct (sys_file fs (attribute_file hwmon_id_str x)) as [cx|e] eqn:Hfx;
    [|exact IH'].
  destruct (String.eqb (fscanf_s cx "") lbl) eqn:Heq; [|exact IH'].
  exfalso. apply (Hno x (or_introl eq_refl)).
  exact (accepted_matches _ _ _ _ _ Htok Hx Hfx Heq).
Qed.

(** X10.  The label scan takes the first match in [readdir] order and turns
    its name into the name of the reading.  On a tree whose files hold a
    token: if [d_name] is the first entry whose name contains "label" and
    whose file opens with the wanted label as its token, the scan returns
    from the function with [pInfo->name] set to [d_name] with its last five
    characters replaced by "input" and with [filename] the path of that
    attribute; for an entry named [<p>_label] the attribute is [<p>_input].
    If no entry matches, the scan falls out of its loop without a result. *)
Theorem label_scan_first_match (fs : sysfs) (verbose_flag : bool)
    (pInfo : pmbus_info) (hwmon_id_str : string) (entries : list string)
    (m : store) :
  files_hold_token fs ->
  (forall pre d_name post,
     entries = (pre ++ d_name :: post)%list ->
     label_matches fs hwmon_id_str (label pInfo) d_name ->
     (forall x, In x pre -> ~ label_matches fs hwmon_id_str (label pInfo) x) ->
     exists m' t,
       label_scan fs verbose_flag pInfo hwmon_id_str entries m
       = ScanHit (set_name pInfo (input_of_label d_name)) m' t /\
       st_filename m' = attribute_file hwmon_id_str (input_of_label d_name) /\
       forall p, d_name = p ++ "_label" -> input_of_label d_name = p ++ "_input") /\
  ((forall x, In x entries -> ~ label_matches fs hwmon_id_str (label pInfo) x) ->
   exists m' t,
     label_scan fs verbose_flag pInfo hwmon_id_str entries m = ScanMiss m' t).
Proof.
  intros Htok. split.
  - intros pre d post Hent Hd Hpre. subst entries.
    pose proof (label_scan_expected fs verbose_flag pInfo hwmon_id_str
                  (pre ++ d :: post) m Htok) as Hs.
    rewrite (find_label_first _ _ _ _ _ _ Htok Hd Hpre) in Hs.
    destruct (label_scan fs verbose_flag pInfo hwmon_id_str (pre ++ d :: post) m)
      as [p' m' t|m' t]; [|contradiction].
    destruct Hs as [Hp Hf]. subst p'. exists m', t.
    split; [reflexivity|]. split; [exact Hf|].
    intros p Hp. subst d. apply input_of_label_suffix.
  - intros Hno.
    pose proof (label_scan_expected fs verbose_flag pInfo hwmon_id_str entries m Htok)
      as Hs.
    rewrite (find_label_none _ _ _ _ Htok Hno) in Hs.
    destruct (label_scan fs verbose_flag pInfo hwmon_id_str entries m)
      as [p' m' t|m' t]; [contradiction|].
    exists m', t. reflexivity.
Qed.

Lemma scenario_twin_files_hold_token : files_hold_token scenario_twin.
Proof.
  intros path content H. apply lookup_In in H.
  repeat (destruct H as [H|H]; [inversion H; subst; vm_compute; discriminate|]).
  destruct H.
Qed.

Lemma label_scan_first_match_witness :
  exists m' t,
    label_scan scenario_twin false rail_pout2 "0"
      ["."; ".."; "name"; "pout1_input"; "pout1_label"; "pout2_input"; "pout2_label"]
      empty_store
    = ScanHit (set_name rail_pout2 (input_of_label "pout2_label")) m' t /\
    st_filename m' = attribute_file "0" (input_of_label "pout2_label") /\
    forall p, "pout2_label" = p ++ "_label" ->
              input_of_label "pout2_label" = p ++ "_input".
Proof.
  refine (proj1 (label_scan_first_match scenario_twin false rail_pout2 "0"
                   ["."; ".."; "name"; "pout1_input"; "pout1_label"; "pout2_input";
                    "pout2_label"] empty_store scenario_twin_files_hold_token)
                ["."; ".."; "name"; "pout1_input"; "pout1_label"; "pout2_input"]
                "pout2_label" [] eq_refl _ _).
  - split; [reflexivity|]. exists ("pout2" ++ newline). split; reflexivity.
  - intros x Hx [Hs [content [Hf Ht]]].
    repeat (destruct Hx as [Hx|Hx];
            [subst x; first [discriminate Hs
                            | vm_compute in Hf; inversion Hf; subst content;
                              vm_compute in Ht; discriminate Ht]|]).
    destruct Hx.
Defined.

(** ** The host name *)

Lemma fgets_line_length (n : nat) (s : string) :
  (String.length (fgets_line n s) <= n)%nat.
Proof.
  revert s. induction n as [|n IH]; intros s; [destruct s; cbn; lia|].
  destruct s as [|c s]; cbn [fgets_line String.length]; [lia|].
  destruct (Ascii.eqb c (ascii_of_nat 10)); cbn [String.length].
  - lia.
  - specialize (IH s). lia.
Qed.

Lemma prefix_nil (s : string) : String.prefix "" s = true.
Proof. destruct s; reflexivity. Qed.

Lemma prefix_cons (c : ascii) (a b : string) :
  String.prefix (String c a) (String c b) = String.prefix a b.
Proof.
  cbn [String.prefix]. destruct (ascii_dec c c) as [_|H]; [reflexivity|].
  exfalso. apply H. reflexivity.
Qed.

Lemma fgets_line_prefix (n : nat) (s : string) :
  String.prefix (fgets_line n s) s = true.
Proof.
  revert s. induction n as [|n IH]; intros s; [destruct s; reflexivity|].
  destruct s as [|c s]; cbn [fgets_line]; [reflexivity|].
  destruct (Ascii.eqb c (ascii_of_nat 10)); rewrite prefix_cons.
  - destruct s; reflexivity.
  - apply IH.
Qed.

Lemma fgets_line_ends_at_newline (n : nat) (s a b : string) :
  fgets_line n s = a ++ newline ++ b -> b = "".
Proof.
  revert s a. induction n as [|n IH]; intros s a.
  - destruct s; cbn [fgets_line]; destruct a; discriminate.
  - destruct s as [|c s]; cbn [fgets_line]; [destruct a; discriminate|].
    destruct (Ascii.eqb c (ascii_of_nat 10)) eqn:Hc.
    + destruct a as [|c' a]; cbn [append].
      * unfold newline. cbn [append]. intros H. inversion H. reflexivity.
      * intros H. inversion H. destruct a; discriminate.
    + destruct a as [|c' a]; cbn [append].
      * unfold newline. cbn [append]. intros H. inversion H. subst c.
        rewrite Ascii.eqb_refl in Hc. discriminate.
      * intros H. inversion H. apply (IH s a). assumption.
Qed.

Lemma prefix_trans (a b c : string) :
  String.prefix a b = true -> String.prefix b c = true -> String.prefix a c = true.
Proof.
  revert b c. induction a as [|x a IH]; intros b c; [destruct c; reflexivity|].
  destruct b as [|y b]; [discriminate|]. destruct c as [|z c]; [discriminate|].
  cbn [String.prefix].
  destruct (ascii_dec x y) as [Hxy|]; [|discriminate].
  destruct (ascii_dec y z) as [Hyz|]; [|discriminate].
  subst. destruct (ascii_dec z z) as [_|H]; [|exfalso; apply H; reflexivity].
  apply IH.
Qed.

Lemma strstr_nil (fragment : string) :
  strstr "" fragment = String.prefix fragment "".
Proof. unfold strstr. apply orb_false_r. Qed.

Lemma strstr_cons (c : ascii) (h fragment : string) :
  strstr (String c h) fragment
  = String.prefix fragment (String c h) || strstr h fragment.
Proof. reflexivity. Qed.

Lemma strstr_of_prefix (h s fragment : string) :
  String.prefix h s = true -> strstr h fragment = true -> strstr s fragment = true.
Proof.
  revert s. induction h as [|c h IH]; intros s Hp Hs.
  - rewrite strstr_nil in Hs.
    destruct s as [|c' s].
    + rewrite strstr_nil. exact Hs.
    + rewrite strstr_cons, (prefix_trans _ _ _ Hs Hp). reflexivity.
  - destruct s as [|c' s]; [discriminate|].
    rewrite strstr_cons in Hs |- *. apply orb_true_iff in Hs. apply orb_true_iff.
    destruct Hs as [Hs|Hs].
    + left. apply (prefix_trans _ _ _ Hs Hp).
    + right. apply IH; [|exact Hs].
      cbn [String.prefix] in Hp. destruct (ascii_dec c c'); [exact Hp|discriminate].
Qed.

(** X11.  What the board tests see of the host name.  The text they search
    is the beginning of what the [hostname] command wrote: at most 127
    characters of it, ending with the first newline if there is one within
    them (and empty when [popen] fails).  So a fragment found in it does
    occur in the command's output, but one that occurs past the first line
    or past 127 characters is not seen. *)
Theorem hostname_is_first_line (verbose_flag : bool) (command_output : option string)
    (hostname : string) (t0 : trace) :
  read_hostname verbose_flag command_output = (hostname, t0) ->
  (String.length hostname <= 127)%nat /\
  match command_output with
  | Some s =>
      String.prefix hostname s = true /\
      forall fragment, strstr hostname fragment = true -> strstr s fragment = true
  | None => hostname = ""
  end /\
  forall a b, hostname = a ++ newline ++ b -> b = "".
Proof.
  unfold read_hostname. destruct command_output as [s|].
  - pose proof (fgets_line_length 127 s) as Hlen.
    pose proof (fgets_line_prefix 127 s) as Hpre.
    pose proof (fgets_line_ends_at_newline 127 s) as Hnl.
    destruct (fgets_line 127 s) as [|c l] eqn:Hl; intros H; inversion H; subst.
    + split; [cbn; lia|]. split; [split; [apply prefix_nil|]|].
      * intros f Hf. apply (strstr_of_prefix "" s f (prefix_nil s) Hf).
      * intros a b Hab. destruct a; discriminate.
    + split; [exact Hlen|]. split; [split; [exact Hpre|]|].
      * intros f Hf. apply (strstr_of_prefix _ s f Hpre Hf).
      * exact Hnl.
  - intros H; inversion H; subst. split; [cbn; lia|]. split; [reflexivity|].
    intros a b Hab. destruct a; discriminate.
Qed.

Lemma hostname_is_first_line_witness :
  (String.length ("zub" ++ newline) <= 127)%nat /\
  (String.prefix ("zub" ++ newline) ("zub" ++ newline ++ "u96v2" ++ newline) = true /\
   forall fragment,
     strstr ("zub" ++ newline) fragment = true ->
     strstr ("zub" ++ newline ++ "u96v2" ++ newline) fragment = true) /\
  forall a b, "zub" ++ newline = a ++ newline ++ b -> b = "".
Proof.
  apply (hostname_is_first_line false
           (Some ("zub" ++ newline ++ "u96v2" ++ newline)) ("zub" ++ newline)
           [Popen "hostname"; Pclose "hostname"]).
  reflexivity.
Defined.

(** ** Verbosity of the whole power report *)

Lemma print_pmbus_info_quiet (fuel : nat) (fs : sysfs) (fr : frame)
    (pmbus_list : list pmbus_info) (errno : Z) :
  print_pmbus_info fuel fs false fr pmbus_list errno
  = quiet_report (print_pmbus_info fuel fs true fr pmbus_list errno).
Proof.
  unfold print_pmbus_info. rewrite report_from_quiet, quiet_rep_emit. reflexivity.
Qed.

Lemma read_hostname_quiet (command_output : option string) :
  read_hostname false command_output
  = (fst (read_hostname true command_output),
     quiet (snd (read_hostname true command_output))).
Proof.
  unfold read_hostname. destruct command_output as [s|]; [|reflexivity].
  destruct (fgets_line 127 s); reflexivity.
Qed.

Lemma board_block_quiet (fuel : nat) (fs : sysfs) (fr : frame)
    (hostname fragment banner : string) (pmbus_list : list pmbus_info) (errno : Z) :
  board_block fuel fs false fr hostname fragment banner pmbus_list errno
  = match board_block fuel fs true fr hostname fragment banner pmbus_list errno with
    | Some (st, l, e, t) => Some (st, l, e, quiet t)
    | None => None
    end.
Proof.
  unfold board_block. destruct (strstr hostname fragment); [|reflexivity].
  rewrite print_pmbus_info_quiet.
  destruct (print_pmbus_info fuel fs true fr pmbus_list errno) as [r|]; reflexivity.
Qed.

(** X12.  [verbose_flag] changes nothing in what [print_power_utilization]
    does except what it prints under [if (verbose_flag)]: run without it,
    the function ends the same way (the same return value or the same
    fault), leaves the same tables and makes the same calls in the same
    order; its trace is the verbose trace without the [Verbose] events. *)
Theorem power_report_verbosity (fuel : nat) (fs : sysfs)
    (command_output : option string) (frames : nat -> frame) (tbs : tables)
    (errno : Z) :
  print_power_utilization fuel fs false command_output frames tbs errno
  = quiet_power
      (print_power_utilization fuel fs true command_output frames tbs errno).
Proof.
  unfold print_power_utilization.
  rewrite read_hostname_quiet.
  destruct (read_hostname true command_output) as [hostname t0]. cbn [fst snd].
  rewrite !board_block_quiet.
  destruct (board_block fuel fs true (frames 0%nat) hostname "u96v2" "Ultra96-V2"
              (tb_ultra96v2 tbs) errno) as [[[[st1 l1] e1] t1]|]; [|reflexivity].
  destruct st1; [|cbn [quiet_power pw_result pw_tables pw_errno pw_trace]; rewrite !quiet_app; reflexivity].
  rewrite !board_block_quiet.
  destruct (board_block fuel fs true (frames 1%nat) hostname "uz7ev"
              "UltraZed-7EV-EVCC" (tb_uz7ev_evcc tbs) e1) as [[[[st2 l2] e2] t2]|];
    [|reflexivity].
  destruct st2; [|cbn [quiet_power pw_result pw_tables pw_errno pw_trace]; rewrite !quiet_app; reflexivity].
  rewrite !board_block_quiet.
  destruct (board_block fuel fs true (frames 2%nat) hostname "uz3eg" "UltraZed-3EG"
              (tb_uz3eg_xxx tbs) e2) as [[[[st3 l3] e3] t3]|]; [|reflexivity].
  destruct st3; cbn [quiet_power pw_result pw_tables pw_errno pw_trace]; rewrite !quiet_app; reflexivity.
Qed.

(** ** Lookup by device name *)

Example get_device_hwmon_id_example :
  fst (fst (get_device_hwmon_id scenario_sbc false "ir38060" "" 0)) = 1 /\
  fst (fst (get_device_hwmon_id scenario_sbc false "ina260_u14" "" 0)) = -1.
Proof. split; reflexivity. Qed.

Lemma read_sysfs_entry_value (fs : sysfs) (filename value : string) (errno : Z) :
  snd (fst (fst (read_sysfs_entry fs filename value errno)))
  = match sys_file fs filename with
    | Ok content => fscanf_s content value
    | Err _ => value
    end.
Proof. unfold read_sysfs_entry. destruct (sys_file fs filename); reflexivity. Qed.

Lemma hwmon_id_from_first (fs : sysfs) (v : bool) (name : string) :
  forall (steps : nat) (i : Z) (device_name : string) (errno : Z),
    device_name <> name ->
    let ret := fst (fst (fst (hwmon_id_from steps fs v name i device_name errno))) in
    (ret = -1 /\ forall j, i <= j < i + Z.of_nat steps -> ~ named fs name j) \/
    (i <= ret < i + Z.of_nat steps /\ named fs name ret /\
     forall j, i <= j < ret -> ~ named fs name j).
Proof.
  induction steps as [|steps IH]; intros i dn errno Hdn; cbn zeta.
  - left. split; [reflexivity|]. intros j Hj. lia.
  - cbn [hwmon_id_from].
    pose proof (read_sysfs_entry_value fs (hwmon_name_file i) dn errno) as Hval.
    destruct (read_sysfs_entry fs (hwmon_name_file i) dn errno) as [[[r dn'] e'] t].
    cbn [fst snd] in Hval.
    destruct (String.eqb name dn') eqn:Heq.
    + apply String.eqb_eq in Heq. cbn [fst]. right.
      split; [lia|]. split; [|intros j Hj; lia].
      destruct (sys_file fs (hwmon_name_file i)) as [content|err] eqn:Hf.
      * exists content. split; [exact Hf|].
        unfold fscanf_s in Hval. destruct (scan_token content) as [w|].
        -- congruence.
        -- exfalso. apply Hdn. congruence.
      * exfalso. apply Hdn. congruence.
    + apply String.eqb_neq in Heq.
      assert (Hnot : ~ named fs name i).
      { intros [content [Hf Ht]]. rewrite Hf in Hval.
        unfold fscanf_s in Hval. rewrite Ht in Hval. congruence. }
      assert (Hdn' : dn' <> name) by congruence.
      specialize (IH (i + 1) dn' e' Hdn'). cbn zeta in IH.
      destruct (hwmon_id_from steps fs v name (i + 1) dn' e') as [[[r2 d2] e2] t2].
      cbn [fst] in IH |- *.
      destruct IH as [[Hr Hall]|[Hr [Hn Hall]]].
      * left. split; [exact Hr|]. intros j Hj.
        destruct (Z.eq_dec j i) as [->|Hne]; [exact Hnot|]. apply Hall. lia.
      * right. split; [lia|]. split; [exact Hn|]. intros j Hj.
        destruct (Z.eq_dec j i) as [->|Hne]; [exact Hnot|]. apply Hall. lia.
Qed.

(** X13.  [get_device_hwmon_id] returns the first instance that carries the
    name.  Unless the fresh [device_name] buffer happens to hold the name
    already, it returns the least index below the count whose [name] file
    opens with the wanted name as its token, and -1 when there is none; a
    [name] file that does not open or holds no token is passed over. *)
Theorem get_device_hwmon_id_first (fs : sysfs) (verbose_flag : bool)
    (name device_name : string) (errno : Z) :
  device_name <> name ->
  let num := fst (fst (count_hwmon_reg_devices fs errno)) in
  let ret := fst (fst (get_device_hwmon_id fs verbose_flag name device_name errno)) in
  (ret = -1 /\ forall j, 0 <= j < num -> ~ named fs name j) \/
  (0 <= ret < num /\ named fs name ret /\
   forall j, 0 <= j < ret -> ~ named fs name j).
Proof.
  intros Hdn. cbn zeta. unfold get_device_hwmon_id.
  pose proof (count_hwmon_reg_devices_nonneg fs errno) as Hnn.
  destruct (count_hwmon_reg_devices fs errno) as [[num e] t]. cbn [fst] in Hnn |- *.
  pose proof (hwmon_id_from_first fs verbose_flag name (Z.to_nat num) 0
                device_name e Hdn) as H.
  cbn zeta in H.
  destruct (hwmon_id_from (Z.to_nat num) fs verbose_flag name 0 device_name e)
    as [[[r d] e'] t'].
  cbn [fst] in H |- *. rewrite Z2Nat.id in H by exact Hnn. exact H.
Qed.

Lemma get_device_hwmon_id_first_witness :
  (fst (fst (get_device_hwmon_id scenario_sbc true "ir38060" "" 0)) = -1 /\
   forall j, 0 <= j < fst (fst (count_hwmon_reg_devices scenario_sbc 0)) ->
             ~ named scenario_sbc "ir38060" j) \/
  (0 <= fst (fst (get_device_hwmon_id scenario_sbc true "ir38060" "" 0))
   < fst (fst (count_hwmon_reg_devices scenario_sbc 0)) /\
   named scenario_sbc "ir38060"
     (fst (fst (get_device_hwmon_id scenario_sbc true "ir38060" "" 0))) /\
   forall j, 0 <= j < fst (fst (get_device_hwmon_id scenario_sbc true "ir38060" "" 0)) ->
             ~ named scenario_sbc "ir38060" j).
Proof.
  apply (get_device_hwmon_id_first scenario_sbc true "ir38060" "" 0).
  discriminate.
Defined.

Lemma open_streams_keeps (fs : sysfs) (p content : string) :
  forall (t : trace) (acc : list string),
    Forall no_fclose t ->
    In p acc \/ (In (Fopen p) t /\ sys_file fs p = Ok content) ->
    In p (open_streams fs t acc).
Proof.
  induction t as [|e t IH]; intros acc Hno H.
  - cbn [open_streams]. destruct H as [H|[[] _]]. exact H.
  - inversion Hno as [|e' t' He Ht]; subst.
    assert (Hrest : forall acc', In p acc' \/ (In (Fopen p) t /\ sys_file fs p = Ok content) ->
                                 In p (open_streams fs t acc')).
    { intros acc'. apply IH. exact Ht. }
    destruct H as [Hacc|[[Hhd|Htl] Hf]].
    + destruct e; cbn [open_streams]; try (apply Hrest; left; exact Hacc).
      * destruct (sys_file fs path); apply Hrest; left;
          [right; exact Hacc|exact Hacc].
      * destruct He.
    + subst e. cbn [open_streams]. rewrite Hf. apply Hrest. left. left. reflexivity.
    + destruct e; cbn [open_streams]; try (apply Hrest; right; split; assumption).
      destruct (sys_file fs path); apply Hrest; right; split; assumption.
Qed.

Lemma diag_no_fclose (v : bool) (s : string) : Forall no_fclose (diag v s).
Proof. destruct v; cbn; repeat constructor. Qed.

Lemma read_sysfs_entry_trace (fs : sysfs) (filename value : string) (errno : Z) :
  let t := snd (read_sysfs_entry fs filename value errno) in
  Forall no_fclose t /\ In (Fopen filename) t.
Proof.
  cbn zeta. unfold read_sysfs_entry.
  destruct (sys_file fs filename); cbn [snd]; split;
    try (repeat constructor); left; reflexivity.
Qed.

Lemma hwmon_id_from_trace (fs : sysfs) (v : bool) (name : string) :
  forall (steps : nat) (i : Z) (device_name : string) (errno : Z),
    0 <= i ->
    let r := hwmon_id_from steps fs v name i device_name errno in
    Forall no_fclose (snd r) /\
    forall j, i <= j < i + Z.of_nat steps ->
              fst (fst (fst r)) = -1 \/ j <= fst (fst (fst r)) ->
              In (Fopen (hwmon_name_file j)) (snd r).
Proof.
  induction steps as [|steps IH]; intros i dn errno Hi; cbn zeta.
  - cbn [hwmon_id_from snd]. split; [constructor|]. intros j Hj. lia.
  - cbn [hwmon_id_from].
    pose proof (read_sysfs_entry_trace fs (hwmon_name_file i) dn errno) as Hrd.
    cbn zeta in Hrd.
    destruct (read_sysfs_entry fs (hwmon_name_file i) dn errno) as [[[r dn'] e'] t].
    cbn [snd] in Hrd. destruct Hrd as [Hno Hin].
    destruct (String.eqb name dn').
    + cbn [fst snd]. split; [exact Hno|]. intros j Hj Hret.
      assert (j = i) by lia. subst j. exact Hin.
    + assert (Hi' : 0 <= i + 1) by lia.
      specialize (IH (i + 1) dn' e' Hi'). cbn zeta in IH.
      destruct (hwmon_id_from steps fs v name (i + 1) dn' e') as [[[r2 d2] e2] t2].
      cbn [fst snd] in IH |- *. destruct IH as [Hno2 Hin2].
      split.
      * repeat (apply Forall_app; split); auto using diag_no_fclose.
      * intros j Hj Hret. destruct (Z.eq_dec j i) as [->|Hne].
        -- apply in_or_app. left. exact Hin.
        -- apply in_or_app. right. apply in_or_app. right.
           apply in_or_app. right. apply Hin2; [lia|exact Hret].
Qed.

(** X14.  [get_device_hwmon_id] closes none of the files it opens: at its
    return every [name] file it visited and could open is still an open
    stream.  The instances visited are those up to the one returned, or all
    those below the count when it returns -1. *)
Theorem get_device_hwmon_id_keeps_streams (fs : sysfs) (verbose_flag : bool)
    (name device_name : string) (errno : Z) (j : Z) (content : string) :
  let num := fst (fst (count_hwmon_reg_devices fs errno)) in
  let r := get_device_hwmon_id fs verbose_flag name device_name errno in
  0 <= j < num ->
  fst (fst r) = -1 \/ j <= fst (fst r) ->
  sys_file fs (hwmon_name_file j) = Ok content ->
  In (hwmon_name_file j) (open_streams fs (snd r) []).
Proof.
  cbn zeta. unfold get_device_hwmon_id.
  pose proof (count_hwmon_reg_devices_nonneg fs errno) as Hnn.
  assert (Hct : Forall no_fclose (snd (count_hwmon_reg_devices fs errno))).
  { unfold count_hwmon_reg_devices. destruct (sys_dir fs hwmon_class);
      cbn [snd]; repeat constructor. }
  destruct (count_hwmon_reg_devices fs errno) as [[num e] t].
  cbn [fst snd] in Hnn, Hct |- *.
  pose proof (hwmon_id_from_trace fs verbose_flag name (Z.to_nat num) 0
                device_name e (Z.le_refl 0)) as H.
  cbn zeta in H.
  destruct (hwmon_id_from (Z.to_nat num) fs verbose_flag name 0 device_name e)
    as [[[r d] e'] t'].
  cbn [fst snd] in H |- *. destruct H as [Hno Hin].
  intros Hj Hret Hf.
  apply (open_streams_keeps fs _ content).
  - apply Forall_app. split; assumption.
  - right. split; [|exact Hf]. apply in_or_app. right.
    apply Hin; [rewrite Z2Nat.id by exact Hnn; lia|exact Hret].
Qed.

Lemma get_device_hwmon_id_keeps_streams_witness :
  In (hwmon_name_file 0)
     (open_streams scenario_sbc
        (snd (get_device_hwmon_id scenario_sbc false "ir38060" "" 0)) []).
Proof.
  apply (get_device_hwmon_id_keeps_streams scenario_sbc false "ir38060" "" 0 0
           ("ams" ++ newline)).
  - vm_compute. split; [discriminate|reflexivity].
  - right. vm_compute. discriminate.
  - reflexivity.
Defined.
